(** * klubbspel: the i18n string checkers

    A shallow embedding of [scripts/validate_i18n.py] and
    [scripts/find_hardcoded_strings.py], and the properties of their
    classifier, annotation parser, literal extractor and key reconciliation.

    Modelling conventions.
    - A Python [str] is a [string]; the embedding covers ASCII text.  The
      character predicates below ([isupper], [isdigit], [isspace], [\w]) and
      [lower] agree with Python on code points 0..127; a character above 127
      is treated as a caseless symbol that is neither a digit, a space nor a
      word character.
    - A Python exception is a value [Raise e] of the result type [pyres];
      [or] and [and] are the lazy connectives [|||] and [&&&] on results.
    - Python sets are [gset]s, dicts are [gmap]s, lists are [list]s.
    - A loop body that appends to a list is a function on the list; the loop
      is [for_each]. *)

From Stdlib Require Import Ascii String List Arith Lia Bool.
From stdpp Require Import base decidable gmap strings list fin_maps fin_sets sorting.

Open Scope string_scope.
Open Scope list_scope.
Open Scope nat_scope.

(** ** Results and exceptions *)

Inductive exn : Type :=
| IndexError
| AttributeError.

Inductive pyres (A : Type) : Type :=
| Ok (a : A)
| Raise (e : exn).

Arguments Ok {A} a.
Arguments Raise {A} e.

Definition bind {A B : Type} (m : pyres A) (k : A -> pyres B) : pyres B :=
  match m with
  | Ok a => k a
  | Raise e => Raise e
  end.

Notation "'let*' x ':=' m 'in' k" := (bind m (fun x => k))
  (at level 10, x name, m at level 100, k at level 200).

(** [a or b]: [b] is evaluated only when [a] is false. *)
Definition or_else (a b : pyres bool) : pyres bool :=
  match a with
  | Ok true => Ok true
  | Ok false => b
  | Raise e => Raise e
  end.

(** [a and b]: [b] is evaluated only when [a] is true. *)
Definition and_then (a b : pyres bool) : pyres bool :=
  match a with
  | Ok true => b
  | Ok false => Ok false
  | Raise e => Raise e
  end.

Infix "|||" := or_else (at level 50, left associativity).
Infix "&&&" := and_then (at level 40, left associativity).

(** A pure boolean is a result that cannot raise. *)
Coercion pure_bool (b : bool) : pyres bool := Ok b.

(** [for x in l: body], threading the loop's mutable state. *)
Fixpoint for_each {A S : Type} (l : list A) (body : A -> S -> pyres S) (s : S)
  : pyres S :=
  match l with
  | [] => Ok s
  | x :: rest => let* s' := body x s in for_each rest body s'
  end.

(** [enumerate(l, n)] *)
Fixpoint enumerate {A : Type} (n : nat) (l : list A) : list (nat * A) :=
  match l with
  | [] => []
  | x :: rest => (n, x) :: enumerate (S n) rest
  end.

(** ** Python string primitives *)

Module Py.

Definition newline : ascii := "010"%char.
Definition tab : ascii := "009"%char.
Definition dquote : ascii := "034"%char.
Definition squote : ascii := "'"%char.
Definition backslash : ascii := "\"%char.

Definition in_range (lo hi c : ascii) : bool :=
  Ascii.leb lo c && Ascii.leb c hi.

Definition is_lower_char (c : ascii) : bool := in_range "a" "z" c.
Definition is_upper_char (c : ascii) : bool := in_range "A" "Z" c.
Definition is_digit_char (c : ascii) : bool := in_range "0" "9" c.

(** [str.isspace] on one character: TAB..CR, FS..US and the space. *)
Definition is_space_char (c : ascii) : bool :=
  in_range "009" "013" c || in_range "028" "032" c.

(** [\w] *)
Definition is_word_char (c : ascii) : bool :=
  is_lower_char c || is_upper_char c || is_digit_char c || Ascii.eqb c "_".

Definition is_hex_char (c : ascii) : bool :=
  is_digit_char c || in_range "a" "f" c || in_range "A" "F" c.

Definition lower_char (c : ascii) : ascii :=
  if is_upper_char c then ascii_of_nat (nat_of_ascii c + 32) else c.

(** [len(s)] *)
Definition len (s : string) : nat := String.length s.

(** [s.lower()] *)
Fixpoint lower (s : string) : string :=
  match s with
  | "" => ""
  | String c r => String (lower_char c) (lower r)
  end.

(** [s.startswith(p)] *)
Fixpoint startswith (p s : string) : bool :=
  match p, s with
  | "", _ => true
  | String a p', String b s' => Ascii.eqb a b && startswith p' s'
  | String _ _, "" => false
  end.

(** [s.startswith((p1, p2, ...))] *)
Definition startswith_any (ps : list string) (s : string) : bool :=
  existsb (fun p => startswith p s) ps.

(** [sub in s] *)
Fixpoint contains (sub s : string) : bool :=
  startswith sub s ||
  match s with
  | "" => false
  | String _ r => contains sub r
  end.

(** [s.endswith(suf)]: some tail of [s] is [suf]. *)
Fixpoint endswith (suf s : string) : bool :=
  String.eqb suf s ||
  match s with
  | "" => false
  | String _ r => endswith suf r
  end.

Definition endswith_any (sufs : list string) (s : string) : bool :=
  existsb (fun suf => endswith suf s) sufs.

(** [s in [x1, x2, ...]] *)
Definition in_list (s : string) (l : list string) : bool :=
  existsb (String.eqb s) l.

(** Cut [s] at every character satisfying [sep]; empty pieces are kept. *)
Fixpoint split_when (sep : ascii -> bool) (s : string) : list string :=
  match s with
  | "" => [""]
  | String c r =>
      if sep c then "" :: split_when sep r
      else match split_when sep r with
           | piece :: pieces => String c piece :: pieces
           | [] => [String c ""]
           end
  end.

(** [s.split(c)] for a one-character separator. *)
Definition split (c : ascii) (s : string) : list string :=
  split_when (Ascii.eqb c) s.

(** [s.split()]: pieces between runs of whitespace, none empty. *)
Definition split_ws (s : string) : list string :=
  List.filter (fun piece => negb (String.eqb piece ""))
    (split_when is_space_char s).

(** [l[i]] *)
Definition index {A : Type} (l : list A) (i : nat) : pyres A :=
  match nth_error l i with
  | Some x => Ok x
  | None => Raise IndexError
  end.

(** [s[0]] *)
Definition first_char (s : string) : pyres ascii :=
  match s with
  | "" => Raise IndexError
  | String c _ => Ok c
  end.

(** [s.isdigit()] *)
Fixpoint all_chars (p : ascii -> bool) (s : string) : bool :=
  match s with
  | "" => true
  | String c r => p c && all_chars p r
  end.

Definition isdigit (s : string) : bool :=
  negb (String.eqb s "") && all_chars is_digit_char s.

(** [c.isupper()] for a one-character string *)
Definition isupper (c : ascii) : bool := is_upper_char c.

Fixpoint lstrip (s : string) : string :=
  match s with
  | "" => ""
  | String c r => if is_space_char c then lstrip r else s
  end.

Fixpoint rev_onto (s acc : string) : string :=
  match s with
  | "" => acc
  | String c r => rev_onto r (String c acc)
  end.

Definition rev (s : string) : string := rev_onto s "".

(** [s.strip()] *)
Definition strip (s : string) : string := rev (lstrip (rev (lstrip s))).

(** [s.replace(old, new)] for a non-empty [old]: occurrences are replaced
    left to right and do not overlap; [skip] counts the characters of an
    occurrence still to be passed over. *)
Fixpoint replace_from (old new : string) (skip : nat) (s : string) : string :=
  match s with
  | "" => ""
  | String c r =>
      match skip with
      | S k => replace_from old new k r
      | O =>
          if startswith old s
          then new +:+ replace_from old new (len old - 1) r
          else String c (replace_from old new 0 r)
      end
  end.

Definition replace (old new s : string) : string := replace_from old new 0 s.

(** [any(x in s for x in xs)] *)
Definition any_in (xs : list string) (s : string) : bool :=
  existsb (fun x => contains x s) xs.

End Py.

(** ** Regular expressions

    The patterns of the sources, in continuation style: a matcher consumes a
    prefix of the text and hands the rest to its continuation, and the
    alternatives of a repetition are tried as a backtracking engine does.
    [re.match] is truthy exactly when some alternative succeeds. *)

Module Re.

Definition matcher : Type := string -> bool.

(** [$]: the end of the text, or just before a final newline. *)
Definition eos : matcher :=
  fun s => String.eqb s "" || String.eqb s (String Py.newline "").

(** One character of a class. *)
Definition one (p : ascii -> bool) (k : matcher) : matcher :=
  fun s =>
    match s with
    | "" => false
    | String c r => p c && k r
    end.

(** [p*], longest first. *)
Fixpoint star (p : ascii -> bool) (k : matcher) (s : string) : bool :=
  match s with
  | "" => k s
  | String c r => (p c && star p k r) || k s
  end.

(** [p+] *)
Definition plus (p : ascii -> bool) (k : matcher) : matcher :=
  one p (star p k).

(** [p{n}] *)
Fixpoint exactly (n : nat) (p : ascii -> bool) (k : matcher) : matcher :=
  match n with
  | O => k
  | S m => one p (exactly m p k)
  end.

(** [p{0,n}], longest first. *)
Fixpoint at_most (n : nat) (p : ascii -> bool) (k : matcher) (s : string)
  : bool :=
  match n with
  | O => k s
  | S m =>
      match s with
      | "" => k s
      | String c r => (p c && at_most m p k r) || k s
      end
  end.

(** [p{lo,hi}] *)
Definition between (lo hi : nat) (p : ascii -> bool) (k : matcher) : matcher :=
  exactly lo p (at_most (hi - lo) p k).

(** The patterns of the extractor are also given by their language, to
    state what [quoted_body] below computes. *)
Inductive regex : Type :=
| Class (p : ascii -> bool)
| Cat (a b : regex)
| Star (a : regex).

Inductive in_lang : regex -> string -> Prop :=
| in_class p c : p c = true -> in_lang (Class p) (String c "")
| in_cat a b s t : in_lang a s -> in_lang b t -> in_lang (Cat a b) (s +:+ t)
| in_star_nil a : in_lang (Star a) ""
| in_star_cons a s t :
    in_lang a s -> in_lang (Star a) t -> in_lang (Star a) (s +:+ t).

(** A character other than the quote [q] and the backslash. *)
Definition plain (q c : ascii) : bool :=
  negb (Ascii.eqb c q) && negb (Ascii.eqb c Py.backslash).

(** [.]: any character but the newline. *)
Definition dot (c : ascii) : bool := negb (Ascii.eqb c Py.newline).

(** Group 1 of the quoted-literal pattern of quote [q]: a run of plain
    characters, then any number of groups made of a backslash, a character
    and a run of plain characters. *)
Definition quoted_group (q : ascii) : regex :=
  Cat (Star (Class (plain q)))
    (Star (Cat (Class (Ascii.eqb Py.backslash))
             (Cat (Class dot) (Star (Class (plain q)))))).

(** A match object of [re.finditer]: where it starts and its group 1. *)
Record Match : Type := { m_start : nat; m_group1 : string }.

(** The text after an opening quote [q], against the rest of the quoted
    literal pattern (a run of characters other than [q] and the backslash,
    then any number of groups made of a backslash, any character but a
    newline, and such a run again, then [q]): group 1 and the text after the
    closing quote.  The pattern leaves no choice: a character other than the
    quote and the backslash extends the run, a backslash takes the next
    character with it, and the first quote met outside such a pair closes
    the match. *)
Fixpoint quoted_body (q : ascii) (s : string) : option (string * string) :=
  match s with
  | "" => None
  | String c r =>
      if Ascii.eqb c q then Some ("", r)
      else if Ascii.eqb c Py.backslash then
        match r with
        | "" => None
        | String d r' =>
            if Ascii.eqb d Py.newline then None
            else
              match quoted_body q r' with
              | Some (g, rest) => Some (String c (String d g), rest)
              | None => None
              end
        end
      else
        match quoted_body q r with
        | Some (g, rest) => Some (String c g, rest)
        | None => None
        end
  end.

(** [re.finditer] for the quoted-literal pattern of quote [q]: the text is
    scanned from the left; a match at [pos] is reported and the scan resumes
    after its closing quote ([skip] counts the characters of the match still
    to be passed over), otherwise the scan moves on by one character. *)
Fixpoint finditer_from (q : ascii) (pos skip : nat) (s : string) : list Match :=
  match s with
  | "" => []
  | String c r =>
      match skip with
      | S k => finditer_from q (S pos) k r
      | O =>
          if Ascii.eqb c q then
            match quoted_body q r with
            | Some (g, _) =>
                {| m_start := pos; m_group1 := g |}
                  :: finditer_from q (S pos) (S (Py.len g)) r
            | None => finditer_from q (S pos) 0 r
            end
          else finditer_from q (S pos) 0 r
      end
  end.

Definition finditer (q : ascii) (line : string) : list Match :=
  finditer_from q 0 0 line.

End Re.

(** ** scripts/validate_i18n.py *)

Module ValidateI18n.
Import Py.

(** *** extract_translation_calls

    [re.findall] of a [t(] call whose argument is a run of one or more
    characters other than the two quotes, between two quote characters and
    followed by [)]. *)

Definition is_quote (c : ascii) : bool :=
  Ascii.eqb c squote || Ascii.eqb c dquote.

(** The text after an opening quote: the key and the length of what was
    consumed up to and including the closing parenthesis. *)
Fixpoint key_body (s : string) : option (string * nat) :=
  match s with
  | "" => None
  | String c r =>
      if is_quote c then
        if startswith ")" r then Some ("", 2) else None
      else
        match key_body r with
        | Some (key, n) => Some (String c key, S n)
        | None => None
        end
  end.

Fixpoint findall_t_calls (skip : nat) (s : string) : list string :=
  match s with
  | "" => []
  | String c r =>
      match skip with
      | S k => findall_t_calls k r
      | O =>
          match r with
          | String p (String q body) =>
              if Ascii.eqb c "t" && Ascii.eqb p "(" && is_quote q then
                match key_body body with
                | Some (String k0 key, n) =>
                    String k0 key :: findall_t_calls (2 + n) r
                | _ => findall_t_calls 0 r
                end
              else findall_t_calls 0 r
          | _ => findall_t_calls 0 r
          end
      end
  end.

Definition extract_translation_calls (content : string) : gset string :=
  list_to_set (findall_t_calls 0 content).

(** *** _is_css_class_string *)

Definition css_indicators : list string :=
  [ "-"; ":"; "["; "]"; "("; ")"; "%"; "px"; "rem"; "em"; "vh"; "vw";
    "flex"; "grid"; "block"; "inline"; "absolute"; "relative"; "fixed";
    "text"; "bg"; "border"; "rounded"; "shadow"; "opacity"; "transform" ].

Definition css_utility_words : list string :=
  [ "w"; "h"; "p"; "m"; "mx"; "my"; "px"; "py"; "mt"; "mb"; "ml"; "mr";
    "pt"; "pb"; "pl"; "pr"; "top"; "left"; "right"; "bottom"; "center";
    "justify"; "items"; "content"; "self"; "auto"; "hidden"; "block";
    "flex"; "grid"; "space"; "gap"; "min"; "max"; "full" ].

(** One round of the counting loop. *)
Definition count_css_class (css_class_count : nat) (cls : string) : nat :=
  if any_in css_indicators (lower cls) then css_class_count + 1
  else if in_list (lower cls) css_utility_words then css_class_count + 1
  else css_class_count.

(** The last line compares the integer count with the floating-point
    product [len(classes) * 0.7].  That is [7 * len(classes) <= 10 * count]:
    the exact product is an integer or at least 1/10 away from one, and for
    every length below 2^50 the rounded product lies within 1/10 of the
    exact one and is not above it when it is an integer. *)
Definition _is_css_class_string (text : string) : bool :=
  if String.eqb text "" || (len text <? 3) then false
  else
    let classes := split_ws text in
    if length classes <? 2 then false
    else
      let css_class_count := fold_left count_css_class classes 0 in
      7 * length classes <=? 10 * css_class_count.

(** *** is_likely_user_facing_text: the exclusions *)

Definition technical_prefixes : list string :=
  [ "data-"; "aria-"; "className"; "class:"; "id-"; "test-"; "btn-";
    "text-"; "bg-"; "border-"; "flex"; "grid"; "w-"; "h-"; "p-"; "m-";
    "space-"; "gap-"; "font-"; "leading-"; "tracking-"; "transform";
    "transition"; "duration-"; "ease-"; "scale-"; "rotate-"; "translate-";
    "shadow-"; "rounded-"; "overflow-"; "z-"; "opacity-"; "cursor-";
    "select-"; "pointer-"; "resize-"; "outline-"; "ring-"; "divide-";
    "group"; "peer"; "animate-"; "sr-"; "not-sr-"; "focus:"; "hover:";
    "active:"; "disabled:"; "checked:"; "invalid:"; "valid:"; "hidden";
    "absolute"; "relative"; "fixed"; "sticky"; "static"; "inset-";
    "top-"; "right-"; "bottom-"; "left-"; "min-"; "max-"; "size-";
    "aspect-"; "col-"; "row-"; "place-"; "justify-"; "items-"; "content-";
    "self-"; "order-"; "basis-"; "grow"; "shrink"; "fill-"; "stroke-";
    "after:"; "before:"; "first:"; "last:"; "odd:"; "even:"; "empty:";
    "md:"; "lg:"; "xl:"; "sm:"; "xs:"; "2xl:"; "dark:"; "light:";
    "mx-"; "my-"; "mt-"; "mb-"; "ml-"; "mr-"; "px-"; "py-"; "pt-"; "pb-";
    "pl-"; "pr-"; "inline-"; "block"; "table"; "flow-" ].

Definition url_prefixes : list string :=
  [ "http"; "www"; "mailto:"; "tel:"; "ftp:"; "./" ].

Definition file_extensions : list string :=
  [ "tsx"; "ts"; "js"; "css"; "png"; "jpg"; "svg"; "json";
    "html"; "xml"; "md"; "txt"; "pdf"; "doc"; "xlsx" ].

Definition technical_terms : list string :=
  [ "div"; "span"; "button"; "input"; "form"; "img"; "svg"; "path";
    "g"; "rect"; "circle"; "true"; "false"; "null"; "undefined"; "px";
    "rem"; "em"; "vh"; "vw"; "auto"; "none"; "block"; "inline"; "flex";
    "grid"; "absolute"; "relative"; "fixed"; "sticky"; "left"; "right";
    "top"; "bottom"; "center"; "start"; "end"; "wrap"; "nowrap";
    "use client"; "ArrowLeft"; "ArrowRight"; "Bold" ].

Definition css_unit_suffixes : list string :=
  [ "px"; "rem"; "em"; "%"; "vh"; "vw"; "deg"; "ms"; "s" ].

Definition non_ui_strings : list string :=
  [ "GET"; "POST"; "PUT"; "DELETE"; "PATCH"; "HEAD"; "OPTIONS";
    "application/json"; "text/plain"; "text/html"; "image/png";
    "Bearer"; "Basic"; "Content-Type"; "Authorization"; "Accept";
    "Accept-Language"; "Origin";
    "success"; "error"; "warning"; "info"; "debug";
    "created"; "updated"; "deleted"; "AbortError"; "NETWORK_ERROR";
    "MEMBERSHIP_ROLE_MEMBER"; "MEMBERSHIP_ROLE_ADMIN"; "SERIES_VISIBILITY_OPEN";
    "SERIES_VISIBILITY_CLUB_ONLY"; "CLUB_ADMIN_OR_PLATFORM_OWNER_REQUIRED";
    "CLUB_ID_REQUIRED_FOR_NON_PLATFORM_OWNERS"; "LOGIN_REQUIRED" ].

(** [^#[0-9a-fA-F]{3,6}$] *)
Definition re_hex_color : Re.matcher :=
  Re.one (Ascii.eqb "#") (Re.between 3 6 is_hex_char Re.eos).

(** [^[a-z][a-zA-Z0-9]*$] *)
Definition re_camel_case : Re.matcher :=
  Re.one is_lower_char
    (Re.star (fun c => is_lower_char c || is_upper_char c || is_digit_char c)
       Re.eos).

(** [^[a-z][a-z0-9_]*$] *)
Definition re_snake_case : Re.matcher :=
  Re.one is_lower_char
    (Re.star (fun c => is_lower_char c || is_digit_char c || Ascii.eqb c "_")
       Re.eos).

(** [^[a-z][a-z0-9-]*$] *)
Definition re_kebab_case : Re.matcher :=
  Re.one is_lower_char
    (Re.star (fun c => is_lower_char c || is_digit_char c || Ascii.eqb c "-")
       Re.eos).

(** The class of the selector pattern: a word character, a space, or one
    of [- : [ ] ( ) > & + ~ * . , # %]. *)
Definition is_selector_char (c : ascii) : bool :=
  is_word_char c || is_space_char c ||
  existsb (Ascii.eqb c)
    [ "-"; ":"; "["; "]"; "("; ")"; ">"; "&"; "+"; "~"; "*"; "."; ","; "#";
      "%" ]%char.

Definition re_css_selector : Re.matcher :=
  Re.plus is_selector_char Re.eos.

Definition css_selector_tokens : list string :=
  [ "[&"; "::"; "->"; "calc("; "var("; "min-"; "max-" ].

(** The operands of the [or] chain of the [if], one definition each, in
    the order of the source. *)

Definition ex_technical_prefix (text : string) : pyres bool :=
  startswith_any technical_prefixes text.

Definition ex_path (text : string) : pyres bool :=
  contains "/" text &&& negb (contains " " text).

Definition ex_url_prefix (text : string) : pyres bool :=
  startswith_any url_prefixes text.

Definition ex_file_extension (text : string) : pyres bool :=
  contains "." text
  &&& (length (split "." text) =? 2)
  &&& (let* ext := index (split "." text) 1 in Ok (in_list ext file_extensions)).

Definition ex_email (text : string) : pyres bool :=
  contains "@" text &&& contains "." text.

Definition ex_short (text : string) : pyres bool :=
  len text <? 3.

Definition ex_technical_term (text : string) : pyres bool :=
  in_list (lower text) technical_terms.

Definition ex_css_unit_suffix (text : string) : pyres bool :=
  endswith_any css_unit_suffixes text.

Definition ex_hex_color (text : string) : pyres bool :=
  re_hex_color text.

Definition ex_digits (text : string) : pyres bool :=
  isdigit text.

Definition ex_single_char (text : string) : pyres bool :=
  len text =? 1.

Definition ex_blank (text : string) : pyres bool :=
  String.eqb (strip text) "".

Definition ex_camel_case (text : string) : pyres bool :=
  re_camel_case text.

Definition ex_snake_case (text : string) : pyres bool :=
  re_snake_case text.

Definition ex_kebab_case (text : string) : pyres bool :=
  re_kebab_case text.

Definition ex_non_ui_string (text : string) : pyres bool :=
  in_list text non_ui_strings.

Definition ex_css_selector (text : string) : pyres bool :=
  re_css_selector text &&& any_in css_selector_tokens text.

Definition ex_css_class_string (text : string) : pyres bool :=
  _is_css_class_string text.

Definition exclusion_rules : list (string -> pyres bool) :=
  [ ex_technical_prefix; ex_path; ex_url_prefix; ex_file_extension;
    ex_email; ex_short; ex_technical_term; ex_css_unit_suffix; ex_hex_color;
    ex_digits; ex_single_char; ex_blank; ex_camel_case; ex_snake_case;
    ex_kebab_case; ex_non_ui_string; ex_css_selector; ex_css_class_string ].

(** [r1(text) or r2(text) or ...] *)
Fixpoint any_rule (rules : list (string -> pyres bool)) (text : string)
  : pyres bool :=
  match rules with
  | [] => Ok false
  | rule :: rest => rule text ||| any_rule rest text
  end.

(** The condition of the [if]. *)
Definition obviously_technical (text : string) : pyres bool :=
  any_rule exclusion_rules text.

(** *** is_likely_user_facing_text: the inclusions *)

Definition common_words : list string :=
  [ "error"; "failed"; "success"; "loading"; "please"; "welcome"; "invalid";
    "required"; "create"; "update"; "delete"; "save"; "cancel"; "confirm";
    "login"; "logout"; "sign"; "email"; "password"; "name"; "user"; "admin";
    "member"; "club"; "player"; "match"; "series"; "tournament"; "league";
    "score"; "win"; "lose"; "active"; "inactive"; "merge"; "remove";
    "promote"; "demote"; "invite" ].

Definition sentence_punctuation : list string :=
  [ "."; "!"; "?"; ":"; ";"; "," ].

Definition sentence_endings : list string :=
  [ "..."; ":"; "!"; "?" ].

(** [text[0].isupper()] *)
Definition first_isupper (text : string) : pyres bool :=
  let* c := first_char text in Ok (isupper c).

Definition in_has_space (text : string) : pyres bool :=
  contains " " text.

Definition in_capitalised (text : string) : pyres bool :=
  first_isupper text &&& (4 <? len text).

Definition in_common_word (text : string) : pyres bool :=
  existsb (fun word => contains word (lower text)) common_words.

Definition in_punctuation (text : string) : pyres bool :=
  existsb (fun char => contains char text) sentence_punctuation.

Definition in_sentence_ending (text : string) : pyres bool :=
  endswith_any sentence_endings text.

Definition in_label (text : string) : pyres bool :=
  (3 <? len text) &&& (len text <? 50) &&& first_isupper text.

Definition inclusion_rules : list (string -> pyres bool) :=
  [ in_has_space; in_capitalised; in_common_word; in_punctuation;
    in_sentence_ending; in_label ].

(** The expression of the final [return]. *)
Definition likely_user_facing (text : string) : pyres bool :=
  any_rule inclusion_rules text.

Definition is_likely_user_facing_text (text : string) : pyres bool :=
  let* technical := obviously_technical text in
  if technical then Ok false else likely_user_facing text.

(** *** parse_ignore_comments *)

(** The variables of the loop. *)
Record IgnoreState : Type := {
  ignored_lines : gset nat;
  ignored_blocks : gset (nat * nat);
  ignore_entire_file : bool;
  in_ignore_block : bool;
  block_start : option nat
}.

Definition initial_ignore_state : IgnoreState :=
  {| ignored_lines := ∅; ignored_blocks := ∅; ignore_entire_file := false;
     in_ignore_block := false; block_start := None |}.

Definition has_file_marker (line : string) : bool :=
  contains "// i18n-ignore-file" line || contains "/* i18n-ignore-file" line.

Definition has_inline_marker (line : string) : bool :=
  contains "// i18n-ignore" line || contains "/* i18n-ignore" line.

(** The condition of the [if] of the block markers. *)
Definition has_block_start_marker (line : string) : bool :=
  contains "/* i18n-ignore-block */" line || contains "// i18n-ignore-block" line.

(** The condition of its [elif]. *)
Definition has_block_end_marker (line : string) : bool :=
  contains "/* i18n-ignore-block-end */" line
  || contains "// i18n-ignore-block-end" line.

(** [block_start] as a condition: set, and not zero. *)
Definition truthy (n : option nat) : bool :=
  match n with
  | Some (S _) => true
  | _ => false
  end.

(** The body of the loop over the numbered lines. *)
Definition parse_line (st : IgnoreState) (numbered : nat * string) : IgnoreState :=
  let '(line_num, line) := numbered in
  let st1 :=
    if has_file_marker line
    then {| ignored_lines := ignored_lines st;
            ignored_blocks := ignored_blocks st;
            ignore_entire_file := true;
            in_ignore_block := in_ignore_block st;
            block_start := block_start st |}
    else st in
  let st2 :=
    if has_inline_marker line
    then {| ignored_lines := {[line_num]} ∪ ignored_lines st1;
            ignored_blocks := ignored_blocks st1;
            ignore_entire_file := ignore_entire_file st1;
            in_ignore_block := in_ignore_block st1;
            block_start := block_start st1 |}
    else st1 in
  if has_block_start_marker line
  then {| ignored_lines := ignored_lines st2;
          ignored_blocks := ignored_blocks st2;
          ignore_entire_file := ignore_entire_file st2;
          in_ignore_block := true;
          block_start := Some line_num |}
  else if has_block_end_marker line
  then {| ignored_lines := ignored_lines st2;
          ignored_blocks :=
            match block_start st2 with
            | Some start =>
                if in_ignore_block st2 && truthy (block_start st2)
                then {[(start, line_num)]} ∪ ignored_blocks st2
                else ignored_blocks st2
            | None => ignored_blocks st2
            end;
          ignore_entire_file := ignore_entire_file st2;
          in_ignore_block := false;
          block_start := None |}
  else st2.

Definition parse_lines (lines : list string) : IgnoreState :=
  fold_left parse_line (enumerate 1 lines) initial_ignore_state.

Definition parse_ignore_comments (content : string)
  : gset nat * gset (nat * nat) * bool :=
  let lines := split newline content in
  let st := parse_lines lines in
  (ignored_lines st, ignored_blocks st, ignore_entire_file st).

(** *** is_line_ignored *)

Definition is_line_ignored (line_num : nat) (ignored_lines : gset nat)
    (ignored_blocks : gset (nat * nat)) : bool :=
  if bool_decide (line_num ∈ ignored_lines) then true
  else
    existsb
      (fun '(block_start, block_end) =>
         (block_start <=? line_num) && (line_num <=? block_end))
      (elements ignored_blocks).

(** *** extract_hardcoded_strings *)

Definition skipped_prefixes : list string :=
  [ "import "; "export "; "//"; "/*"; "*/"; "<!--" ].

(** The condition of the [continue]. *)
Definition skipped_line (line : string) : bool :=
  startswith_any skipped_prefixes (strip line) || contains "eslint-disable" line.

(** The two patterns, by their quote. *)
Definition quote_patterns : list ascii := [ squote; dquote ].

(** The chain of four [replace] calls. *)
Definition unescape (text : string) : string :=
  replace (String backslash "t") (String tab "")
    (replace (String backslash "n") (String newline "")
       (replace (String backslash "'") "'"
          (replace (String backslash (String dquote "")) (String dquote "")
             text))).

Definition extract_hardcoded_strings (content file_path : string)
  : pyres (list (string * nat * bool)) :=
  let lines := split newline content in
  let '(ignored_lines, ignored_blocks, ignore_entire_file) :=
    parse_ignore_comments content in
  if ignore_entire_file then Ok []
  else
    for_each (enumerate 1 lines)
      (fun '(line_num, line) hardcoded_strings =>
         if skipped_line line then Ok hardcoded_strings
         else
           for_each quote_patterns
             (fun pattern hardcoded_strings =>
                for_each (Re.finditer pattern line)
                  (fun m hardcoded_strings =>
                     let text := unescape (Re.m_group1 m) in
                     let is_ignored :=
                       is_line_ignored line_num ignored_lines ignored_blocks in
                     let* user_facing := is_likely_user_facing_text text in
                     if user_facing
                     then Ok (hardcoded_strings ++ [(text, line_num, is_ignored)])
                     else Ok hardcoded_strings)
                  hardcoded_strings)
             hardcoded_strings)
      [].

(** *** flatten_keys, load_translation_keys *)

(** A parsed JSON document: an object, by its items in order (their keys
    are distinct), or any other value. *)
#[warnings="-register-all"]
Inductive json : Type :=
| JObject (items : list (string * json))
| JOther.

(** [obj.items()] raises on a value that is not an object; the recursive
    call is made on objects only. *)
Fixpoint flatten_keys (obj : json) (prefix : string) : pyres (gset string) :=
  match obj with
  | JOther => Raise AttributeError
  | JObject items =>
      (fix loop (items : list (string * json)) (keys : gset string)
         : pyres (gset string) :=
         match items with
         | [] => Ok keys
         | (key, value) :: rest =>
             let new_key :=
               if String.eqb prefix "" then key else prefix +:+ "." +:+ key in
             match value with
             | JObject _ =>
                 let* nested := flatten_keys value new_key in
                 loop rest (keys ∪ nested)
             | JOther => loop rest (keys ∪ {[new_key]})
             end
         end) items ∅
  end.

Section Files.

(** What [json.load] gives for the file at a path; [None] when the file
    cannot be opened or parsed. *)
Variable read_json : string -> option json.

(** Any exception gives the empty set: a missing or malformed file, and
    a document that is not an object. *)
Definition load_translation_keys (file_path : string) : gset string :=
  match read_json file_path with
  | Some data =>
      match flatten_keys data "" with
      | Ok keys => keys
      | Raise _ => ∅
      end
  | None => ∅
  end.

(** *** validate_translation_keys *)

Definition validate_translation_keys (used_keys : gset string)
    (translation_files : gmap string string) : gmap string (gset string) :=
  map_fold
    (fun lang file_path missing_keys =>
       let available_keys := load_translation_keys file_path in
       let missing := used_keys ∖ available_keys in
       if bool_decide (missing ≠ ∅)
       then <[lang := missing]> missing_keys
       else missing_keys)
    ∅ translation_files.

End Files.

(** *** analyze_frontend_strings: the work on one file *)

Definition finding : Type := string * nat * string.

(** The accumulators of the walk. *)
Record Analysis : Type := {
  all_files : list string;
  issues : list finding;
  ignored_strings : list finding;
  used_keys : gset string
}.

Definition initial_analysis : Analysis :=
  {| all_files := []; issues := []; ignored_strings := []; used_keys := ∅ |}.

(** The union of the key sets of all locales. *)
Definition all_known_keys_of (all_translation_keys : gmap string (gset string))
  : gset string :=
  map_fold (fun _ keys all_known_keys => all_known_keys ∪ keys) ∅
    all_translation_keys.

(** The body of the loop over the extracted strings. *)
Definition record_string (rel_path : string) (all_known_keys : gset string)
    (st : list finding * list finding) (entry : string * nat * bool)
  : list finding * list finding :=
  let '(ignored_strings, issues) := st in
  let '(string, line_num, is_ignored) := entry in
  if is_ignored
  then (ignored_strings ++ [(rel_path, line_num, string)], issues)
  else if bool_decide (string ∈ all_known_keys)
  then (ignored_strings
          ++ [(rel_path, line_num, string +:+ " (known translation key)")],
        issues)
  else (ignored_strings, issues ++ [(rel_path, line_num, string)]).

(** The body of the [try] for a file that was read. *)
Definition analyze_file (all_translation_keys : gmap string (gset string))
    (rel_path content : string) (st : Analysis) : pyres Analysis :=
  let file_keys := extract_translation_calls content in
  let used_keys := used_keys st ∪ file_keys in
  let* hardcoded := extract_hardcoded_strings content rel_path in
  let all_known_keys := all_known_keys_of all_translation_keys in
  let '(ignored_strings, issues) :=
    fold_left (record_string rel_path all_known_keys) hardcoded
      (ignored_strings st, issues st) in
  Ok {| all_files := all_files st ++ [rel_path];
        issues := issues;
        ignored_strings := ignored_strings;
        used_keys := used_keys |}.

(** *** analyze_frontend_strings: the walk and the exit status *)

(** A directory as [os.walk] lists it: its files, each with its text ([None]
    when opening or decoding the file raises), and its subdirectories, in
    the order of the listing.  A name has no separator in it. *)
#[warnings="-register-all"]
Inductive tree : Type :=
| Dir (files : list (string * option string)) (dirs : list (string * tree)).

Definition pruned_dirs : list string :=
  [ "node_modules"; "dist"; "build"; ".git" ].

(** The condition on the name of a file. *)
Definition is_source_file (file : string) : bool :=
  endswith_any [ ".tsx"; ".ts" ] file && negb (endswith ".d.ts" file).

(** [os.path.join] of a directory and a name of the listing. *)
Definition path_join (root name : string) : string :=
  root +:+ "/" +:+ name.

(** The files that the two loops hand to the [try], in order, by their path
    relative to [base_path]: the source files of the directory, then those
    of its subdirectories that are not pruned. *)
Fixpoint source_files (root : string) (t : tree)
  : list (string * option string) :=
  match t with
  | Dir files dirs =>
      map (fun '(file, content) => (path_join root file, content))
        (List.filter (fun '(file, _) => is_source_file file) files)
      ++ flat_map
           (fun '(d, sub) =>
              if in_list d pruned_dirs then []
              else source_files (path_join root d) sub)
           dirs
  end.

(** One round of the loop over the files: the accumulators after it, and
    whether the [except] branch was taken. *)
Definition visit_file (all_translation_keys : gmap string (gset string))
    (rel_path : string) (content : option string) (st : Analysis)
  : Analysis * bool :=
  let listed :=
    {| all_files := all_files st ++ [rel_path];
       issues := issues st;
       ignored_strings := ignored_strings st;
       used_keys := used_keys st |} in
  match content with
  | None => (listed, true)
  | Some content =>
      let used_keys := used_keys st ∪ extract_translation_calls content in
      match extract_hardcoded_strings content rel_path with
      | Raise _ =>
          ({| all_files := all_files listed;
              issues := issues st;
              ignored_strings := ignored_strings st;
              used_keys := used_keys |}, true)
      | Ok hardcoded =>
          let all_known_keys := all_known_keys_of all_translation_keys in
          let '(ignored_strings, issues) :=
            fold_left (record_string rel_path all_known_keys) hardcoded
              (ignored_strings st, issues st) in
          ({| all_files := all_files listed;
              issues := issues;
              ignored_strings := ignored_strings;
              used_keys := used_keys |}, false)
      end
  end.

(** The loop over the files: the accumulators at its end, or the status
    returned from inside it. *)
Fixpoint visit_files (all_translation_keys : gmap string (gset string))
    (fail_on_issues : bool) (files : list (string * option string))
    (st : Analysis) : Analysis + nat :=
  match files with
  | [] => inl st
  | (rel_path, content) :: rest =>
      let '(st', raised) := visit_file all_translation_keys rel_path content st in
      if raised && fail_on_issues then inr 1
      else visit_files all_translation_keys fail_on_issues rest st'
  end.

(** What the run reads: the tree under [frontend/src] ([None] when that path
    does not exist) and the locale files. *)
Record Project : Type := {
  frontend_src : option tree;
  read_locale : string -> option json
}.

Definition translation_files : gmap string string :=
  {[ "sv" := "frontend/src/i18n/locales/sv.json";
     "en" := "frontend/src/i18n/locales/en.json" ]}.

(** The loop that loads the keys of each locale. *)
Definition all_translation_keys_of (p : Project) : gmap string (gset string) :=
  load_translation_keys (read_locale p) <$> translation_files.

(** The accumulators when the results are reported, with the missing keys;
    [None] when the function has returned before. *)
Definition reported (p : Project) (fail_on_issues : bool)
  : option (Analysis * gmap string (gset string)) :=
  match frontend_src p with
  | None => None
  | Some t =>
      match visit_files (all_translation_keys_of p) fail_on_issues
              (source_files "frontend/src" t) initial_analysis with
      | inr _ => None
      | inl st =>
          Some (st,
                validate_translation_keys (read_locale p) (used_keys st)
                  translation_files)
      end
  end.

(** The value returned. *)
Definition analyze_frontend_strings (p : Project) (fail_on_issues : bool) : nat :=
  match frontend_src p with
  | None => 1
  | Some t =>
      match visit_files (all_translation_keys_of p) fail_on_issues
              (source_files "frontend/src" t) initial_analysis with
      | inr status => status
      | inl st =>
          let missing_translation_keys :=
            validate_translation_keys (read_locale p) (used_keys st)
              translation_files in
          let total_issues := length (issues st) + size missing_translation_keys in
          if total_issues =? 0 then 0
          else if fail_on_issues then 0 else 0
      end
  end.

(** [main]: the status handed to [sys.exit]. *)
Definition main (p : Project) : nat := analyze_frontend_strings p false.

End ValidateI18n.

(** ** scripts/find_hardcoded_strings.py

    The earlier checker.  Its classifier has shorter vocabularies and lacks
    the two last exclusions; its extractor knows no annotations.  The rules
    whose text is the same in both files are taken from [ValidateI18n]. *)

Module FindHardcodedStrings.
Import Py.

Definition technical_prefixes : list string :=
  [ "data-"; "aria-"; "className"; "class:"; "id-"; "test-"; "btn-";
    "text-"; "bg-"; "border-"; "flex"; "grid"; "w-"; "h-"; "p-"; "m-";
    "space-"; "gap-"; "font-"; "leading-"; "tracking-"; "transform";
    "transition"; "duration-"; "ease-"; "scale-"; "rotate-"; "translate-";
    "shadow-"; "rounded-"; "overflow-"; "z-"; "opacity-"; "cursor-";
    "select-"; "pointer-"; "resize-"; "outline-"; "ring-"; "divide-" ].

Definition technical_terms : list string :=
  [ "div"; "span"; "button"; "input"; "form"; "img"; "svg"; "path";
    "g"; "rect"; "circle"; "true"; "false"; "null"; "undefined"; "px";
    "rem"; "em"; "vh"; "vw"; "auto"; "none"; "block"; "inline"; "flex";
    "grid"; "absolute"; "relative"; "fixed"; "sticky"; "left"; "right";
    "top"; "bottom"; "center"; "start"; "end"; "wrap"; "nowrap" ].

Definition non_ui_strings : list string :=
  [ "GET"; "POST"; "PUT"; "DELETE"; "PATCH"; "HEAD"; "OPTIONS";
    "application/json"; "text/plain"; "text/html"; "image/png";
    "Bearer"; "Basic"; "Content-Type"; "Authorization";
    "success"; "error"; "warning"; "info"; "debug";
    "created"; "updated"; "deleted" ].

Definition ex_technical_prefix (text : string) : pyres bool :=
  startswith_any technical_prefixes text.

Definition ex_technical_term (text : string) : pyres bool :=
  in_list (lower text) technical_terms.

Definition ex_non_ui_string (text : string) : pyres bool :=
  in_list text non_ui_strings.

Definition exclusion_rules : list (string -> pyres bool) :=
  [ ex_technical_prefix; ValidateI18n.ex_path; ValidateI18n.ex_url_prefix;
    ValidateI18n.ex_file_extension; ValidateI18n.ex_email;
    ValidateI18n.ex_short; ex_technical_term; ValidateI18n.ex_css_unit_suffix;
    ValidateI18n.ex_hex_color; ValidateI18n.ex_digits;
    ValidateI18n.ex_single_char; ValidateI18n.ex_blank;
    ValidateI18n.ex_camel_case; ValidateI18n.ex_snake_case;
    ValidateI18n.ex_kebab_case; ex_non_ui_string ].

Definition obviously_technical (text : string) : pyres bool :=
  ValidateI18n.any_rule exclusion_rules text.

Definition common_words : list string :=
  [ "the"; "and"; "or"; "to"; "for"; "with"; "you"; "your"; "this"; "that";
    "are"; "is"; "was"; "will"; "can"; "have"; "has"; "please"; "error";
    "success"; "failed"; "loading"; "create"; "update"; "delete"; "save";
    "cancel"; "submit"; "confirm"; "welcome"; "login"; "logout"; "sign";
    "email"; "password"; "name"; "user"; "admin"; "member"; "club"; "player";
    "match"; "series"; "tournament"; "league"; "score"; "win"; "lose";
    "active"; "inactive"; "required"; "optional"; "invalid"; "valid" ].

Definition in_common_word (text : string) : pyres bool :=
  existsb (fun word => contains word (lower text)) common_words.

Definition inclusion_rules : list (string -> pyres bool) :=
  [ ValidateI18n.in_has_space; ValidateI18n.in_capitalised; in_common_word;
    ValidateI18n.in_punctuation; ValidateI18n.in_sentence_ending;
    ValidateI18n.in_label ].

Definition likely_user_facing (text : string) : pyres bool :=
  ValidateI18n.any_rule inclusion_rules text.

Definition is_likely_user_facing_text (text : string) : pyres bool :=
  let* technical := obviously_technical text in
  if technical then Ok false else likely_user_facing text.

Definition extract_hardcoded_strings (content file_path : string)
  : pyres (list (string * nat)) :=
  let lines := split newline content in
  for_each (enumerate 1 lines)
    (fun '(line_num, line) hardcoded_strings =>
       if ValidateI18n.skipped_line line then Ok hardcoded_strings
       else
         for_each ValidateI18n.quote_patterns
           (fun pattern hardcoded_strings =>
              for_each (Re.finditer pattern line)
                (fun m hardcoded_strings =>
                   let text := ValidateI18n.unescape (Re.m_group1 m) in
                   let* user_facing := is_likely_user_facing_text text in
                   if user_facing
                   then Ok (hardcoded_strings ++ [(text, line_num)])
                   else Ok hardcoded_strings)
                hardcoded_strings)
           hardcoded_strings)
    [].

(** *** analyze_frontend_strings

    The function prints what it computes and returns nothing; the summary
    below is what it has computed when it prints.  The walk, the condition on
    the names and the locale files are those of [ValidateI18n]. *)

Record Summary : Type := {
  all_files : list string;
  used_keys : gset string;
  total_hardcoded : list (string * nat * string);
  missing_sv : gset string;
  missing_en : gset string;
  priority_strings : list (string * nat * string)
}.

Definition priority_words : list string :=
  [ "error"; "success"; "failed"; "loading"; "welcome"; "please";
    "invalid"; "required"; "create"; "update"; "delete"; "save";
    "cancel"; "confirm"; "login"; "logout"; "sign"; "email" ].

(** The condition of the priority strings. *)
Definition is_priority (string : string) : bool :=
  (10 <? len string)
  && (contains " " string
      || endswith_any [ "!"; "?"; "."; ":" ] string
      || any_in priority_words (lower string)).

(** One round of the loop over the files; an exception in the [try] is
    printed and the loop goes on. *)
Definition visit_file
    (st : list string * gset string * list (string * nat * string))
    (file : string * option string)
  : list string * gset string * list (string * nat * string) :=
  let '(all_files, used_keys, total_hardcoded) := st in
  let '(rel_path, content) := file in
  let all_files := all_files ++ [rel_path] in
  match content with
  | None => (all_files, used_keys, total_hardcoded)
  | Some content =>
      let used_keys := used_keys ∪ ValidateI18n.extract_translation_calls content in
      match extract_hardcoded_strings content rel_path with
      | Raise _ => (all_files, used_keys, total_hardcoded)
      | Ok hardcoded =>
          (all_files, used_keys,
           fold_left
             (fun total_hardcoded '(string, line_num) =>
                total_hardcoded ++ [(rel_path, line_num, string)])
             hardcoded total_hardcoded)
      end
  end.

(** [None] when the path frontend/src does not exist: the function returns
    before it computes anything. *)
Definition analyze_frontend_strings (p : ValidateI18n.Project) : option Summary :=
  match ValidateI18n.frontend_src p with
  | None => None
  | Some t =>
      let sv_keys :=
        ValidateI18n.load_translation_keys (ValidateI18n.read_locale p)
          "frontend/src/i18n/locales/sv.json" in
      let en_keys :=
        ValidateI18n.load_translation_keys (ValidateI18n.read_locale p)
          "frontend/src/i18n/locales/en.json" in
      let '(all_files, used_keys, total_hardcoded) :=
        fold_left visit_file (ValidateI18n.source_files "frontend/src" t)
          ([], ∅, []) in
      Some {| all_files := all_files;
              used_keys := used_keys;
              total_hardcoded := total_hardcoded;
              missing_sv := used_keys ∖ sv_keys;
              missing_en := used_keys ∖ en_keys;
              priority_strings :=
                List.filter (fun '(_, _, string) => is_priority string)
                  total_hardcoded |}
  end.

End FindHardcodedStrings.

(** ** Vocabulary of the statements *)

(** A result that is not an exception. *)
Definition returns {A : Type} (r : pyres A) : Prop := exists a, r = Ok a.

(** The classification of a text: [true] for user-facing. *)
Definition user_facing (classifier : string -> pyres bool) (text : string) : bool :=
  match classifier text with
  | Ok b => b
  | Raise _ => false
  end.

(** A quoted literal where the extractor finds it: its line, the position of
    its pattern in [quote_patterns] and the match. *)
Record Located : Type := {
  l_line : nat;
  l_pattern : nat;
  l_match : Re.Match
}.

Definition l_start (loc : Located) : nat := Re.m_start (l_match loc).

Definition l_text (loc : Located) : string :=
  ValidateI18n.unescape (Re.m_group1 (l_match loc)).

(** The matches of one line, in the order the two inner loops visit them. *)
Definition line_literals (line_num : nat) (line : string) : list Located :=
  flat_map
    (fun '(i, pattern) =>
       map (fun m => {| l_line := line_num; l_pattern := i; l_match := m |})
         (Re.finditer pattern line))
    (enumerate 0 ValidateI18n.quote_patterns).

(** The matches of a file, in the order the three loops visit them. *)
Definition literals (content : string) : list Located :=
  flat_map
    (fun '(line_num, line) =>
       if ValidateI18n.skipped_line line then [] else line_literals line_num line)
    (enumerate 1 (Py.split Py.newline content)).

(** Reading order: top to bottom, and left to right in a line. *)
Definition reading_order (a b : Located) : Prop :=
  l_line a < l_line b \/ (l_line a = l_line b /\ l_start a < l_start b).

(** The order of the loops: by line, then by pattern, then left to right. *)
Definition loop_order (a b : Located) : Prop :=
  l_line a < l_line b \/
  (l_line a = l_line b /\
   (l_pattern a < l_pattern b \/
    (l_pattern a = l_pattern b /\ l_start a < l_start b))).

(** The line numbered [n] (from 1) of a list of lines. *)
Definition nth_line (lines : list string) (n : nat) : option string :=
  match n with
  | O => None
  | S k => nth_error lines k
  end.

(** A line on which the [elif] of the block markers is taken. *)
Definition closes_block (line : string) : bool :=
  negb (ValidateI18n.has_block_start_marker line)
  && ValidateI18n.has_block_end_marker line.

(** What holds of the loop variables of [parse_ignore_comments] once the
    lines [lines] have been read. *)
Definition parse_inv (lines : list string) (st : ValidateI18n.IgnoreState) : Prop :=
  (forall a, ValidateI18n.block_start st = Some a ->
     ValidateI18n.in_ignore_block st = true /\
     exists line, nth_line lines a = Some line /\
                  ValidateI18n.has_block_start_marker line = true) /\
  (forall a b, (a, b) ∈ ValidateI18n.ignored_blocks st ->
     a < b /\
     (exists line, nth_line lines a = Some line /\
                   ValidateI18n.has_block_start_marker line = true) /\
     (exists line, nth_line lines b = Some line /\ closes_block line = true)) /\
  (forall n, n ∈ ValidateI18n.ignored_lines st <->
     exists line, nth_line lines n = Some line /\
                  ValidateI18n.has_inline_marker line = true) /\
  (ValidateI18n.ignore_entire_file st = true <->
     exists n line, nth_line lines n = Some line /\
                    ValidateI18n.has_file_marker line = true).

(** The line of a file, numbered from 1. *)
Definition line_at (content : string) (n : nat) : option string :=
  nth_line (Py.split Py.newline content) n.

(** The entry of the list of [ValidateI18n.extract_hardcoded_strings] for a
    literal, given the annotations of its file. *)
Definition validate_entry (il : gset nat) (ib : gset (nat * nat)) (loc : Located)
  : string * nat * bool :=
  (l_text loc, l_line loc, ValidateI18n.is_line_ignored (l_line loc) il ib).

(** The entry of the list of [FindHardcodedStrings.extract_hardcoded_strings]. *)
Definition find_entry (loc : Located) : string * nat :=
  (l_text loc, l_line loc).

(** What an extracted string adds to [ignored_strings]. *)
Definition ignored_of (rel_path : string) (all_known_keys : gset string)
    (entry : string * nat * bool) : list ValidateI18n.finding :=
  let '(string, line_num, is_ignored) := entry in
  if is_ignored then [(rel_path, line_num, string)]
  else if bool_decide (string ∈ all_known_keys)
  then [(rel_path, line_num, string +:+ " (known translation key)")]
  else [].

(** What an extracted string adds to [issues]. *)
Definition issue_of (rel_path : string) (all_known_keys : gset string)
    (entry : string * nat * bool) : list ValidateI18n.finding :=
  let '(string, line_num, is_ignored) := entry in
  if is_ignored then []
  else if bool_decide (string ∈ all_known_keys) then []
  else [(rel_path, line_num, string)].

(** A file, from its lines. *)
Fixpoint unlines (lines : list string) : string :=
  match lines with
  | [] => ""
  | line :: rest =>
      match rest with
      | [] => line
      | _ => line +:+ String Py.newline (unlines rest)
      end
  end.

(** A file with the file marker on its first line and a user-facing literal
    on its second. *)
Definition whole_file_example : string :=
  unlines ["// i18n-ignore-file"; "const a = 'Hello world';"].

(** A literal that is a key of the Swedish locale, and one that is not. *)
Definition known_key_example : string :=
  "const k = 'Auth.title' + 'Hello world';".

(** A block written with the line-comment spelling of the two markers. *)
Definition line_comment_block_example : string :=
  unlines ["// i18n-ignore-block"; "const a = 'Hello world';";
           "// i18n-ignore-block-end"; "const b = 'Good morning';"].

(** The same block with the block-comment spelling. *)
Definition block_comment_block_example : string :=
  unlines ["/* i18n-ignore-block */"; "const a = 'Hello world';";
           "/* i18n-ignore-block-end */"; "const b = 'Good morning';"].

(** A block that is opened after a literal and never closed. *)
Definition unterminated_block_example : string :=
  unlines ["const a = 'Hello world'; // i18n-ignore-block";
           "const b = 'Good morning';"].

(** A line with a double-quoted literal to the left of a single-quoted one. *)
Definition mixed_quotes_example : string :=
  "t = " +:+ String Py.dquote
    ("Hello there" +:+ String Py.dquote " + 'Good morning';").

(** Matches from left to right. *)
Definition starts_before (a b : Re.Match) : Prop :=
  Re.m_start a < Re.m_start b.

(** Two locale files: the Swedish one lacks the key [errors.notFound]. *)
Definition example_locales (file_path : string) : option ValidateI18n.json :=
  if String.eqb file_path "sv.json" then
    Some (ValidateI18n.JObject
            [("auth",
              ValidateI18n.JObject
                [("login",
                  ValidateI18n.JObject [("title", ValidateI18n.JOther)])])])
  else if String.eqb file_path "en.json" then
    Some (ValidateI18n.JObject
            [("auth",
              ValidateI18n.JObject
                [("login",
                  ValidateI18n.JObject [("title", ValidateI18n.JOther)])]);
             ("errors",
              ValidateI18n.JObject [("notFound", ValidateI18n.JOther)])])
  else None.

Definition example_translation_files : gmap string string :=
  {[ "sv" := "sv.json"; "en" := "en.json" ]}.

Definition example_used_keys : gset string :=
  {[ "auth.login.title"; "errors.notFound" ]}.

(** The texts of group 1, character by character: plain characters and
    pairs of a backslash and a character. *)
Inductive body_tokens (q : ascii) : string -> Prop :=
| tokens_nil : body_tokens q ""
| tokens_plain c g :
    Re.plain q c = true -> body_tokens q g -> body_tokens q (String c g)
| tokens_escape d g :
    Re.dot d = true -> body_tokens q g ->
    body_tokens q (String Py.backslash (String d g)).

(** A block opened on line 10 and closed on line 15, with a literal on
    lines 15 and 16. *)
Definition block_10_15_example : string :=
  unlines
    [ "const a = 1;"; "const b = 2;"; "const c = 3;"; "const d = 4;";
      "const e = 5;"; "const f = 6;"; "const g = 7;"; "const h = 8;";
      "const i = 9;"; "/* i18n-ignore-block */"; "const k = 11;";
      "const l = 12;"; "const m = 13;"; "const n = 14;";
      "const o = 'Hello world'; /* i18n-ignore-block-end */";
      "const p = 'Good morning';" ].

(** The suffix of a finding for a known key. *)
Definition known_key_suffix : string := " (known translation key)".

(** ** Vocabulary of the further properties *)

(** A line that leaves the block variables alone: neither test of the block
    markers succeeds on it. *)
Definition idle_line (line : string) : Prop :=
  ValidateI18n.has_block_start_marker line = false /\
  ValidateI18n.has_block_end_marker line = false.

(** The block variables of [parse_ignore_comments] once the lines [lines] have
    been read: the open block is the last start marker with only idle lines
    after it, and the recorded ranges are the start markers closed by the
    first line after them that is not idle. *)
Definition block_inv (lines : list string) (st : ValidateI18n.IgnoreState) : Prop :=
  (ValidateI18n.in_ignore_block st = true <->
   exists a, ValidateI18n.block_start st = Some a) /\
  (forall a,
     ValidateI18n.block_start st = Some a <->
     (exists line, nth_line lines a = Some line /\
                   ValidateI18n.has_block_start_marker line = true) /\
     (forall k line, a < k -> nth_line lines k = Some line -> idle_line line)) /\
  (forall a b,
     (a, b) ∈ ValidateI18n.ignored_blocks st <->
     a < b /\
     (exists line, nth_line lines a = Some line /\
                   ValidateI18n.has_block_start_marker line = true) /\
     (exists line, nth_line lines b = Some line /\ closes_block line = true) /\
     (forall k line, a < k < b -> nth_line lines k = Some line -> idle_line line)).

(** A block started on line 1 and started again on line 2, closed on line 3. *)
Definition restarted_block_example : string :=
  unlines ["/* i18n-ignore-block */"; "/* i18n-ignore-block */";
           "/* i18n-ignore-block-end */"].

(** The key of an item under a prefix, as [flatten_keys] builds it: the
    empty prefix adds nothing, not even the dot. *)
Definition join_key (prefix key : string) : string :=
  if String.eqb prefix "" then key else prefix +:+ "." +:+ key.

(** The dotted key of a path of item keys under a prefix. *)
Definition dotted (prefix : string) (path : list string) : string :=
  fold_left join_key path prefix.

(** The paths of an object that end in a value which is not an object. *)
Inductive leaf_path : list (string * ValidateI18n.json) -> list string -> Prop :=
| leaf_here items key :
    In (key, ValidateI18n.JOther) items -> leaf_path items [key]
| leaf_below items key inner path :
    In (key, ValidateI18n.JObject inner) items ->
    leaf_path inner path ->
    leaf_path items (key :: path).

(** A locale document with an empty section and a section nested twice. *)
Definition nested_locale_example : ValidateI18n.json :=
  ValidateI18n.JObject
    [ ("empty", ValidateI18n.JObject []);
      ("auth",
       ValidateI18n.JObject
         [ ("title", ValidateI18n.JOther);
           ("login", ValidateI18n.JObject [("title", ValidateI18n.JOther)]) ]) ].

(** What one file of the walk adds to the issues: nothing when it cannot be
    read. *)
Definition file_issues (atk : gmap string (gset string))
    (file : string * option string) : list ValidateI18n.finding :=
  match file.2 with
  | None => []
  | Some content =>
      match ValidateI18n.extract_hardcoded_strings content file.1 with
      | Ok hardcoded =>
          flat_map (issue_of file.1 (ValidateI18n.all_known_keys_of atk)) hardcoded
      | Raise _ => []
      end
  end.

(** What one file of the walk adds to the ignored strings. *)
Definition file_ignored (atk : gmap string (gset string))
    (file : string * option string) : list ValidateI18n.finding :=
  match file.2 with
  | None => []
  | Some content =>
      match ValidateI18n.extract_hardcoded_strings content file.1 with
      | Ok hardcoded =>
          flat_map (ignored_of file.1 (ValidateI18n.all_known_keys_of atk)) hardcoded
      | Raise _ => []
      end
  end.

(** The keys that one file of the walk uses. *)
Definition file_keys (file : string * option string) : gset string :=
  match file.2 with
  | None => ∅
  | Some content => ValidateI18n.extract_translation_calls content
  end.

(** A project with an issue, a file that cannot be read, a declaration file
    and a dependency directory; its Swedish locale lacks a key. *)
Definition example_project : ValidateI18n.Project :=
  {| ValidateI18n.frontend_src :=
       Some (ValidateI18n.Dir
               [ ("App.tsx", Some "const a = 'Hello world'; t('errors.notFound')");
                 ("types.d.ts", Some "const b = 'Good morning';");
                 ("broken.ts", None) ]
               [ ("node_modules",
                  ValidateI18n.Dir [("lib.ts", Some "const c = 'Hello there';")] []);
                 ("pages",
                  ValidateI18n.Dir
                    [("Home.tsx",
                      Some (unlines ["// i18n-ignore-file"; "t('home.title')"]))]
                    []) ]);
     ValidateI18n.read_locale :=
       fun path =>
         if String.eqb path "frontend/src/i18n/locales/sv.json"
         then example_locales "sv.json"
         else if String.eqb path "frontend/src/i18n/locales/en.json"
         then example_locales "en.json"
         else None |}.

(** A file of a tree: the directories that lead to it from the top, its name
    and its text. *)
Inductive tree_file : ValidateI18n.tree -> list string -> string ->
                      option string -> Prop :=
| file_here files dirs name content :
    In (name, content) files ->
    tree_file (ValidateI18n.Dir files dirs) [] name content
| file_below files dirs d sub path name content :
    In (d, sub) dirs ->
    tree_file sub path name content ->
    tree_file (ValidateI18n.Dir files dirs) (d :: path) name content.

(** The path of a file below [root], from the names on the way to it. *)
Definition path_below (root : string) (dirs : list string) (name : string)
  : string :=
  fold_left ValidateI18n.path_join (dirs ++ [name]) root.

(** What one file of the walk adds to the hardcoded strings of
    find_hardcoded_strings. *)
Definition file_hardcoded (file : string * option string)
  : list (string * nat * string) :=
  match file.2 with
  | None => []
  | Some content =>
      match FindHardcodedStrings.extract_hardcoded_strings content file.1 with
      | Ok hardcoded =>
          map (fun '(string, line_num) => (file.1, line_num, string)) hardcoded
      | Raise _ => []
      end
  end.

(** ** The connectives *)

Lemma or_else_pure (a b : bool) : Ok a ||| Ok b = Ok (a || b).
Proof. destruct a; reflexivity. Qed.

Lemma and_then_pure (a b : bool) : Ok a &&& Ok b = Ok (a && b).
Proof. destruct a; reflexivity. Qed.

Lemma or_else_returns (a b : pyres bool) :
  returns a -> returns b -> returns (a ||| b).
Proof.
  intros [x ->] [y ->]. exists (x || y). apply or_else_pure.
Qed.

Lemma and_then_returns (a b : pyres bool) :
  returns a -> returns b -> returns (a &&& b).
Proof.
  intros [x ->] [y ->]. exists (x && y). apply and_then_pure.
Qed.

Lemma pure_returns (b : bool) : returns (pure_bool b).
Proof. exists b. reflexivity. Qed.

Create HintDb rules.

#[local] Hint Resolve or_else_returns and_then_returns pure_returns : rules.

(** ** The rule chains *)

Lemma any_rule_returns (rules : list (string -> pyres bool)) (text : string) :
  Forall (fun rule => returns (rule text)) rules ->
  returns (ValidateI18n.any_rule rules text).
Proof.
  induction 1 as [|rule rest Hrule _ IH]; simpl.
  - exists false. reflexivity.
  - apply or_else_returns; assumption.
Qed.

Lemma any_rule_true (rules : list (string -> pyres bool)) (text : string) :
  Forall (fun rule => returns (rule text)) rules ->
  Exists (fun rule => rule text = Ok true) rules ->
  ValidateI18n.any_rule rules text = Ok true.
Proof.
  intros Htotal Hex. induction Hex as [rule rest Hhit | rule rest _ IH]; simpl.
  - rewrite Hhit. reflexivity.
  - inversion Htotal as [|? ? [b Hb] Hrest]; subst.
    rewrite Hb. destruct b; [reflexivity|]. simpl. apply IH, Hrest.
Qed.

Lemma any_rule_false (rules : list (string -> pyres bool)) (text : string) :
  ValidateI18n.any_rule rules text = Ok false <->
  Forall (fun rule => rule text = Ok false) rules.
Proof.
  induction rules as [|rule rest IH]; simpl.
  - split; [constructor | reflexivity].
  - destruct (rule text) as [[|]|e] eqn:Hrule; simpl.
    + split; [discriminate | intros H; inversion H; congruence].
    + rewrite IH. split.
      * intros H. constructor; assumption.
      * intros H. inversion H; assumption.
    + split; [discriminate | intros H; inversion H; congruence].
Qed.

(** ** Every exclusion returns *)

(** The index 1 is read only from a list of length 2. *)
Lemma ex_file_extension_returns (text : string) :
  returns (ValidateI18n.ex_file_extension text).
Proof.
  unfold ValidateI18n.ex_file_extension, pure_bool.
  destruct (Py.contains "." text); [|eexists; reflexivity].
  simpl.
  destruct (length (Py.split "." text) =? 2) eqn:Hlen; [|eexists; reflexivity].
  simpl. apply Nat.eqb_eq in Hlen.
  destruct (Py.split "." text) as [|a [|b [|c rest]]]; try discriminate.
  eexists. reflexivity.
Qed.

Ltac pure_rule :=
  match goal with
  | |- returns (?rule ?text) =>
      unfold rule; auto 10 with rules
  end.

Lemma validate_exclusions_return (text : string) :
  Forall (fun rule => returns (rule text)) ValidateI18n.exclusion_rules.
Proof.
  unfold ValidateI18n.exclusion_rules.
  repeat (constructor; [first [apply ex_file_extension_returns | pure_rule]|]).
  constructor.
Qed.

Lemma find_exclusions_return (text : string) :
  Forall (fun rule => returns (rule text)) FindHardcodedStrings.exclusion_rules.
Proof.
  unfold FindHardcodedStrings.exclusion_rules.
  repeat (constructor; [first [apply ex_file_extension_returns | pure_rule]|]).
  constructor.
Qed.

(** ** The classifier *)

Lemma classifier_shape (rules inclusions : list (string -> pyres bool))
    (text : string) :
  (Forall (fun rule => returns (rule text)) rules ->
   Exists (fun rule => rule text = Ok true) rules ->
   (let* technical := ValidateI18n.any_rule rules text in
    if technical then Ok false else ValidateI18n.any_rule inclusions text)
   = Ok false) /\
  (Forall (fun rule => rule text = Ok false) rules ->
   (let* technical := ValidateI18n.any_rule rules text in
    if technical then Ok false else ValidateI18n.any_rule inclusions text)
   = ValidateI18n.any_rule inclusions text).
Proof.
  split.
  - intros Htotal Hex. rewrite (any_rule_true _ _ Htotal Hex). reflexivity.
  - intros Hnone. apply any_rule_false in Hnone. rewrite Hnone. reflexivity.
Qed.

Lemma validate_excluded (text : string) :
  Exists (fun rule => rule text = Ok true) ValidateI18n.exclusion_rules ->
  ValidateI18n.is_likely_user_facing_text text = Ok false.
Proof. apply classifier_shape, validate_exclusions_return. Qed.

Lemma find_excluded (text : string) :
  Exists (fun rule => rule text = Ok true) FindHardcodedStrings.exclusion_rules ->
  FindHardcodedStrings.is_likely_user_facing_text text = Ok false.
Proof. apply classifier_shape, find_exclusions_return. Qed.

(** C1. Exclusion precedence: a text that matches some exclusion rule is
    classified technical by both classifiers, whatever the inclusion rules
    say of it; the result is the one of the inclusion rules only for a text
    that no exclusion rule matches. *)
Theorem exclusion_precedence (text : string) :
  (Exists (fun rule => rule text = Ok true) ValidateI18n.exclusion_rules ->
   ValidateI18n.is_likely_user_facing_text text = Ok false) /\
  (Exists (fun rule => rule text = Ok true) FindHardcodedStrings.exclusion_rules ->
   FindHardcodedStrings.is_likely_user_facing_text text = Ok false) /\
  (Forall (fun rule => rule text = Ok false) ValidateI18n.exclusion_rules ->
   ValidateI18n.is_likely_user_facing_text text
   = ValidateI18n.likely_user_facing text) /\
  (Forall (fun rule => rule text = Ok false) FindHardcodedStrings.exclusion_rules ->
   FindHardcodedStrings.is_likely_user_facing_text text
   = FindHardcodedStrings.likely_user_facing text).
Proof.
  repeat split.
  - apply validate_excluded.
  - apply find_excluded.
  - apply (classifier_shape ValidateI18n.exclusion_rules).
  - apply (classifier_shape FindHardcodedStrings.exclusion_rules).
Qed.

(** A sentence with a space, excluded by its last letter. *)
Lemma exclusion_precedence_witness :
  ValidateI18n.in_has_space "Loading results" = Ok true /\
  ValidateI18n.is_likely_user_facing_text "Loading results" = Ok false /\
  FindHardcodedStrings.is_likely_user_facing_text "Loading results" = Ok false /\
  ValidateI18n.is_likely_user_facing_text "Please confirm"
  = ValidateI18n.likely_user_facing "Please confirm" /\
  FindHardcodedStrings.is_likely_user_facing_text "Please confirm"
  = FindHardcodedStrings.likely_user_facing "Please confirm".
Proof.
  destruct (exclusion_precedence "Loading results") as (Hv & Hf & _).
  destruct (exclusion_precedence "Please confirm") as (_ & _ & Hv' & Hf').
  split; [reflexivity|]. split; [|split; [|split]].
  - apply Hv. apply Exists_exists.
    exists ValidateI18n.ex_css_unit_suffix. split; [|reflexivity].
    unfold ValidateI18n.exclusion_rules. repeat constructor.
  - apply Hf. apply Exists_exists.
    exists ValidateI18n.ex_css_unit_suffix. split; [|reflexivity].
    unfold FindHardcodedStrings.exclusion_rules. repeat constructor.
  - apply Hv'. unfold ValidateI18n.exclusion_rules.
    repeat (constructor; [vm_compute; reflexivity|]). constructor.
  - apply Hf'. unfold FindHardcodedStrings.exclusion_rules.
    repeat (constructor; [vm_compute; reflexivity|]). constructor.
Defined.

(** The inclusion rules read the first character; they are not evaluated on
    the empty text, which the exclusions stop. *)
Example inclusions_not_evaluated_on_empty_text :
  ValidateI18n.likely_user_facing "" = Raise IndexError /\
  ValidateI18n.is_likely_user_facing_text "" = Ok false /\
  FindHardcodedStrings.likely_user_facing "" = Raise IndexError /\
  FindHardcodedStrings.is_likely_user_facing_text "" = Ok false.
Proof. repeat split. Qed.

Lemma not_short_has_first_char (text : string) :
  ValidateI18n.ex_short text = Ok false ->
  exists c rest, text = String c rest.
Proof.
  destruct text as [|c rest]; [discriminate|]. intros _. eauto.
Qed.

Lemma first_isupper_returns (c : ascii) (rest : string) :
  returns (ValidateI18n.first_isupper (String c rest)).
Proof. eexists. reflexivity. Qed.

#[local] Hint Resolve first_isupper_returns : rules.

Lemma validate_inclusions_return (c : ascii) (rest : string) :
  Forall (fun rule => returns (rule (String c rest))) ValidateI18n.inclusion_rules.
Proof.
  unfold ValidateI18n.inclusion_rules.
  repeat (constructor; [pure_rule|]). constructor.
Qed.

Lemma find_inclusions_return (c : ascii) (rest : string) :
  Forall (fun rule => returns (rule (String c rest)))
    FindHardcodedStrings.inclusion_rules.
Proof.
  unfold FindHardcodedStrings.inclusion_rules.
  repeat (constructor; [pure_rule|]). constructor.
Qed.

Lemma validate_not_technical_first_char (text : string) :
  ValidateI18n.obviously_technical text = Ok false ->
  exists c rest, text = String c rest.
Proof.
  intros H. apply any_rule_false in H. apply not_short_has_first_char.
  rewrite Forall_forall in H. apply H.
  unfold ValidateI18n.exclusion_rules. repeat constructor.
Qed.

Lemma find_not_technical_first_char (text : string) :
  FindHardcodedStrings.obviously_technical text = Ok false ->
  exists c rest, text = String c rest.
Proof.
  intros H. apply any_rule_false in H. apply not_short_has_first_char.
  rewrite Forall_forall in H. apply H.
  unfold FindHardcodedStrings.exclusion_rules. repeat constructor.
Qed.

Lemma validate_classifier_returns (text : string) :
  returns (ValidateI18n.is_likely_user_facing_text text).
Proof.
  unfold ValidateI18n.is_likely_user_facing_text.
  destruct (any_rule_returns _ text (validate_exclusions_return text))
    as [technical Htech].
  fold (ValidateI18n.obviously_technical text) in Htech.
  rewrite Htech. simpl. destruct technical.
  - exists false. reflexivity.
  - destruct (validate_not_technical_first_char _ Htech) as (c & rest & ->).
    apply any_rule_returns, validate_inclusions_return.
Qed.

Lemma find_classifier_returns (text : string) :
  returns (FindHardcodedStrings.is_likely_user_facing_text text).
Proof.
  unfold FindHardcodedStrings.is_likely_user_facing_text.
  destruct (any_rule_returns _ text (find_exclusions_return text))
    as [technical Htech].
  fold (FindHardcodedStrings.obviously_technical text) in Htech.
  rewrite Htech. simpl. destruct technical.
  - exists false. reflexivity.
  - destruct (find_not_technical_first_char _ Htech) as (c & rest & ->).
    apply any_rule_returns, find_inclusions_return.
Qed.

(** C9. The classifier is total: both classifiers return a boolean on every
    text, and whenever the exclusions let a text through to the inclusion
    rules its first character exists. *)
Theorem classifier_total (text : string) :
  (exists b, ValidateI18n.is_likely_user_facing_text text = Ok b) /\
  (exists b, FindHardcodedStrings.is_likely_user_facing_text text = Ok b) /\
  (ValidateI18n.obviously_technical text = Ok false ->
   exists c, Py.first_char text = Ok c) /\
  (FindHardcodedStrings.obviously_technical text = Ok false ->
   exists c, Py.first_char text = Ok c).
Proof.
  split; [apply validate_classifier_returns|].
  split; [apply find_classifier_returns|].
  split; intros H.
  - destruct (validate_not_technical_first_char _ H) as (c & rest & ->).
    exists c. reflexivity.
  - destruct (find_not_technical_first_char _ H) as (c & rest & ->).
    exists c. reflexivity.
Qed.

Lemma classifier_total_witness :
  (exists c, Py.first_char "Please confirm" = Ok c) /\
  (exists b, ValidateI18n.is_likely_user_facing_text "" = Ok b) /\
  (exists b, ValidateI18n.is_likely_user_facing_text "   " = Ok b).
Proof.
  destruct (classifier_total "Please confirm") as (_ & _ & Hv & _).
  split; [apply Hv; vm_compute; reflexivity|].
  split.
  - apply (classifier_total "").
  - apply (classifier_total "   ").
Defined.

(** ** The suffix [s] *)

Lemma endswith_append (prefix suffix : string) :
  Py.endswith suffix (prefix +:+ suffix) = true.
Proof.
  induction prefix as [|c prefix IH]; simpl.
  - destruct suffix; simpl.
    + reflexivity.
    + rewrite Ascii.eqb_refl, String.eqb_refl. reflexivity.
  - rewrite IH. apply orb_true_r.
Qed.

Lemma css_unit_suffix_s (prefix : string) :
  ValidateI18n.ex_css_unit_suffix (prefix +:+ "s") = Ok true.
Proof.
  unfold ValidateI18n.ex_css_unit_suffix, pure_bool. f_equal.
  unfold Py.endswith_any, ValidateI18n.css_unit_suffixes.
  apply existsb_exists. exists "s". split.
  - simpl. tauto.
  - apply endswith_append.
Qed.

(** C10. A text whose last character is [s] is classified technical by both
    classifiers: the one-letter unit [s] among the CSS unit suffixes matches
    it, and the exclusion decides. *)
Theorem trailing_s_is_technical (prefix : string) :
  ValidateI18n.ex_css_unit_suffix (prefix +:+ "s") = Ok true /\
  ValidateI18n.is_likely_user_facing_text (prefix +:+ "s") = Ok false /\
  FindHardcodedStrings.is_likely_user_facing_text (prefix +:+ "s") = Ok false.
Proof.
  split; [apply css_unit_suffix_s|]. split.
  - apply validate_excluded. apply Exists_exists.
    exists ValidateI18n.ex_css_unit_suffix. split; [|apply css_unit_suffix_s].
    unfold ValidateI18n.exclusion_rules. repeat constructor.
  - apply find_excluded. apply Exists_exists.
    exists ValidateI18n.ex_css_unit_suffix. split; [|apply css_unit_suffix_s].
    unfold FindHardcodedStrings.exclusion_rules. repeat constructor.
Qed.

(** ** The annotation parser *)

Lemma startswith_append (p q s : string) :
  Py.startswith (p +:+ q) s = true -> Py.startswith p s = true.
Proof.
  revert s. induction p as [|c p IH]; intros s H; [reflexivity|].
  destruct s as [|d s]; [discriminate|]. simpl in *.
  apply andb_true_iff in H as [Hc Hrest].
  rewrite Hc. simpl. apply IH, Hrest.
Qed.

Lemma contains_append (p q s : string) :
  Py.contains (p +:+ q) s = true -> Py.contains p s = true.
Proof.
  induction s as [|d s IH]; simpl; intros H.
  - apply orb_true_iff in H as [H|H]; [|discriminate].
    apply startswith_append in H. rewrite H. reflexivity.
  - apply orb_true_iff in H as [H|H].
    + apply startswith_append in H. rewrite H. reflexivity.
    + rewrite (IH H). apply orb_true_r.
Qed.

(** The line-comment spelling of the end marker begins with the
    line-comment spelling of the start marker. *)
Lemma line_comment_end_is_start (line : string) :
  Py.contains "// i18n-ignore-block-end" line = true ->
  ValidateI18n.has_block_start_marker line = true.
Proof.
  intros H. unfold ValidateI18n.has_block_start_marker.
  rewrite (contains_append "// i18n-ignore-block" "-end" line H).
  apply orb_true_r.
Qed.

(** Every block marker, of either kind and spelling, begins with an inline
    marker. *)
Lemma block_start_is_inline (line : string) :
  ValidateI18n.has_block_start_marker line = true ->
  ValidateI18n.has_inline_marker line = true.
Proof.
  unfold ValidateI18n.has_block_start_marker, ValidateI18n.has_inline_marker.
  intros H. apply orb_true_iff in H as [H|H].
  - rewrite (contains_append "/* i18n-ignore" "-block */" line H).
    apply orb_true_r.
  - rewrite (contains_append "// i18n-ignore" "-block" line H). reflexivity.
Qed.

Lemma parse_line_start (st : ValidateI18n.IgnoreState) (n : nat) (line : string) :
  ValidateI18n.has_block_start_marker line = true ->
  ValidateI18n.ignored_blocks (ValidateI18n.parse_line st (n, line))
  = ValidateI18n.ignored_blocks st /\
  ValidateI18n.in_ignore_block (ValidateI18n.parse_line st (n, line)) = true /\
  ValidateI18n.block_start (ValidateI18n.parse_line st (n, line)) = Some n.
Proof.
  intros H. unfold ValidateI18n.parse_line. rewrite H.
  destruct (ValidateI18n.has_file_marker line),
    (ValidateI18n.has_inline_marker line); simpl; auto.
Qed.

(** The block-comment spelling of the end marker closes the open block. *)
Lemma parse_line_close (st : ValidateI18n.IgnoreState) (s n : nat) (line : string) :
  closes_block line = true ->
  ValidateI18n.in_ignore_block st = true ->
  ValidateI18n.block_start st = Some (S s) ->
  (S s, n) ∈ ValidateI18n.ignored_blocks (ValidateI18n.parse_line st (n, line)).
Proof.
  unfold closes_block. intros H Hin Hstart.
  apply andb_true_iff in H as [Hns He]. apply negb_true_iff in Hns.
  unfold ValidateI18n.parse_line. rewrite Hns, He.
  destruct (ValidateI18n.has_file_marker line),
    (ValidateI18n.has_inline_marker line); simpl;
    rewrite Hstart, Hin; simpl; set_solver.
Qed.

Lemma enumerate_app {A : Type} (n : nat) (l1 l2 : list A) :
  enumerate n (l1 ++ l2) = enumerate n l1 ++ enumerate (n + length l1) l2.
Proof.
  revert n. induction l1 as [|x l1 IH]; intros n; simpl.
  - rewrite Nat.add_0_r. reflexivity.
  - rewrite IH. replace (n + S (length l1)) with (S n + length l1) by lia.
    reflexivity.
Qed.

Lemma parse_lines_snoc (lines : list string) (line : string) :
  ValidateI18n.parse_lines (lines ++ [line])
  = ValidateI18n.parse_line (ValidateI18n.parse_lines lines)
      (S (length lines), line).
Proof.
  unfold ValidateI18n.parse_lines.
  rewrite enumerate_app, fold_left_app. reflexivity.
Qed.

Lemma nth_line_snoc (lines : list string) (line : string) (n : nat) (l : string) :
  nth_line (lines ++ [line]) n = Some l <->
  nth_line lines n = Some l \/ (n = S (length lines) /\ l = line).
Proof.
  destruct n as [|k]; simpl.
  - split; [discriminate | intros [H|[H _]]; discriminate].
  - destruct (Nat.lt_ge_cases k (length lines)) as [Hlt|Hge].
    + rewrite nth_error_app1 by assumption.
      split; [auto | intros [H|[H _]]; [assumption | lia]].
    + rewrite nth_error_app2 by assumption.
      assert (Hnone : nth_error lines k = None) by (apply nth_error_None; lia).
      rewrite Hnone.
      destruct (k - length lines) as [|j] eqn:Hk; simpl.
      * split.
        -- intros [= ->]. right. split; [f_equal; lia | reflexivity].
        -- intros [H|[_ ->]]; [discriminate | reflexivity].
      * split.
        -- destruct j; discriminate.
        -- intros [H|[H _]]; [discriminate | lia].
Qed.

Lemma nth_line_bound (lines : list string) (n : nat) (l : string) :
  nth_line lines n = Some l -> 1 <= n <= length lines.
Proof.
  destruct n as [|k]; simpl; [discriminate|]. intros H.
  assert (k < length lines) by (apply nth_error_Some; congruence). lia.
Qed.

(** What one round of the loop does to each variable. *)
Lemma parse_line_fields (st : ValidateI18n.IgnoreState) (n : nat) (line : string) :
  let st' := ValidateI18n.parse_line st (n, line) in
  ValidateI18n.ignore_entire_file st'
  = ValidateI18n.ignore_entire_file st || ValidateI18n.has_file_marker line /\
  ValidateI18n.ignored_lines st'
  = (if ValidateI18n.has_inline_marker line
     then {[n]} ∪ ValidateI18n.ignored_lines st
     else ValidateI18n.ignored_lines st) /\
  ValidateI18n.block_start st'
  = (if ValidateI18n.has_block_start_marker line then Some n
     else if ValidateI18n.has_block_end_marker line then None
     else ValidateI18n.block_start st) /\
  ValidateI18n.in_ignore_block st'
  = (if ValidateI18n.has_block_start_marker line then true
     else if ValidateI18n.has_block_end_marker line then false
     else ValidateI18n.in_ignore_block st) /\
  ValidateI18n.ignored_blocks st'
  = (if closes_block line then
       match ValidateI18n.block_start st with
       | Some start =>
           if ValidateI18n.in_ignore_block st
              && ValidateI18n.truthy (ValidateI18n.block_start st)
           then {[(start, n)]} ∪ ValidateI18n.ignored_blocks st
           else ValidateI18n.ignored_blocks st
       | None => ValidateI18n.ignored_blocks st
       end
     else ValidateI18n.ignored_blocks st).
Proof.
  unfold ValidateI18n.parse_line, closes_block.
  destruct (ValidateI18n.has_file_marker line),
    (ValidateI18n.has_inline_marker line),
    (ValidateI18n.has_block_start_marker line),
    (ValidateI18n.has_block_end_marker line); simpl;
    rewrite ?orb_true_r, ?orb_false_r; repeat split; reflexivity.
Qed.

Lemma parse_inv_initial : parse_inv [] ValidateI18n.initial_ignore_state.
Proof.
  unfold parse_inv. simpl. split; [|split; [|split]].
  - intros a H. discriminate.
  - intros a b H. apply not_elem_of_empty in H. contradiction.
  - intros n. split.
    + intros H. apply not_elem_of_empty in H. contradiction.
    + intros (line & H & _). destruct n as [|[|k]]; discriminate.
  - split; [discriminate|].
    intros (n & line & H & _). destruct n as [|[|k]]; discriminate.
Qed.

Lemma parse_inv_step (lines : list string) (line : string)
    (st : ValidateI18n.IgnoreState) :
  parse_inv lines st ->
  parse_inv (lines ++ [line])
    (ValidateI18n.parse_line st (S (length lines), line)).
Proof.
  intros (Hstart & Hblocks & Hlines & Hfile).
  destruct (parse_line_fields st (S (length lines)) line)
    as (Efile & Elines & Estart & Ein & Eblocks).
  set (st' := ValidateI18n.parse_line st (S (length lines), line)) in *.
  assert (Hlast : nth_line (lines ++ [line]) (S (length lines)) = Some line).
  { apply nth_line_snoc. right. split; reflexivity. }
  assert (Hkeep : forall n l, nth_line lines n = Some l ->
                              nth_line (lines ++ [line]) n = Some l).
  { intros n l H. apply nth_line_snoc. left. exact H. }
  unfold parse_inv. split; [|split; [|split]].
  - intros a Ha. rewrite Estart in Ha. rewrite Ein.
    destruct (ValidateI18n.has_block_start_marker line) eqn:Hbs.
    + injection Ha as <-. split; [reflexivity|]. exists line. auto.
    + destruct (ValidateI18n.has_block_end_marker line); [discriminate|].
      destruct (Hstart a Ha) as (Hin & l & Hl & Hm).
      split; [exact Hin|]. exists l. auto.
  - intros a b Hab. rewrite Eblocks in Hab.
    assert (Hold : (a, b) ∈ ValidateI18n.ignored_blocks st ->
              a < b /\
              (exists l, nth_line (lines ++ [line]) a = Some l /\
                         ValidateI18n.has_block_start_marker l = true) /\
              (exists l, nth_line (lines ++ [line]) b = Some l /\
                         closes_block l = true)).
    { intros H. destruct (Hblocks a b H) as (Hlt & (la & Hla & Hma) & (lb & Hlb & Hmb)).
      split; [exact Hlt|]. split; [exists la | exists lb]; auto. }
    destruct (closes_block line) eqn:Hclose; [|auto].
    destruct (ValidateI18n.block_start st) as [start|] eqn:Hbs; [|auto].
    destruct (ValidateI18n.in_ignore_block st && ValidateI18n.truthy (Some start));
      [|auto].
    apply elem_of_union in Hab as [Hnew|Hab]; [|auto].
    apply elem_of_singleton in Hnew. injection Hnew as -> ->.
    destruct (Hstart start eq_refl) as (_ & l & Hl & Hm).
    pose proof (nth_line_bound _ _ _ Hl) as Hbound.
    split; [lia|]. split; [exists l | exists line]; auto.
  - intros n. rewrite Elines. split.
    + intros Hn.
      destruct (ValidateI18n.has_inline_marker line) eqn:Hinl.
      * apply elem_of_union in Hn as [Hn|Hn].
        -- apply elem_of_singleton in Hn. subst n. exists line. auto.
        -- apply Hlines in Hn as (l & Hl & Hm). exists l. auto.
      * apply Hlines in Hn as (l & Hl & Hm). exists l. auto.
    + intros (l & Hl & Hm). apply nth_line_snoc in Hl as [Hl|[-> ->]].
      * assert (Hn : n ∈ ValidateI18n.ignored_lines st) by (apply Hlines; eauto).
        destruct (ValidateI18n.has_inline_marker line); [|exact Hn].
        apply elem_of_union. right. exact Hn.
      * rewrite Hm. apply elem_of_union. left. apply elem_of_singleton.
        reflexivity.
  - rewrite Efile. split.
    + intros H. apply orb_true_iff in H as [H|H].
      * destruct (proj1 Hfile H) as (n & l & Hl & Hm). exists n, l. auto.
      * exists (S (length lines)), line. auto.
    + intros (n & l & Hl & Hm). apply nth_line_snoc in Hl as [Hl|[-> ->]].
      * apply orb_true_iff. left. apply (proj2 Hfile). eauto.
      * rewrite Hm. apply orb_true_r.
Qed.

Lemma parse_lines_inv (lines : list string) :
  parse_inv lines (ValidateI18n.parse_lines lines).
Proof.
  induction lines as [|line lines IH] using rev_ind.
  - apply parse_inv_initial.
  - rewrite parse_lines_snoc. apply parse_inv_step, IH.
Qed.

(** ** The line query *)

Lemma is_line_ignored_spec (n : nat) (il : gset nat) (ib : gset (nat * nat)) :
  ValidateI18n.is_line_ignored n il ib = true <->
  n ∈ il \/ exists s e, (s, e) ∈ ib /\ s <= n <= e.
Proof.
  unfold ValidateI18n.is_line_ignored.
  destruct (bool_decide (n ∈ il)) eqn:Hn.
  - apply bool_decide_eq_true in Hn. tauto.
  - apply bool_decide_eq_false in Hn. rewrite existsb_exists. split.
    + intros ([s e] & Hin & Hse). right. exists s, e.
      apply andb_true_iff in Hse as [H1 H2].
      apply Nat.leb_le in H1, H2.
      split; [|lia]. apply elem_of_elements, list_elem_of_In, Hin.
    + intros [H|(s & e & Hin & Hse)]; [contradiction|].
      exists (s, e). split.
      * apply list_elem_of_In, elem_of_elements, Hin.
      * apply andb_true_iff. split; apply Nat.leb_le; lia.
Qed.

(** ** The extractor *)

Lemma for_each_collect {A B : Type} (l : list A) (sel : A -> list B)
    (body : A -> list B -> pyres (list B)) :
  (forall x acc, In x l -> body x acc = Ok (acc ++ sel x)) ->
  forall acc, for_each l body acc = Ok (acc ++ flat_map sel l).
Proof.
  induction l as [|x l IH]; intros Hbody acc; simpl.
  - rewrite app_nil_r. reflexivity.
  - rewrite Hbody by (left; reflexivity). simpl.
    rewrite IH by (intros; apply Hbody; right; assumption).
    rewrite app_assoc. reflexivity.
Qed.

Lemma flat_map_flat_map {A B C : Type} (f : B -> list C) (g : A -> list B)
    (l : list A) :
  flat_map f (flat_map g l) = flat_map (fun x => flat_map f (g x)) l.
Proof.
  induction l as [|x l IH]; simpl; [reflexivity|].
  rewrite flat_map_app, IH. reflexivity.
Qed.

Lemma flat_map_map {A B C : Type} (f : B -> list C) (g : A -> B) (l : list A) :
  flat_map f (map g l) = flat_map (fun x => f (g x)) l.
Proof.
  induction l as [|x l IH]; simpl; [reflexivity|]. rewrite IH. reflexivity.
Qed.

Lemma flat_map_select {A B : Type} (p : A -> bool) (f : A -> B) (l : list A) :
  flat_map (fun x => if p x then [f x] else []) l = map f (List.filter p l).
Proof.
  induction l as [|x l IH]; simpl; [reflexivity|].
  destruct (p x); simpl; rewrite IH; reflexivity.
Qed.

Lemma validate_user_facing_spec (text : string) :
  ValidateI18n.is_likely_user_facing_text text
  = Ok (user_facing ValidateI18n.is_likely_user_facing_text text).
Proof.
  unfold user_facing.
  destruct (validate_classifier_returns text) as [b ->]. reflexivity.
Qed.

Lemma find_user_facing_spec (text : string) :
  FindHardcodedStrings.is_likely_user_facing_text text
  = Ok (user_facing FindHardcodedStrings.is_likely_user_facing_text text).
Proof.
  unfold user_facing.
  destruct (find_classifier_returns text) as [b ->]. reflexivity.
Qed.

(** The three loops visit the literals of the file in order and keep the
    user-facing ones. *)
Lemma extract_loops {B : Type} (classifier : string -> pyres bool)
    (entry : string -> nat -> B) (content : string) :
  (forall text, classifier text = Ok (user_facing classifier text)) ->
  for_each (enumerate 1 (Py.split Py.newline content))
    (fun '(line_num, line) hardcoded_strings =>
       if ValidateI18n.skipped_line line then Ok hardcoded_strings
       else
         for_each ValidateI18n.quote_patterns
           (fun pattern hardcoded_strings =>
              for_each (Re.finditer pattern line)
                (fun m hardcoded_strings =>
                   let text := ValidateI18n.unescape (Re.m_group1 m) in
                   let* keep := classifier text in
                   if keep
                   then Ok (hardcoded_strings ++ [entry text line_num])
                   else Ok hardcoded_strings)
                hardcoded_strings)
           hardcoded_strings)
    []
  = Ok (map (fun loc => entry (l_text loc) (l_line loc))
          (List.filter (fun loc => user_facing classifier (l_text loc))
             (literals content))).
Proof.
  intros Hclass. rewrite <- flat_map_select.
  unfold literals. rewrite flat_map_flat_map.
  set (keep := fun loc : Located =>
                 if user_facing classifier (l_text loc)
                 then [entry (l_text loc) (l_line loc)] else []).
  rewrite (for_each_collect _
    (fun numbered : nat * string =>
       flat_map keep
         (let '(line_num, line) := numbered in
          if ValidateI18n.skipped_line line then []
          else line_literals line_num line))); [reflexivity|].
  intros [line_num line] acc _.
  destruct (ValidateI18n.skipped_line line).
  { simpl. rewrite app_nil_r. reflexivity. }
  assert (Hinner : forall i pattern acc',
    for_each (Re.finditer pattern line)
      (fun m hardcoded_strings =>
         let text := ValidateI18n.unescape (Re.m_group1 m) in
         let* keep := classifier text in
         if keep
         then Ok (hardcoded_strings ++ [entry text line_num])
         else Ok hardcoded_strings)
      acc'
    = Ok (acc' ++
          flat_map keep
            (map (fun m => {| l_line := line_num; l_pattern := i; l_match := m |})
               (Re.finditer pattern line)))).
  { intros i pattern acc'. rewrite flat_map_map.
    apply for_each_collect. intros m acc'' _.
    simpl. rewrite Hclass. unfold keep, l_text. simpl.
    destruct (user_facing classifier _); [reflexivity|].
    rewrite app_nil_r. reflexivity. }
  unfold line_literals, ValidateI18n.quote_patterns. simpl.
  rewrite (Hinner 0). simpl. rewrite (Hinner 1). simpl.
  rewrite app_nil_r, flat_map_app, app_assoc. reflexivity.
Qed.

Lemma validate_extract_spec (content file_path : string) (il : gset nat)
    (ib : gset (nat * nat)) (whole : bool) :
  ValidateI18n.parse_ignore_comments content = (il, ib, whole) ->
  ValidateI18n.extract_hardcoded_strings content file_path
  = Ok (if whole then []
        else map (validate_entry il ib)
               (List.filter
                  (fun loc =>
                     user_facing ValidateI18n.is_likely_user_facing_text (l_text loc))
                  (literals content))).
Proof.
  intros Hparse. unfold ValidateI18n.extract_hardcoded_strings.
  rewrite Hparse. destruct whole; [reflexivity|].
  apply (extract_loops ValidateI18n.is_likely_user_facing_text
           (fun text line_num =>
              (text, line_num, ValidateI18n.is_line_ignored line_num il ib))).
  apply validate_user_facing_spec.
Qed.

Lemma find_extract_spec (content file_path : string) :
  FindHardcodedStrings.extract_hardcoded_strings content file_path
  = Ok (map find_entry
          (List.filter
             (fun loc =>
                user_facing FindHardcodedStrings.is_likely_user_facing_text
                  (l_text loc))
             (literals content))).
Proof.
  apply (extract_loops FindHardcodedStrings.is_likely_user_facing_text
           (fun text line_num => (text, line_num))).
  apply find_user_facing_spec.
Qed.

(** A file with the file marker on some line has the flag set. *)
Lemma file_marker_sets_flag (content : string) (n : nat) (line : string) :
  line_at content n = Some line ->
  ValidateI18n.has_file_marker line = true ->
  exists il ib, ValidateI18n.parse_ignore_comments content = (il, ib, true).
Proof.
  intros Hline Hmark. unfold ValidateI18n.parse_ignore_comments.
  destruct (parse_lines_inv (Py.split Py.newline content)) as (_ & _ & _ & Hfile).
  rewrite (proj2 Hfile) by (exists n, line; auto).
  eauto.
Qed.

(** ** The findings of one file *)

Lemma record_strings_spec (rel_path : string) (known : gset string)
    (hardcoded : list (string * nat * bool))
    (ignored issues : list ValidateI18n.finding) :
  fold_left (ValidateI18n.record_string rel_path known) hardcoded (ignored, issues)
  = (ignored ++ flat_map (ignored_of rel_path known) hardcoded,
     issues ++ flat_map (issue_of rel_path known) hardcoded).
Proof.
  revert ignored issues.
  induction hardcoded as [|[[text line_num] is_ignored] rest IH];
    intros ignored issues; simpl.
  - rewrite !app_nil_r. reflexivity.
  - destruct is_ignored; [|destruct (bool_decide (text ∈ known))];
      rewrite IH; simpl; rewrite <- ?app_assoc, ?app_nil_r; reflexivity.
Qed.

Lemma analyze_file_spec (atk : gmap string (gset string))
    (rel_path content : string) (st : ValidateI18n.Analysis)
    (hardcoded : list (string * nat * bool)) :
  ValidateI18n.extract_hardcoded_strings content rel_path = Ok hardcoded ->
  ValidateI18n.analyze_file atk rel_path content st
  = Ok {| ValidateI18n.all_files := ValidateI18n.all_files st ++ [rel_path];
          ValidateI18n.issues :=
            ValidateI18n.issues st
            ++ flat_map (issue_of rel_path (ValidateI18n.all_known_keys_of atk))
                 hardcoded;
          ValidateI18n.ignored_strings :=
            ValidateI18n.ignored_strings st
            ++ flat_map (ignored_of rel_path (ValidateI18n.all_known_keys_of atk))
                 hardcoded;
          ValidateI18n.used_keys :=
            ValidateI18n.used_keys st
            ∪ ValidateI18n.extract_translation_calls content |}.
Proof.
  intros Hextract. unfold ValidateI18n.analyze_file.
  rewrite Hextract. simpl. rewrite record_strings_spec. reflexivity.
Qed.

Lemma all_known_keys_spec (atk : gmap string (gset string)) (key : string) :
  key ∈ ValidateI18n.all_known_keys_of atk <->
  exists lang keys, atk !! lang = Some keys /\ key ∈ keys.
Proof.
  unfold ValidateI18n.all_known_keys_of.
  apply (map_fold_weak_ind
    (fun (r : gset string) (m : gmap string (gset string)) =>
       key ∈ r <-> exists lang keys, m !! lang = Some keys /\ key ∈ keys)).
  - split.
    + intros H. apply not_elem_of_empty in H. contradiction.
    + intros (lang & keys & H & _). rewrite lookup_empty in H. discriminate.
  - intros lang keys m r Hfresh IH. rewrite elem_of_union, IH. split.
    + intros [(lang' & keys' & Hl & Hk)|Hk].
      * exists lang', keys'. split; [|exact Hk].
        rewrite lookup_insert_ne; [exact Hl|]. congruence.
      * exists lang, keys. split; [apply lookup_insert_eq | exact Hk].
    + intros (lang' & keys' & Hl & Hk).
      destruct (decide (lang = lang')) as [->|Hne].
      * rewrite lookup_insert_eq in Hl. injection Hl as ->. right. exact Hk.
      * rewrite lookup_insert_ne in Hl by exact Hne. left. eauto.
Qed.

Lemma whole_file_records_nothing (atk : gmap string (gset string))
    (rel_path content : string) (st : ValidateI18n.Analysis)
    (il : gset nat) (ib : gset (nat * nat)) :
  ValidateI18n.parse_ignore_comments content = (il, ib, true) ->
  exists st',
    ValidateI18n.analyze_file atk rel_path content st = Ok st' /\
    ValidateI18n.issues st' = ValidateI18n.issues st /\
    ValidateI18n.ignored_strings st' = ValidateI18n.ignored_strings st.
Proof.
  intros Hparse.
  pose proof (validate_extract_spec content rel_path _ _ _ Hparse) as Hextract.
  simpl in Hextract.
  eexists. split; [apply (analyze_file_spec _ _ _ _ _ Hextract)|].
  simpl. rewrite !app_nil_r. split; reflexivity.
Qed.

(** C3. Whole-file suppression: a file with the file marker on any of its
    lines gives no extracted string at all, and analysing it adds nothing to
    the issues (nor to the ignored strings), also for the literals on the
    lines above the marker. *)
Theorem whole_file_marker_suppresses_everything (content rel_path : string)
    (n : nat) (line : string) :
  line_at content n = Some line ->
  ValidateI18n.has_file_marker line = true ->
  ValidateI18n.extract_hardcoded_strings content rel_path = Ok [] /\
  forall atk st, exists st',
    ValidateI18n.analyze_file atk rel_path content st = Ok st' /\
    ValidateI18n.issues st' = ValidateI18n.issues st /\
    ValidateI18n.ignored_strings st' = ValidateI18n.ignored_strings st.
Proof.
  intros Hline Hmark.
  destruct (file_marker_sets_flag _ _ _ Hline Hmark) as (il & ib & Hparse).
  split.
  - apply (validate_extract_spec content rel_path _ _ _ Hparse).
  - intros atk st. apply (whole_file_records_nothing _ _ _ _ _ _ Hparse).
Qed.

(** The marker on the last line, a user-facing literal on the first. *)
Lemma whole_file_marker_suppresses_everything_witness :
  user_facing ValidateI18n.is_likely_user_facing_text "Hello world" = true /\
  ValidateI18n.extract_hardcoded_strings
    (unlines ["const a = 'Hello world';"; "// i18n-ignore-file"]) "a.tsx"
  = Ok [].
Proof.
  split; [reflexivity|].
  apply (whole_file_marker_suppresses_everything
           (unlines ["const a = 'Hello world';"; "// i18n-ignore-file"]) "a.tsx"
           2 "// i18n-ignore-file").
  - reflexivity.
  - reflexivity.
Defined.

Lemma annotated_entry_is_ignored (atk : gmap string (gset string))
    (rel_path content : string) (st : ValidateI18n.Analysis)
    (il : gset nat) (ib : gset (nat * nat)) (loc : Located) :
  ValidateI18n.parse_ignore_comments content = (il, ib, false) ->
  In loc (literals content) ->
  user_facing ValidateI18n.is_likely_user_facing_text (l_text loc) = true ->
  ValidateI18n.is_line_ignored (l_line loc) il ib = true ->
  exists st',
    ValidateI18n.analyze_file atk rel_path content st = Ok st' /\
    In (rel_path, l_line loc, l_text loc) (ValidateI18n.ignored_strings st').
Proof.
  intros Hparse Hloc Huf Hign.
  pose proof (validate_extract_spec content rel_path _ _ _ Hparse) as Hextract.
  eexists. split; [apply (analyze_file_spec _ _ _ _ _ Hextract)|].
  simpl. apply in_or_app. right. apply in_flat_map.
  exists (validate_entry il ib loc). split.
  - apply in_map, filter_In. auto.
  - unfold validate_entry, ignored_of. rewrite Hign. left. reflexivity.
Qed.

(** C4, as the code has it. A user-facing literal on a line that carries an
    inline marker, or that lies in a closed block, is recorded among the
    ignored strings, in a file without the file marker; a file with the file
    marker records nothing at all, neither ignored strings nor issues. *)
Theorem annotated_literal_is_recorded_as_ignored
    (atk : gmap string (gset string)) (rel_path content : string)
    (st : ValidateI18n.Analysis) (il : gset nat) (ib : gset (nat * nat))
    (whole : bool) (loc : Located) :
  ValidateI18n.parse_ignore_comments content = (il, ib, whole) ->
  In loc (literals content) ->
  user_facing ValidateI18n.is_likely_user_facing_text (l_text loc) = true ->
  (l_line loc ∈ il \/ exists s e, (s, e) ∈ ib /\ s <= l_line loc <= e) ->
  exists st',
    ValidateI18n.analyze_file atk rel_path content st = Ok st' /\
    if whole
    then ValidateI18n.ignored_strings st' = ValidateI18n.ignored_strings st /\
         ValidateI18n.issues st' = ValidateI18n.issues st
    else In (rel_path, l_line loc, l_text loc) (ValidateI18n.ignored_strings st').
Proof.
  intros Hparse Hloc Huf Hann. destruct whole.
  - destruct (whole_file_records_nothing atk rel_path content st _ _ Hparse)
      as (st' & Hst' & Hissues & Hignored).
    exists st'. auto.
  - apply (annotated_entry_is_ignored atk rel_path content st il ib loc);
      try assumption.
    apply is_line_ignored_spec, Hann.
Qed.

(** A literal in a closed block, written with the block-comment spelling. *)
Lemma annotated_literal_is_recorded_as_ignored_witness :
  exists st',
    ValidateI18n.analyze_file ∅ "a.tsx"
      (unlines ["/* i18n-ignore-block */"; "const a = 'Hello world';";
                "/* i18n-ignore-block-end */"])
      ValidateI18n.initial_analysis = Ok st' /\
    In ("a.tsx", 2, "Hello world") (ValidateI18n.ignored_strings st').
Proof.
  apply (annotated_literal_is_recorded_as_ignored ∅ "a.tsx"
           (unlines ["/* i18n-ignore-block */"; "const a = 'Hello world';";
                     "/* i18n-ignore-block-end */"])
           ValidateI18n.initial_analysis {[1; 3]} {[(1, 3)]} false
           {| l_line := 2; l_pattern := 0;
              l_match := {| Re.m_start := 10; Re.m_group1 := "Hello world" |} |}).
  - vm_compute. reflexivity.
  - vm_compute. left. reflexivity.
  - vm_compute. reflexivity.
  - right. exists 1, 3. split; [|simpl; lia].
    apply elem_of_singleton. reflexivity.
Defined.

(** C4, as the claim states it, fails on a file with the file marker: the
    literal of line 2 is user-facing and the file carries the whole-file flag,
    yet nothing is recorded for it. *)
Lemma whole_file_literal_is_not_recorded :
  let loc := {| l_line := 2; l_pattern := 0;
                l_match := {| Re.m_start := 10; Re.m_group1 := "Hello world" |} |} in
  In loc (literals whole_file_example) /\
  user_facing ValidateI18n.is_likely_user_facing_text (l_text loc) = true /\
  ValidateI18n.parse_ignore_comments whole_file_example = ({[1]}, ∅, true) /\
  exists st',
    ValidateI18n.analyze_file ∅ "a.tsx" whole_file_example
      ValidateI18n.initial_analysis = Ok st' /\
    ValidateI18n.ignored_strings st' = [] /\
    ~ In ("a.tsx", 2, "Hello world") (ValidateI18n.ignored_strings st').
Proof.
  split; [vm_compute; left; reflexivity|].
  split; [vm_compute; reflexivity|].
  split; [vm_compute; reflexivity|].
  destruct (whole_file_records_nothing ∅ "a.tsx" whole_file_example
              ValidateI18n.initial_analysis {[1]} ∅)
    as (st' & Hst' & _ & Hignored); [vm_compute; reflexivity|].
  exists st'. rewrite Hignored. simpl. auto.
Qed.

(** C5. Known-key short-circuit: a user-facing literal that no annotation
    suppresses and whose text is a key of some locale is recorded among the
    ignored strings, with the known-key suffix, and the file adds no issue
    with that text. *)
Theorem known_key_short_circuit (atk : gmap string (gset string))
    (rel_path content : string) (st : ValidateI18n.Analysis)
    (il : gset nat) (ib : gset (nat * nat)) (loc : Located)
    (lang : string) (keys : gset string) :
  ValidateI18n.parse_ignore_comments content = (il, ib, false) ->
  In loc (literals content) ->
  user_facing ValidateI18n.is_likely_user_facing_text (l_text loc) = true ->
  ValidateI18n.is_line_ignored (l_line loc) il ib = false ->
  atk !! lang = Some keys ->
  l_text loc ∈ keys ->
  exists st' new_issues,
    ValidateI18n.analyze_file atk rel_path content st = Ok st' /\
    In (rel_path, l_line loc, l_text loc +:+ known_key_suffix)
      (ValidateI18n.ignored_strings st') /\
    ValidateI18n.issues st' = ValidateI18n.issues st ++ new_issues /\
    forall path line_num, ~ In (path, line_num, l_text loc) new_issues.
Proof.
  intros Hparse Hloc Huf Hign Hlang Hkey.
  assert (Hknown : l_text loc ∈ ValidateI18n.all_known_keys_of atk).
  { apply all_known_keys_spec. eauto. }
  pose proof (validate_extract_spec content rel_path _ _ _ Hparse) as Hextract.
  eexists. eexists. split; [apply (analyze_file_spec _ _ _ _ _ Hextract)|].
  simpl. split; [|split; [reflexivity|]].
  - apply in_or_app. right. apply in_flat_map.
    exists (validate_entry il ib loc). split.
    + apply in_map, filter_In. auto.
    + unfold validate_entry, ignored_of. rewrite Hign.
      rewrite bool_decide_eq_true_2 by exact Hknown. left. reflexivity.
  - intros path line_num Hin. apply in_flat_map in Hin as ([[text n] ign] & _ & Hin).
    unfold issue_of in Hin. destruct ign; [contradiction|].
    destruct (bool_decide (text ∈ ValidateI18n.all_known_keys_of atk)) eqn:Hdec;
      [contradiction|].
    destruct Hin as [Heq|[]]. injection Heq as _ _ ->.
    apply bool_decide_eq_false in Hdec. contradiction.
Qed.

Lemma known_key_short_circuit_witness :
  exists st' new_issues,
    ValidateI18n.analyze_file {[ "sv" := {[ "Auth.title" ]} ]} "a.tsx"
      known_key_example ValidateI18n.initial_analysis = Ok st' /\
    In ("a.tsx", 1, "Auth.title (known translation key)")
      (ValidateI18n.ignored_strings st') /\
    ValidateI18n.issues st' = [] ++ new_issues /\
    forall path line_num, ~ In (path, line_num, "Auth.title") new_issues.
Proof.
  apply (known_key_short_circuit {[ "sv" := {[ "Auth.title" ]} ]} "a.tsx"
           known_key_example ValidateI18n.initial_analysis ∅ ∅
           {| l_line := 1; l_pattern := 0;
              l_match := {| Re.m_start := 10; Re.m_group1 := "Auth.title" |} |}
           "sv" {[ "Auth.title" ]}).
  - vm_compute. reflexivity.
  - vm_compute. left. reflexivity.
  - vm_compute. reflexivity.
  - vm_compute. reflexivity.
  - apply lookup_singleton_eq.
  - apply elem_of_singleton. reflexivity.
Defined.

(** ** Closing a block *)

Lemma parse_keeps_blocks (lines : list string) (n : nat)
    (st : ValidateI18n.IgnoreState) (a b : nat) :
  (a, b) ∈ ValidateI18n.ignored_blocks st ->
  (a, b) ∈ ValidateI18n.ignored_blocks
             (fold_left ValidateI18n.parse_line (enumerate n lines) st).
Proof.
  revert n st. induction lines as [|line lines IH]; intros n st Hab;
    cbn [enumerate fold_left].
  - exact Hab.
  - apply IH.
    destruct (parse_line_fields st n line) as (_ & _ & _ & _ & ->).
    destruct (closes_block line); [|exact Hab].
    destruct (ValidateI18n.block_start st); [|exact Hab].
    destruct (ValidateI18n.in_ignore_block st && _); [|exact Hab].
    apply elem_of_union. right. exact Hab.
Qed.

Lemma parse_idle_lines (lines : list string) (n : nat)
    (st : ValidateI18n.IgnoreState) :
  Forall (fun line => ValidateI18n.has_block_start_marker line = false /\
                      ValidateI18n.has_block_end_marker line = false) lines ->
  ValidateI18n.block_start
    (fold_left ValidateI18n.parse_line (enumerate n lines) st)
  = ValidateI18n.block_start st /\
  ValidateI18n.in_ignore_block
    (fold_left ValidateI18n.parse_line (enumerate n lines) st)
  = ValidateI18n.in_ignore_block st.
Proof.
  intros Hidle. revert n st.
  induction Hidle as [|line lines [Hs He] _ IH]; intros n st;
    cbn [enumerate fold_left].
  - split; reflexivity.
  - destruct (IH (S n) (ValidateI18n.parse_line st (n, line))) as [-> ->].
    destruct (parse_line_fields st n line) as (_ & _ & -> & -> & _).
    rewrite Hs, He. split; reflexivity.
Qed.

(** The block-comment spelling closes the block: a start marker on line [s],
    then lines with no block marker, then on line [e] an end marker in the
    block-comment spelling and no start marker, record the range (s, e). *)
Lemma block_comment_end_closes_block (content : string) (s e : nat)
    (first last : string) :
  line_at content s = Some first ->
  ValidateI18n.has_block_start_marker first = true ->
  s < e ->
  line_at content e = Some last ->
  closes_block last = true ->
  (forall k line, s < k < e -> line_at content k = Some line ->
                  ValidateI18n.has_block_start_marker line = false /\
                  ValidateI18n.has_block_end_marker line = false) ->
  (s, e) ∈ (ValidateI18n.parse_ignore_comments content).1.2.
Proof.
  unfold line_at, ValidateI18n.parse_ignore_comments, ValidateI18n.parse_lines.
  simpl. generalize (Py.split Py.newline content). intros lines.
  intros Hfirst Hstart Hlt Hlast Hclose Hbetween.
  destruct s as [|s]; [discriminate|]. destruct e as [|e]; [lia|].
  simpl in Hfirst, Hlast.
  apply nth_error_split in Hfirst as (before & rest & -> & Hbefore).
  rewrite nth_error_app2 in Hlast by lia.
  replace (e - length before) with (S (e - S s)) in Hlast by lia.
  simpl in Hlast.
  apply nth_error_split in Hlast as (between & after & -> & Hlen).
  assert (Hidle : Forall
            (fun line => ValidateI18n.has_block_start_marker line = false /\
                         ValidateI18n.has_block_end_marker line = false)
            between).
  { apply Forall_forall. intros line Hline.
    apply list_elem_of_In, In_nth_error in Hline as [j Hj].
    assert (Hjlt : j < length between)
      by (apply nth_error_Some; congruence).
    apply (Hbetween (S (S s + j))); [lia|]. cbn [nth_line].
    rewrite nth_error_app2 by lia.
    replace (S s + j - length before) with (S j) by lia. simpl.
    rewrite nth_error_app1 by exact Hjlt. exact Hj. }
  rewrite enumerate_app, fold_left_app. cbn [enumerate fold_left].
  rewrite enumerate_app, fold_left_app. cbn [enumerate fold_left].
  apply parse_keeps_blocks.
  set (st0 := fold_left ValidateI18n.parse_line (enumerate 1 before)
                ValidateI18n.initial_ignore_state).
  destruct (parse_line_start st0 (1 + length before) first Hstart)
    as (_ & Hin & Hbs).
  destruct (parse_idle_lines between (S (1 + length before))
              (ValidateI18n.parse_line st0 (1 + length before, first)) Hidle)
    as [Hbs' Hin'].
  rewrite Hbs in Hbs'. rewrite Hin in Hin'.
  replace (S (1 + length before) + length between) with (S e) by lia.
  replace (1 + length before) with (S s) in * by lia.
  apply parse_line_close; assumption.
Qed.

Example block_comment_end_closes_block_example :
  (1, 3) ∈ (ValidateI18n.parse_ignore_comments block_comment_block_example).1.2.
Proof.
  apply (block_comment_end_closes_block block_comment_block_example 1 3
           "/* i18n-ignore-block */" "/* i18n-ignore-block-end */").
  - reflexivity.
  - reflexivity.
  - lia.
  - reflexivity.
  - reflexivity.
  - intros k line Hk Hline. assert (k = 2) as -> by lia.
    vm_compute in Hline. injection Hline as <-. split; reflexivity.
Qed.

(** ** Blocks *)

(** A line with the line-comment end marker opens a block and records no
    range: the test of the start marker comes first and matches it. *)
Lemma line_comment_end_opens_block (st : ValidateI18n.IgnoreState) (n : nat)
    (line : string) :
  Py.contains "// i18n-ignore-block-end" line = true ->
  ValidateI18n.ignored_blocks (ValidateI18n.parse_line st (n, line))
  = ValidateI18n.ignored_blocks st /\
  ValidateI18n.in_ignore_block (ValidateI18n.parse_line st (n, line)) = true /\
  ValidateI18n.block_start (ValidateI18n.parse_line st (n, line)) = Some n.
Proof.
  intros H. apply parse_line_start, line_comment_end_is_start, H.
Qed.

Lemma closing_line_spelling (line : string) :
  closes_block line = true ->
  Py.contains "/* i18n-ignore-block-end */" line = true /\
  Py.contains "// i18n-ignore-block-end" line = false.
Proof.
  unfold closes_block. intros H.
  apply andb_true_iff in H as [Hstart Hend]. apply negb_true_iff in Hstart.
  destruct (Py.contains "// i18n-ignore-block-end" line) eqn:Hline.
  - rewrite (line_comment_end_is_start _ Hline) in Hstart. discriminate.
  - unfold ValidateI18n.has_block_end_marker in Hend. rewrite Hline in Hend.
    rewrite orb_false_r in Hend. auto.
Qed.

Lemma recorded_range (content : string) (a b : nat) :
  (a, b) ∈ (ValidateI18n.parse_ignore_comments content).1.2 ->
  a < b /\
  (exists line, line_at content a = Some line /\
                ValidateI18n.has_block_start_marker line = true) /\
  (exists line, line_at content b = Some line /\ closes_block line = true).
Proof.
  unfold ValidateI18n.parse_ignore_comments. simpl.
  destruct (parse_lines_inv (Py.split Py.newline content)) as (_ & Hblocks & _).
  apply Hblocks.
Qed.

(** C2, on the code. A range is only ever closed by a line with the
    block-comment spelling of the end marker and without the line-comment
    one; a block written with the line-comment spelling records no range,
    where the same block with the block-comment spelling records (1, 3). *)
Theorem line_comment_block_end_closes_nothing :
  (forall content a b,
     (a, b) ∈ (ValidateI18n.parse_ignore_comments content).1.2 ->
     exists line,
       line_at content b = Some line /\
       Py.contains "/* i18n-ignore-block-end */" line = true /\
       Py.contains "// i18n-ignore-block-end" line = false) /\
  ValidateI18n.parse_ignore_comments line_comment_block_example
  = ({[1; 3]}, ∅, false) /\
  ValidateI18n.extract_hardcoded_strings line_comment_block_example "a.tsx"
  = Ok [("Hello world", 2, false); ("Good morning", 4, false)] /\
  ValidateI18n.parse_ignore_comments block_comment_block_example
  = ({[1; 3]}, {[(1, 3)]}, false) /\
  ValidateI18n.extract_hardcoded_strings block_comment_block_example "a.tsx"
  = Ok [("Hello world", 2, true); ("Good morning", 4, false)].
Proof.
  split.
  - intros content a b Hab.
    destruct (recorded_range _ _ _ Hab) as (_ & _ & line & Hline & Hclose).
    exists line. split; [exact Hline|]. apply closing_line_spelling, Hclose.
  - repeat split; vm_compute; reflexivity.
Qed.

Lemma line_comment_block_end_closes_nothing_witness :
  exists line,
    line_at block_comment_block_example 3 = Some line /\
    Py.contains "/* i18n-ignore-block-end */" line = true /\
    Py.contains "// i18n-ignore-block-end" line = false.
Proof.
  destruct line_comment_block_end_closes_nothing as (H & _).
  apply (H block_comment_block_example 1 3).
  vm_compute. reflexivity.
Defined.

Lemma no_later_end_marker_no_range (content : string) (s : nat) :
  (forall e later, s < e -> line_at content e = Some later ->
                   ValidateI18n.has_block_end_marker later = false) ->
  forall a b, (a, b) ∈ (ValidateI18n.parse_ignore_comments content).1.2 ->
              b <= s.
Proof.
  intros Hnone a b Hab.
  destruct (recorded_range _ _ _ Hab) as (_ & _ & line & Hline & Hclose).
  destruct (Nat.le_gt_cases b s) as [Hle|Hgt]; [exact Hle|].
  specialize (Hnone b line Hgt Hline).
  unfold closes_block in Hclose. rewrite Hnone, andb_false_r in Hclose.
  discriminate.
Qed.

Lemma marked_line_is_ignored (content : string) (n : nat) (line : string) :
  line_at content n = Some line ->
  ValidateI18n.has_inline_marker line = true ->
  n ∈ (ValidateI18n.parse_ignore_comments content).1.1.
Proof.
  intros Hline Hmark. unfold ValidateI18n.parse_ignore_comments. simpl.
  destruct (parse_lines_inv (Py.split Py.newline content)) as (_ & _ & Hlines & _).
  apply Hlines. eauto.
Qed.

(** C8, as the code has it. A recorded range suppresses every line from its
    start to its end, both included, and not the line after its end unless
    that line is suppressed otherwise.  A block-start marker on line [s] with
    no block-end marker on any later line records no range and suppresses no
    later line, but its own line is suppressed: the start marker contains the
    inline marker, which puts line [s] among the ignored lines. *)
Theorem block_suppression_boundaries :
  (forall il ib s e n,
     (s, e) ∈ ib -> s <= n <= e ->
     ValidateI18n.is_line_ignored n il ib = true) /\
  (forall il s e,
     S e ∉ il -> ValidateI18n.is_line_ignored (S e) il {[(s, e)]} = false) /\
  (forall content s line il ib whole,
     ValidateI18n.parse_ignore_comments content = (il, ib, whole) ->
     line_at content s = Some line ->
     ValidateI18n.has_block_start_marker line = true ->
     (forall e later, s < e -> line_at content e = Some later ->
                      ValidateI18n.has_block_end_marker later = false) ->
     (forall e, (s, e) ∉ ib) /\
     (forall n, s < n -> ValidateI18n.is_line_ignored n il ib = true -> n ∈ il) /\
     s ∈ il /\
     ValidateI18n.is_line_ignored s il ib = true).
Proof.
  split; [|split].
  - intros il ib s e n Hin Hn. apply is_line_ignored_spec. right. eauto.
  - intros il s e Hil.
    destruct (ValidateI18n.is_line_ignored (S e) il {[(s, e)]}) eqn:H;
      [|reflexivity].
    apply is_line_ignored_spec in H as [H|(s' & e' & Hin & Hle)].
    + contradiction.
    + apply elem_of_singleton in Hin. injection Hin as -> ->. lia.
  - intros content s line il ib whole Hparse Hline Hstart Hnone.
    assert (Hib : ib = (ValidateI18n.parse_ignore_comments content).1.2)
      by (rewrite Hparse; reflexivity).
    assert (Hil : il = (ValidateI18n.parse_ignore_comments content).1.1)
      by (rewrite Hparse; reflexivity).
    assert (Hs : s ∈ il).
    { rewrite Hil. apply (marked_line_is_ignored _ _ line); [exact Hline|].
      apply block_start_is_inline, Hstart. }
    split; [|split; [|split]].
    + intros e He. rewrite Hib in He.
      pose proof (no_later_end_marker_no_range _ _ Hnone _ _ He) as Hle.
      destruct (recorded_range _ _ _ He) as (Hlt & _). lia.
    + intros n Hn Hign.
      apply is_line_ignored_spec in Hign as [Hign|(a & b & Hab & Hle)];
        [exact Hign|].
      rewrite Hib in Hab.
      pose proof (no_later_end_marker_no_range _ _ Hnone _ _ Hab). lia.
    + exact Hs.
    + apply is_line_ignored_spec. left. exact Hs.
Qed.

Lemma block_suppression_boundaries_witness :
  ValidateI18n.is_line_ignored 3 ∅ {[(1, 3)]} = true /\
  ValidateI18n.is_line_ignored 4 ∅ {[(1, 3)]} = false /\
  ValidateI18n.is_line_ignored 1 {[1]} ∅ = true.
Proof.
  destruct block_suppression_boundaries as (Hin & Hout & Hopen).
  split; [|split].
  - apply (Hin ∅ {[(1, 3)]} 1 3 3); [apply elem_of_singleton; reflexivity | lia].
  - apply (Hout ∅ 1 3). apply not_elem_of_empty.
  - apply (Hopen unterminated_block_example 1
             "const a = 'Hello world'; // i18n-ignore-block" {[1]} ∅ false).
    + vm_compute. reflexivity.
    + reflexivity.
    + vm_compute. reflexivity.
    + intros e later He Hlater.
      destruct e as [|[|[|e]]]; try lia.
      * vm_compute in Hlater. injection Hlater as <-. vm_compute. reflexivity.
      * vm_compute in Hlater. destruct e; discriminate.
Defined.

(** C8, as the claim states it, fails on the line of the start marker: the
    file has one block-start marker, no block-end marker and no other
    annotation, and the literal of line 1 is suppressed. *)
Lemma unterminated_block_suppresses_its_own_line :
  line_at unterminated_block_example 1
  = Some "const a = 'Hello world'; // i18n-ignore-block" /\
  ValidateI18n.has_block_start_marker
    "const a = 'Hello world'; // i18n-ignore-block" = true /\
  ValidateI18n.has_block_end_marker unterminated_block_example = false /\
  ValidateI18n.parse_ignore_comments unterminated_block_example
  = ({[1]}, ∅, false) /\
  ValidateI18n.is_line_ignored 1 {[1]} ∅ = true /\
  ValidateI18n.extract_hardcoded_strings unterminated_block_example "a.tsx"
  = Ok [("Hello world", 1, true); ("Good morning", 2, false)].
Proof.
  repeat split; vm_compute; reflexivity.
Qed.

(** ** The quoted-literal pattern *)

Lemma append_assoc (s t u : string) : (s +:+ t) +:+ u = s +:+ (t +:+ u).
Proof.
  induction s as [|c s IH]; [reflexivity|].
  change (String c ((s +:+ t) +:+ u) = String c (s +:+ (t +:+ u))).
  rewrite IH. reflexivity.
Qed.

Lemma plain_run_tokens (q : ascii) (s t : string) :
  Re.in_lang (Re.Star (Re.Class (Re.plain q))) s ->
  body_tokens q t -> body_tokens q (s +:+ t).
Proof.
  intros Hs Ht. remember (Re.Star (Re.Class (Re.plain q))) as r eqn:Hr.
  induction Hs as [| | |a s1 s2 Hone _ Hrest IH]; try discriminate.
  - exact Ht.
  - injection Hr as ->. inversion Hone as [p c Hc| | |]; subst.
    rewrite append_assoc. simpl. apply tokens_plain; [exact Hc|].
    apply IH. reflexivity.
Qed.

Lemma escape_groups_tokens (q : ascii) (t : string) :
  Re.in_lang
    (Re.Star (Re.Cat (Re.Class (Ascii.eqb Py.backslash))
                (Re.Cat (Re.Class Re.dot) (Re.Star (Re.Class (Re.plain q))))))
    t ->
  body_tokens q t.
Proof.
  intros Ht.
  remember (Re.Star (Re.Cat (Re.Class (Ascii.eqb Py.backslash))
                       (Re.Cat (Re.Class Re.dot)
                          (Re.Star (Re.Class (Re.plain q)))))) as r eqn:Hr.
  induction Ht as [| | |a s1 s2 Hone _ Hrest IH]; try discriminate.
  - constructor.
  - injection Hr as ->.
    inversion Hone as [|? ? b1 rest1 Hb Hrest1| |]; subst.
    inversion Hb as [p c Hc| | |]; subst.
    inversion Hrest1 as [|? ? d1 run Hd Hrun| |]; subst.
    inversion Hd as [p d Hdot| | |]; subst.
    apply Ascii.eqb_eq in Hc. subst c.
    simpl. rewrite append_assoc.
    apply tokens_escape; [exact Hdot|].
    apply plain_run_tokens; [exact Hrun|]. apply IH. reflexivity.
Qed.

Lemma quoted_group_tokens (q : ascii) (g : string) :
  Re.in_lang (Re.quoted_group q) g <-> body_tokens q g.
Proof.
  split.
  - unfold Re.quoted_group. intros H.
    inversion H as [|? ? run groups Hrun Hgroups| |]; subst.
    apply plain_run_tokens; [exact Hrun|].
    apply escape_groups_tokens, Hgroups.
  - unfold Re.quoted_group. induction 1 as [|c g Hc _ IH|d g Hd _ IH].
    + apply (Re.in_cat _ _ "" ""); constructor.
    + inversion IH as [|? ? run groups Hrun Hgroups| |]; subst.
      apply (Re.in_cat _ _ (String c run) groups); [|exact Hgroups].
      apply (Re.in_star_cons _ (String c "") run); [|exact Hrun].
      constructor. exact Hc.
    + inversion IH as [|? ? run groups Hrun Hgroups| |]; subst.
      apply (Re.in_cat _ _ "" (String Py.backslash (String d (run +:+ groups))));
        [constructor|].
      apply (Re.in_star_cons _ (String Py.backslash (String d run)) groups);
        [|exact Hgroups].
      apply (Re.in_cat _ _ (String Py.backslash "") (String d run)).
      * constructor. apply Ascii.eqb_refl.
      * apply (Re.in_cat _ _ (String d "") run); [|exact Hrun].
        constructor. exact Hd.
Qed.

Lemma quoted_body_tokens_bounded (q : ascii) (n : nat) (s g rest : string) :
  String.length s <= n ->
  Re.quoted_body q s = Some (g, rest) ->
  body_tokens q g /\ s = g +:+ String q rest.
Proof.
  revert s g rest. induction n as [|n IH]; intros s g rest Hlen.
  - destruct s; [discriminate | simpl in Hlen; lia].
  - destruct s as [|c r]; [discriminate|]. simpl in Hlen.
    cbn [Re.quoted_body].
    destruct (Ascii.eqb c q) eqn:Hq.
    + intros [= <- <-]. apply Ascii.eqb_eq in Hq. subst c.
      split; [constructor | reflexivity].
    + destruct (Ascii.eqb c Py.backslash) eqn:Hb.
      * apply Ascii.eqb_eq in Hb. subst c.
        destruct r as [|d r']; [discriminate|]. simpl in Hlen.
        destruct (Ascii.eqb d Py.newline) eqn:Hn; [discriminate|].
        destruct (Re.quoted_body q r') as [[g' rest']|] eqn:Hrec; [|discriminate].
        intros [= <- <-].
        destruct (IH r' g' rest' ltac:(lia) Hrec) as [Htok ->].
        split; [|reflexivity].
        apply tokens_escape; [|exact Htok].
        unfold Re.dot. rewrite Hn. reflexivity.
      * destruct (Re.quoted_body q r) as [[g' rest']|] eqn:Hrec; [|discriminate].
        intros [= <- <-].
        destruct (IH r g' rest' ltac:(lia) Hrec) as [Htok ->].
        split; [|reflexivity].
        apply tokens_plain; [|exact Htok].
        unfold Re.plain. rewrite Hq, Hb. reflexivity.
Qed.

Lemma tokens_quoted_body (q : ascii) (g rest : string) :
  q <> Py.backslash ->
  body_tokens q g ->
  Re.quoted_body q (g +:+ String q rest) = Some (g, rest).
Proof.
  intros Hq. induction 1 as [|c g Hc _ IH|d g Hd _ IH].
  - change (Re.quoted_body q (String q rest) = Some ("", rest)).
    cbn [Re.quoted_body]. rewrite Ascii.eqb_refl. reflexivity.
  - change (Re.quoted_body q (String c (g +:+ String q rest))
            = Some (String c g, rest)).
    unfold Re.plain in Hc. apply andb_true_iff in Hc as [Hcq Hcb].
    apply negb_true_iff in Hcq, Hcb.
    cbn [Re.quoted_body]. rewrite Hcq, Hcb, IH. reflexivity.
  - change (Re.quoted_body q
              (String Py.backslash (String d (g +:+ String q rest)))
            = Some (String Py.backslash (String d g), rest)).
    unfold Re.dot in Hd. apply negb_true_iff in Hd.
    assert (Hbq : Ascii.eqb Py.backslash q = false).
    { apply Ascii.eqb_neq. congruence. }
    cbn [Re.quoted_body]. rewrite Hbq, Ascii.eqb_refl, Hd, IH. reflexivity.
Qed.

(** The text after an opening quote matches the rest of the pattern in one
    way at most, the one [quoted_body] returns: group 1 is a text of the
    language of the group and the closing quote follows it. *)
Lemma quoted_body_spec (q : ascii) (s g rest : string) :
  q <> Py.backslash ->
  Re.quoted_body q s = Some (g, rest) <->
  Re.in_lang (Re.quoted_group q) g /\ s = g +:+ String q rest.
Proof.
  intros Hq. rewrite quoted_group_tokens. split.
  - apply (quoted_body_tokens_bounded q (String.length s)). lia.
  - intros [Htok ->]. apply tokens_quoted_body; assumption.
Qed.


(** ** The order of the extracted strings *)

Lemma finditer_from_starts (q : ascii) (s : string) (pos skip : nat) :
  StronglySorted starts_before (Re.finditer_from q pos skip s) /\
  Forall (fun m => pos <= Re.m_start m) (Re.finditer_from q pos skip s).
Proof.
  revert pos skip. induction s as [|c r IH]; intros pos skip; simpl.
  - split; constructor.
  - assert (Hnext : forall k,
              StronglySorted starts_before (Re.finditer_from q (S pos) k r) /\
              Forall (fun m => pos <= Re.m_start m)
                (Re.finditer_from q (S pos) k r)).
    { intros k. destruct (IH (S pos) k) as [Hs Hf]. split; [exact Hs|].
      eapply Forall_impl; [exact Hf|]. simpl. intros m Hm. lia. }
    destruct skip as [|k]; [|apply Hnext].
    destruct (Ascii.eqb c q); [|apply Hnext].
    destruct (Re.quoted_body q r) as [[g rest]|]; [|apply Hnext].
    destruct (IH (S pos) (S (Py.len g))) as [Hs Hf]. split.
    + constructor; [exact Hs|].
      eapply Forall_impl; [exact Hf|]. unfold starts_before. simpl.
      intros m Hm. lia.
    + constructor; [simpl; lia|]. apply Hnext.
Qed.

Lemma finditer_sorted (q : ascii) (line : string) :
  StronglySorted starts_before (Re.finditer q line).
Proof. apply finditer_from_starts. Qed.

Lemma located_matches_sorted (line_num i : nat) (ms : list Re.Match) :
  StronglySorted starts_before ms ->
  StronglySorted loop_order
    (map (fun m => {| l_line := line_num; l_pattern := i; l_match := m |}) ms).
Proof.
  induction 1 as [|m ms _ IH Hall]; simpl; constructor.
  - exact IH.
  - apply Forall_forall. intros loc Hloc.
    apply list_elem_of_In, in_map_iff in Hloc as (m' & <- & Hm').
    rewrite Forall_forall in Hall.
    specialize (Hall m' (proj2 (list_elem_of_In _ _) Hm')).
    unfold loop_order, l_start. simpl. right. split; [reflexivity|].
    right. split; [reflexivity|]. exact Hall.
Qed.

Lemma line_literals_origin (line_num : nat) (line : string) (loc : Located) :
  In loc (line_literals line_num line) ->
  l_line loc = line_num /\
  exists q, nth_error ValidateI18n.quote_patterns (l_pattern loc) = Some q /\
            In (l_match loc) (Re.finditer q line).
Proof.
  unfold line_literals, ValidateI18n.quote_patterns. simpl.
  rewrite app_nil_r. intros H.
  apply in_app_or in H as [H|H]; apply in_map_iff in H as (m & <- & Hm); simpl.
  - split; [reflexivity|]. exists Py.squote. auto.
  - split; [reflexivity|]. exists Py.dquote. auto.
Qed.

Lemma line_literals_sorted (line_num : nat) (line : string) :
  StronglySorted loop_order (line_literals line_num line).
Proof.
  unfold line_literals, ValidateI18n.quote_patterns. simpl.
  rewrite app_nil_r. apply StronglySorted_app_2.
  - intros a b Ha Hb.
    apply list_elem_of_In, in_map_iff in Ha as (ma & <- & _).
    apply list_elem_of_In, in_map_iff in Hb as (mb & <- & _).
    unfold loop_order. simpl. right. split; [reflexivity|]. left. lia.
  - apply located_matches_sorted, finditer_sorted.
  - apply located_matches_sorted, finditer_sorted.
Qed.

Lemma numbered_literals_sorted (n : nat) (lines : list string) :
  StronglySorted loop_order
    (flat_map
       (fun '(line_num, line) =>
          if ValidateI18n.skipped_line line then []
          else line_literals line_num line)
       (enumerate n lines)) /\
  forall loc,
    In loc
      (flat_map
         (fun '(line_num, line) =>
            if ValidateI18n.skipped_line line then []
            else line_literals line_num line)
         (enumerate n lines)) ->
    n <= l_line loc /\
    exists line q,
      nth_error lines (l_line loc - n) = Some line /\
      nth_error ValidateI18n.quote_patterns (l_pattern loc) = Some q /\
      In (l_match loc) (Re.finditer q line).
Proof.
  revert n. induction lines as [|line lines IH]; intros n; simpl.
  - split; [constructor | contradiction].
  - destruct (IH (S n)) as [Hsorted Horigin].
    assert (Hhere : forall loc,
              In loc (if ValidateI18n.skipped_line line then []
                      else line_literals n line) ->
              l_line loc = n /\
              exists q,
                nth_error ValidateI18n.quote_patterns (l_pattern loc) = Some q /\
                In (l_match loc) (Re.finditer q line)).
    { intros loc Hloc. destruct (ValidateI18n.skipped_line line);
        [contradiction|]. apply line_literals_origin, Hloc. }
    split.
    + apply StronglySorted_app_2.
      * intros a b Ha Hb. apply list_elem_of_In in Ha, Hb.
        destruct (Hhere a Ha) as [Hline _].
        destruct (Horigin b Hb) as [Hge _].
        unfold loop_order. left. lia.
      * destruct (ValidateI18n.skipped_line line);
          [constructor | apply line_literals_sorted].
      * exact Hsorted.
    + intros loc Hloc. apply in_app_or in Hloc as [Hloc|Hloc].
      * destruct (Hhere loc Hloc) as (Hline & q & Hq & Hm).
        split; [lia|]. exists line, q. rewrite Hline, Nat.sub_diag. auto.
      * destruct (Horigin loc Hloc) as (Hge & l & q & Hl & Hq & Hm).
        split; [lia|]. exists l, q.
        replace (l_line loc - n) with (S (l_line loc - S n)) by lia. auto.
Qed.

Lemma literals_sorted (content : string) :
  StronglySorted loop_order (literals content).
Proof. apply numbered_literals_sorted. Qed.

Lemma literals_origin (content : string) (loc : Located) :
  In loc (literals content) ->
  exists line q,
    line_at content (l_line loc) = Some line /\
    nth_error ValidateI18n.quote_patterns (l_pattern loc) = Some q /\
    In (l_match loc) (Re.finditer q line).
Proof.
  intros Hloc.
  destruct (numbered_literals_sorted 1 (Py.split Py.newline content))
    as [_ Horigin].
  destruct (Horigin loc Hloc) as (Hge & line & q & Hline & Hq & Hm).
  exists line, q. split; [|auto].
  unfold line_at, nth_line. destruct (l_line loc) as [|k]; [lia|].
  replace k with (S k - 1) by lia. exact Hline.
Qed.

(** C7, as the code has it. The extracted strings are the user-facing
    literals of the file in the order of the loops, with no literal dropped
    for being a duplicate: top to bottom by line and, in a line, the
    single-quoted literals from left to right and then the double-quoted
    literals from left to right. *)
Theorem extraction_follows_loop_order (content file_path : string) :
  StronglySorted loop_order (literals content) /\
  (forall loc, In loc (literals content) ->
     exists line q,
       line_at content (l_line loc) = Some line /\
       nth_error [Py.squote; Py.dquote] (l_pattern loc) = Some q /\
       In (l_match loc) (Re.finditer q line)) /\
  FindHardcodedStrings.extract_hardcoded_strings content file_path
  = Ok (map find_entry
          (List.filter
             (fun loc =>
                user_facing FindHardcodedStrings.is_likely_user_facing_text
                  (l_text loc))
             (literals content))) /\
  (forall il ib,
     ValidateI18n.parse_ignore_comments content = (il, ib, false) ->
     ValidateI18n.extract_hardcoded_strings content file_path
     = Ok (map (validate_entry il ib)
             (List.filter
                (fun loc =>
                   user_facing ValidateI18n.is_likely_user_facing_text
                     (l_text loc))
                (literals content)))).
Proof.
  split; [apply literals_sorted|].
  split; [apply literals_origin|].
  split; [apply find_extract_spec|].
  intros il ib Hparse.
  apply (validate_extract_spec content file_path il ib false Hparse).
Qed.

Lemma extraction_follows_loop_order_witness :
  ValidateI18n.extract_hardcoded_strings mixed_quotes_example "a.tsx"
  = Ok (map (validate_entry ∅ ∅)
          (List.filter
             (fun loc =>
                user_facing ValidateI18n.is_likely_user_facing_text (l_text loc))
             (literals mixed_quotes_example))).
Proof.
  destruct (extraction_follows_loop_order mixed_quotes_example "a.tsx")
    as (_ & _ & _ & H).
  apply (H ∅ ∅). vm_compute. reflexivity.
Defined.

(** C7, as the claim states it, fails on a line with both kinds of quotes:
    the single-quoted literal that starts at column 20 is extracted before
    the double-quoted one that starts at column 4. *)
Lemma mixed_quotes_are_not_in_reading_order :
  FindHardcodedStrings.extract_hardcoded_strings mixed_quotes_example "a.tsx"
  = Ok [("Good morning", 1); ("Hello there", 1)] /\
  ValidateI18n.extract_hardcoded_strings mixed_quotes_example "a.tsx"
  = Ok [("Good morning", 1, false); ("Hello there", 1, false)] /\
  map (fun loc => (l_text loc, l_line loc, l_start loc))
    (literals mixed_quotes_example)
  = [("Good morning", 1, 20); ("Hello there", 1, 4)] /\
  ~ StronglySorted reading_order (literals mixed_quotes_example).
Proof.
  split; [vm_compute; reflexivity|].
  split; [vm_compute; reflexivity|].
  split; [vm_compute; reflexivity|].
  intros H.
  assert (Heval : literals mixed_quotes_example
                  = [ {| l_line := 1; l_pattern := 0;
                         l_match := {| Re.m_start := 20;
                                       Re.m_group1 := "Good morning" |} |};
                      {| l_line := 1; l_pattern := 1;
                         l_match := {| Re.m_start := 4;
                                       Re.m_group1 := "Hello there" |} |} ])
    by (vm_compute; reflexivity).
  rewrite Heval in H.
  apply StronglySorted_cons in H as [H _].
  apply Forall_cons in H as [H _].
  unfold reading_order, l_start in H. simpl in H. lia.
Qed.

(** ** Missing keys *)

Lemma validate_translation_keys_lookup (read_json : string -> option ValidateI18n.json)
    (used : gset string) (files : gmap string string) (lang : string) :
  ValidateI18n.validate_translation_keys read_json used files !! lang
  = match files !! lang with
    | Some file_path =>
        let missing := used ∖ ValidateI18n.load_translation_keys read_json file_path in
        if bool_decide (missing ≠ ∅) then Some missing else None
    | None => None
    end.
Proof.
  unfold ValidateI18n.validate_translation_keys. revert lang.
  apply (map_fold_weak_ind
    (fun (r : gmap string (gset string)) (m : gmap string string) =>
       forall lang,
         r !! lang
         = match m !! lang with
           | Some file_path =>
               let missing :=
                 used ∖ ValidateI18n.load_translation_keys read_json file_path in
               if bool_decide (missing ≠ ∅) then Some missing else None
           | None => None
           end)).
  - intros lang. rewrite !lookup_empty. reflexivity.
  - intros l file_path m r Hfresh IH lang. simpl.
    destruct (decide (l = lang)) as [->|Hne].
    + rewrite lookup_insert_eq. simpl.
      destruct (bool_decide
                  (used ∖ ValidateI18n.load_translation_keys read_json file_path ≠ ∅)).
      * apply lookup_insert_eq.
      * rewrite IH, Hfresh. reflexivity.
    + rewrite (lookup_insert_ne m) by exact Hne.
      destruct (bool_decide
                  (used ∖ ValidateI18n.load_translation_keys read_json file_path ≠ ∅)).
      * rewrite lookup_insert_ne by exact Hne. apply IH.
      * apply IH.
Qed.

(** C6. Missing-key detection: the report has an entry for a locale exactly
    when some used key is not among the keys of that locale, the entry is
    the set of those keys, nothing is reported for a language that has no
    translation file, and a used key that every locale defines is in no
    entry. *)
Theorem missing_key_detection (read_json : string -> option ValidateI18n.json)
    (used : gset string) (files : gmap string string) :
  (forall lang file_path,
     files !! lang = Some file_path ->
     (is_Some (ValidateI18n.validate_translation_keys read_json used files !! lang)
      <-> used ∖ ValidateI18n.load_translation_keys read_json file_path ≠ ∅) /\
     (forall missing,
        ValidateI18n.validate_translation_keys read_json used files !! lang
        = Some missing ->
        missing = used ∖ ValidateI18n.load_translation_keys read_json file_path)) /\
  (forall lang,
     files !! lang = None ->
     ValidateI18n.validate_translation_keys read_json used files !! lang = None) /\
  (forall key,
     (forall lang file_path,
        files !! lang = Some file_path ->
        key ∈ ValidateI18n.load_translation_keys read_json file_path) ->
     forall lang missing,
       ValidateI18n.validate_translation_keys read_json used files !! lang
       = Some missing ->
       key ∉ missing).
Proof.
  split; [|split].
  - intros lang file_path Hfile.
    rewrite validate_translation_keys_lookup, Hfile. simpl.
    destruct (bool_decide
                (used ∖ ValidateI18n.load_translation_keys read_json file_path ≠ ∅))
      eqn:Hdec.
    + apply bool_decide_eq_true in Hdec. split.
      * split; [intros _; exact Hdec | intros _; eexists; reflexivity].
      * intros missing [= <-]. reflexivity.
    + apply bool_decide_eq_false in Hdec. split.
      * split; [intros [x Hx]; discriminate | intros H; contradiction].
      * intros missing H. discriminate.
  - intros lang Hfile. rewrite validate_translation_keys_lookup, Hfile.
    reflexivity.
  - intros key Hall lang missing.
    rewrite validate_translation_keys_lookup.
    destruct (files !! lang) as [file_path|] eqn:Hfile; [|discriminate].
    simpl.
    destruct (bool_decide
                (used ∖ ValidateI18n.load_translation_keys read_json file_path ≠ ∅));
      [|discriminate].
    intros [= <-]. specialize (Hall lang file_path Hfile).
    intros Hin. apply elem_of_difference in Hin as [_ Hout]. contradiction.
Qed.

(** The key [errors.notFound] is used and the Swedish locale lacks it. *)
Lemma missing_key_detection_witness :
  ValidateI18n.load_translation_keys example_locales "sv.json"
  = {[ "auth.login.title" ]} /\
  ValidateI18n.validate_translation_keys example_locales example_used_keys
    example_translation_files
  = {[ "sv" := {[ "errors.notFound" ]} ]} /\
  forall missing,
    ValidateI18n.validate_translation_keys example_locales example_used_keys
      example_translation_files !! "sv" = Some missing ->
    missing
    = example_used_keys
      ∖ ValidateI18n.load_translation_keys example_locales "sv.json".
Proof.
  split; [vm_compute; reflexivity|].
  split; [vm_compute; reflexivity|].
  destruct (missing_key_detection example_locales example_used_keys
              example_translation_files) as (H & _ & _).
  apply (H "sv" "sv.json"). vm_compute. reflexivity.
Defined.

(** ** Scenarios *)

Example identifiers_are_technical :
  ValidateI18n.is_likely_user_facing_text "onClick" = Ok false /\
  ValidateI18n.is_likely_user_facing_text "user_id" = Ok false /\
  ValidateI18n.is_likely_user_facing_text "btn-primary" = Ok false /\
  ValidateI18n.is_likely_user_facing_text "Please confirm" = Ok true /\
  FindHardcodedStrings.is_likely_user_facing_text "onClick" = Ok false /\
  FindHardcodedStrings.is_likely_user_facing_text "user_id" = Ok false /\
  FindHardcodedStrings.is_likely_user_facing_text "btn-primary" = Ok false /\
  FindHardcodedStrings.is_likely_user_facing_text "Please confirm" = Ok true.
Proof. repeat split. Qed.

Example sentence_is_an_issue :
  ValidateI18n.analyze_file ∅ "a.tsx"
    (String Py.dquote
       ("Please enter a valid email" +:+ String Py.dquote ";"))
    ValidateI18n.initial_analysis
  = Ok {| ValidateI18n.all_files := ["a.tsx"];
          ValidateI18n.issues := [("a.tsx", 1, "Please enter a valid email")];
          ValidateI18n.ignored_strings := [];
          ValidateI18n.used_keys := ∅ |}.
Proof. vm_compute. reflexivity. Qed.

Example utility_classes_are_no_finding :
  ValidateI18n._is_css_class_string "flex items-center gap-2" = true /\
  ValidateI18n.extract_hardcoded_strings
    "const cls = 'flex items-center gap-2';" "a.tsx" = Ok [].
Proof. split; vm_compute; reflexivity. Qed.

Example used_key_missing_in_one_locale :
  ValidateI18n.extract_translation_calls "t('errors.notFound')"
  = {[ "errors.notFound" ]} /\
  ValidateI18n.validate_translation_keys example_locales
    {[ "errors.notFound" ]} example_translation_files
  = {[ "sv" := {[ "errors.notFound" ]} ]}.
Proof. split; vm_compute; reflexivity. Qed.

Example block_from_10_to_15 :
  ValidateI18n.extract_hardcoded_strings block_10_15_example "a.tsx"
  = Ok [("Hello world", 15, true); ("Good morning", 16, false)].
Proof. vm_compute. reflexivity. Qed.

Example duplicates_are_kept :
  FindHardcodedStrings.extract_hardcoded_strings
    "f('Hello world', 'Hello world');" "a.tsx"
  = Ok [("Hello world", 1); ("Hello world", 1)].
Proof. vm_compute. reflexivity. Qed.

(** ** The annotations of a file, exactly *)

Lemma block_inv_initial : block_inv [] ValidateI18n.initial_ignore_state.
Proof.
  unfold block_inv. simpl. split; [|split].
  - split; [discriminate | intros [a H]; discriminate].
  - intros a. split; [discriminate|].
    intros [(line & H & _) _]. destruct a as [|[|k]]; discriminate.
  - intros a b. split.
    + intros H. apply not_elem_of_empty in H. contradiction.
    + intros (_ & (line & H & _) & _). destruct a as [|[|k]]; discriminate.
Qed.




Lemma line_kinds (line : string) :
  ValidateI18n.has_block_start_marker line = true \/
  closes_block line = true \/
  idle_line line.
Proof.
  unfold closes_block, idle_line.
  destruct (ValidateI18n.has_block_start_marker line); [auto|].
  destruct (ValidateI18n.has_block_end_marker line); auto.
Qed.

Lemma block_inv_step (lines : list string) (line : string)
    (st : ValidateI18n.IgnoreState) :
  block_inv lines st ->
  block_inv (lines ++ [line])
    (ValidateI18n.parse_line st (S (length lines), line)).
Proof.
  intros (Hopen & Hstart & Hblocks).
  destruct (parse_line_fields st (S (length lines)) line)
    as (_ & _ & Estart & Ein & Eblocks).
  set (st' := ValidateI18n.parse_line st (S (length lines), line)) in *.
  set (n := S (length lines)) in *.
  assert (Hlast : nth_line (lines ++ [line]) n = Some line).
  { apply nth_line_snoc. right. split; reflexivity. }
  assert (Hkeep : forall k l, nth_line lines k = Some l ->
                              nth_line (lines ++ [line]) k = Some l /\ k < n).
  { intros k l H. split; [apply nth_line_snoc; left; exact H|].
    apply nth_line_bound in H. unfold n. lia. }
  assert (Hwhich : forall k l, nth_line (lines ++ [line]) k = Some l ->
                               (k < n /\ nth_line lines k = Some l) \/
                               (k = n /\ l = line)).
  { intros k l H. apply nth_line_snoc in H as [H|[-> ->]]; [left | right; auto].
    split; [|exact H]. apply nth_line_bound in H. unfold n. lia. }
  assert (Hstart' : forall a,
            ValidateI18n.block_start st' = Some a <->
            (exists l, nth_line (lines ++ [line]) a = Some l /\
                       ValidateI18n.has_block_start_marker l = true) /\
            (forall k l, a < k -> nth_line (lines ++ [line]) k = Some l ->
                         idle_line l)).
  { intros a. rewrite Estart. split.
    - destruct (ValidateI18n.has_block_start_marker line) eqn:Hs.
      + intros [= <-]. split; [exists line; auto|].
        intros k l Hk Hl. apply Hwhich in Hl as [[Hlt _]|[-> _]]; lia.
      + destruct (ValidateI18n.has_block_end_marker line) eqn:He; [discriminate|].
        intros Ha. apply Hstart in Ha as [(l & Hl & Hm) Hidle].
        split; [exists l; split; [apply Hkeep, Hl | exact Hm]|].
        intros k l' Hk Hl'. apply Hwhich in Hl' as [[_ Hl']|[_ ->]].
        * apply (Hidle k l' Hk Hl').
        * split; assumption.
    - intros [(l & Hl & Hm) Hidle].
      apply Hwhich in Hl as [[Hlt Hl]|[-> ->]].
      + destruct (Hidle n line Hlt Hlast) as [Hs He]. rewrite Hs, He.
        apply Hstart. split; [exists l; auto|].
        intros k l' Hk Hl'. apply (Hidle k l' Hk). apply Hkeep, Hl'.
      + rewrite Hm. reflexivity. }
  unfold block_inv. split; [|split].
  - rewrite Ein, Estart.
    destruct (ValidateI18n.has_block_start_marker line).
    + split; [eauto | reflexivity].
    + destruct (ValidateI18n.has_block_end_marker line).
      * split; [discriminate | intros [a H]; discriminate].
      * exact Hopen.
  - exact Hstart'.
  - intros a b. rewrite Eblocks. split.
    + intros Hab.
      assert (Hcase : (a, b) ∈ ValidateI18n.ignored_blocks st \/
                      (closes_block line = true /\
                       ValidateI18n.block_start st = Some a /\ b = n)).
      { destruct (closes_block line) eqn:Hclose; [|auto].
        destruct (ValidateI18n.block_start st) as [start|] eqn:Hbs; [|auto].
        destruct (ValidateI18n.in_ignore_block st && _); [|auto].
        apply elem_of_union in Hab as [Hnew|Hab]; [|auto].
        apply elem_of_singleton in Hnew. injection Hnew as -> ->. auto. }
      destruct Hcase as [Hab'|(Hclose & Hbs & ->)].
      * apply Hblocks in Hab' as (Hlt & (la & Hla & Hma) & (lb & Hlb & Hmb) & Hidle).
        split; [exact Hlt|].
        split; [exists la; split; [apply Hkeep, Hla | exact Hma]|].
        split; [exists lb; split; [apply Hkeep, Hlb | exact Hmb]|].
        intros k l Hk Hl. apply Hwhich in Hl as [[_ Hl]|[-> _]].
        -- apply (Hidle k l Hk Hl).
        -- destruct (Hkeep _ _ Hlb). lia.
      * apply Hstart in Hbs as [(la & Hla & Hma) Hidle].
        destruct (Hkeep _ _ Hla) as [Hla' Han].
        split; [exact Han|].
        split; [exists la; auto|].
        split; [exists line; auto|].
        intros k l Hk Hl. apply Hwhich in Hl as [[_ Hl]|[-> _]]; [|lia].
        apply (Hidle k l); [lia | exact Hl].
    + intros (Hlt & (la & Hla & Hma) & (lb & Hlb & Hmb) & Hidle).
      apply Hwhich in Hlb as [[Hbn Hlb]|[-> ->]].
      * assert (Hin : (a, b) ∈ ValidateI18n.ignored_blocks st).
        { apply Hblocks. split; [exact Hlt|].
          apply Hwhich in Hla as [[_ Hla]|[-> _]]; [|lia].
          split; [exists la; auto|]. split; [exists lb; auto|].
          intros k l Hk Hl. apply (Hidle k l Hk). apply Hkeep, Hl. }
        destruct (closes_block line); [|exact Hin].
        destruct (ValidateI18n.block_start st); [|exact Hin].
        destruct (ValidateI18n.in_ignore_block st && _); [|exact Hin].
        apply elem_of_union. right. exact Hin.
      * rewrite Hmb.
        apply Hwhich in Hla as [[_ Hla]|[-> _]]; [|lia].
        assert (Hbs : ValidateI18n.block_start st = Some a).
        { apply Hstart. split; [exists la; auto|].
          intros k l Hk Hl. apply (Hidle k l).
          - apply nth_line_bound in Hl. unfold n. lia.
          - apply Hkeep, Hl. }
        rewrite Hbs.
        assert (Hin : ValidateI18n.in_ignore_block st = true)
          by (apply Hopen; eauto).
        rewrite Hin. destruct a as [|a]; [discriminate|]. simpl.
        apply elem_of_union. left. apply elem_of_singleton. reflexivity.
Qed.

Lemma parse_lines_block_inv (lines : list string) :
  block_inv lines (ValidateI18n.parse_lines lines).
Proof.
  induction lines as [|line lines IH] using rev_ind.
  - apply block_inv_initial.
  - rewrite parse_lines_snoc. apply block_inv_step, IH.
Qed.

Lemma marker_contains_inline (line : string) :
  ValidateI18n.has_file_marker line = true \/
  ValidateI18n.has_block_start_marker line = true \/
  ValidateI18n.has_block_end_marker line = true ->
  ValidateI18n.has_inline_marker line = true.
Proof.
  unfold ValidateI18n.has_file_marker, ValidateI18n.has_block_end_marker,
    ValidateI18n.has_inline_marker.
  intros [H|[H|H]].
  - apply orb_true_iff in H as [H|H].
    + rewrite (contains_append "// i18n-ignore" "-file" line H). reflexivity.
    + rewrite (contains_append "/* i18n-ignore" "-file" line H).
      apply orb_true_r.
  - apply block_start_is_inline, H.
  - apply orb_true_iff in H as [H|H].
    + rewrite (contains_append "/* i18n-ignore" "-block-end */" line H).
      apply orb_true_r.
    + rewrite (contains_append "// i18n-ignore" "-block-end" line H).
      reflexivity.
Qed.

(** X1. The ignored lines of a file are exactly its lines that contain an
    inline marker: the marker suppresses its own line and no other, and a
    line with a file marker or a block marker counts, since each of those
    markers begins with an inline marker. *)
Theorem ignored_lines_are_the_marked_lines (content : string) (n : nat) :
  (n ∈ (ValidateI18n.parse_ignore_comments content).1.1 <->
   exists line, line_at content n = Some line /\
                ValidateI18n.has_inline_marker line = true) /\
  (forall line,
     line_at content n = Some line ->
     ValidateI18n.has_file_marker line = true \/
     ValidateI18n.has_block_start_marker line = true \/
     ValidateI18n.has_block_end_marker line = true ->
     n ∈ (ValidateI18n.parse_ignore_comments content).1.1).
Proof.
  assert (Hiff : n ∈ (ValidateI18n.parse_ignore_comments content).1.1 <->
                 exists line, line_at content n = Some line /\
                              ValidateI18n.has_inline_marker line = true).
  { unfold ValidateI18n.parse_ignore_comments. simpl.
    destruct (parse_lines_inv (Py.split Py.newline content))
      as (_ & _ & Hlines & _).
    apply Hlines. }
  split; [exact Hiff|].
  intros line Hline Hmark. apply Hiff. exists line. split; [exact Hline|].
  apply marker_contains_inline, Hmark.
Qed.

Lemma ignored_lines_are_the_marked_lines_witness :
  3 ∈ (ValidateI18n.parse_ignore_comments block_comment_block_example).1.1.
Proof.
  destruct (ignored_lines_are_the_marked_lines block_comment_block_example 3)
    as [_ H].
  apply (H "/* i18n-ignore-block-end */").
  - reflexivity.
  - right. right. reflexivity.
Defined.

(** X2. The whole-file flag is set exactly when some line of the file has the
    file marker; a file without it is extracted in full, each user-facing
    literal with the flag of its line. *)
Theorem file_flag_iff_file_marker (content file_path : string) :
  ((ValidateI18n.parse_ignore_comments content).2 = true <->
   exists n line, line_at content n = Some line /\
                  ValidateI18n.has_file_marker line = true) /\
  ((forall n line, line_at content n = Some line ->
                   ValidateI18n.has_file_marker line = false) ->
   ValidateI18n.extract_hardcoded_strings content file_path
   = Ok (map (validate_entry (ValidateI18n.parse_ignore_comments content).1.1
                (ValidateI18n.parse_ignore_comments content).1.2)
           (List.filter
              (fun loc =>
                 user_facing ValidateI18n.is_likely_user_facing_text (l_text loc))
              (literals content)))).
Proof.
  assert (Hiff : (ValidateI18n.parse_ignore_comments content).2 = true <->
                 exists n line, line_at content n = Some line /\
                                ValidateI18n.has_file_marker line = true).
  { unfold ValidateI18n.parse_ignore_comments. simpl.
    destruct (parse_lines_inv (Py.split Py.newline content))
      as (_ & _ & _ & Hfile).
    exact Hfile. }
  split; [exact Hiff|].
  intros Hnone.
  destruct (ValidateI18n.parse_ignore_comments content) as [[il ib] whole] eqn:Hp.
  simpl in *. destruct whole.
  - destruct (proj1 Hiff eq_refl) as (n & line & Hline & Hmark).
    rewrite (Hnone n line Hline) in Hmark. discriminate.
  - apply (validate_extract_spec content file_path il ib false Hp).
Qed.

Lemma file_flag_iff_file_marker_witness :
  ValidateI18n.extract_hardcoded_strings "const a = 'Hello world';" "a.tsx"
  = Ok [("Hello world", 1, false)].
Proof.
  destruct (file_flag_iff_file_marker "const a = 'Hello world';" "a.tsx")
    as [_ H].
  rewrite H; [vm_compute; reflexivity|].
  intros n line Hline. destruct n as [|[|n]].
  - discriminate.
  - vm_compute in Hline. injection Hline as <-. reflexivity.
  - vm_compute in Hline. destruct n; discriminate.
Defined.

Lemma recorded_ranges_iff (content : string) (a b : nat) :
  (a, b) ∈ (ValidateI18n.parse_ignore_comments content).1.2 <->
  a < b /\
  (exists line, line_at content a = Some line /\
                ValidateI18n.has_block_start_marker line = true) /\
  (exists line, line_at content b = Some line /\ closes_block line = true) /\
  (forall k line, a < k < b -> line_at content k = Some line -> idle_line line).
Proof.
  unfold ValidateI18n.parse_ignore_comments. simpl.
  destruct (parse_lines_block_inv (Py.split Py.newline content))
    as (_ & _ & Hblocks).
  apply Hblocks.
Qed.

(** X3. The recorded ranges, exactly: (a, b) is recorded when line a has a
    block-start marker, line b is the first later line whose block-end test
    is reached and succeeds, and no line between them has a block marker.
    So a second start marker inside an open block replaces the first (the
    earlier start records nothing), and an end marker with no open block
    records nothing. *)
Theorem recorded_ranges_exactly (content : string) (a b : nat) :
  (a, b) ∈ (ValidateI18n.parse_ignore_comments content).1.2 <->
  a < b /\
  (exists line, line_at content a = Some line /\
                ValidateI18n.has_block_start_marker line = true) /\
  (exists line, line_at content b = Some line /\
                ValidateI18n.has_block_start_marker line = false /\
                ValidateI18n.has_block_end_marker line = true) /\
  (forall k line, a < k < b -> line_at content k = Some line ->
                  ValidateI18n.has_block_start_marker line = false /\
                  ValidateI18n.has_block_end_marker line = false).
Proof.
  rewrite recorded_ranges_iff. unfold closes_block, idle_line.
  split; intros (Hlt & Ha & (lb & Hlb & Hclose) & Hidle);
    (split; [exact Hlt|]); (split; [exact Ha|]); (split; [|exact Hidle]);
    exists lb; (split; [exact Hlb|]).
  - apply andb_true_iff in Hclose as [Hs He].
    apply negb_true_iff in Hs. auto.
  - destruct Hclose as [-> ->]. reflexivity.
Qed.



(** The later start wins: the block opened on line 1 records nothing. *)
Lemma recorded_ranges_exactly_witness :
  (2, 3) ∈ (ValidateI18n.parse_ignore_comments restarted_block_example).1.2 /\
  (1, 3) ∉ (ValidateI18n.parse_ignore_comments restarted_block_example).1.2.
Proof.
  split.
  - apply (recorded_ranges_exactly restarted_block_example 2 3).
    split; [lia|].
    split; [exists "/* i18n-ignore-block */"; split; reflexivity|].
    split; [exists "/* i18n-ignore-block-end */"; repeat split; reflexivity|].
    intros k line Hk. lia.
  - intros H.
    apply (recorded_ranges_exactly restarted_block_example 1 3) in H
      as (_ & _ & _ & Hidle).
    destruct (Hidle 2 "/* i18n-ignore-block */" ltac:(lia) eq_refl) as [Hs _].
    discriminate.
Defined.

(** ** Where an extracted string comes from *)






(** ** Every extracted string becomes one finding *)

Lemma one_finding_per_entry (rel_path : string) (known : gset string)
    (hardcoded : list (string * nat * bool)) :
  length (flat_map (ignored_of rel_path known) hardcoded)
  + length (flat_map (issue_of rel_path known) hardcoded)
  = length hardcoded.
Proof.
  induction hardcoded as [|[[text n] flag] rest IH]; simpl; [reflexivity|].
  rewrite !length_app.
  destruct flag; [|destruct (bool_decide (text ∈ known))]; simpl; lia.
Qed.

(** X6. Analysing a file never raises, and every user-facing literal of a
    file without the file marker becomes exactly one finding, an ignored
    string or an issue: the two lists grow together by the number of those
    literals (by nothing for a file with the file marker), the file is added
    to the analysed files, and the earlier findings stay in front. *)
Theorem one_finding_per_literal (atk : gmap string (gset string))
    (rel_path content : string) (st : ValidateI18n.Analysis) :
  exists st' new_ignored new_issues,
    ValidateI18n.analyze_file atk rel_path content st = Ok st' /\
    ValidateI18n.ignored_strings st'
    = ValidateI18n.ignored_strings st ++ new_ignored /\
    ValidateI18n.issues st' = ValidateI18n.issues st ++ new_issues /\
    ValidateI18n.all_files st' = ValidateI18n.all_files st ++ [rel_path] /\
    length new_ignored + length new_issues
    = if (ValidateI18n.parse_ignore_comments content).2 then 0
      else length
             (List.filter
                (fun loc =>
                   user_facing ValidateI18n.is_likely_user_facing_text
                     (l_text loc))
                (literals content)).
Proof.
  destruct (ValidateI18n.parse_ignore_comments content) as [[il ib] whole] eqn:Hp.
  pose proof (validate_extract_spec content rel_path il ib whole Hp) as Hextract.
  eexists. eexists. eexists.
  split; [apply (analyze_file_spec _ _ _ _ _ Hextract)|].
  simpl. repeat (split; [reflexivity|]).
  rewrite one_finding_per_entry. destruct whole; [reflexivity|].
  apply length_map.
Qed.

(** X7. What an issue is: every issue that analysing a file adds carries the
    path of that file and is a user-facing literal of it, on a line that no
    annotation suppresses, whose text is not a key of any locale; the file
    has no file marker. *)
Theorem issue_source (atk : gmap string (gset string))
    (rel_path content : string) (st st' : ValidateI18n.Analysis)
    (new_issues : list ValidateI18n.finding) (path : string) (n : nat)
    (text : string) :
  ValidateI18n.analyze_file atk rel_path content st = Ok st' ->
  ValidateI18n.issues st' = ValidateI18n.issues st ++ new_issues ->
  In (path, n, text) new_issues ->
  path = rel_path /\
  (ValidateI18n.parse_ignore_comments content).2 = false /\
  (exists loc, In loc (literals content) /\ l_line loc = n /\ l_text loc = text) /\
  ValidateI18n.is_likely_user_facing_text text = Ok true /\
  ValidateI18n.is_line_ignored n
    (ValidateI18n.parse_ignore_comments content).1.1
    (ValidateI18n.parse_ignore_comments content).1.2 = false /\
  (forall lang keys, atk !! lang = Some keys -> text ∉ keys).
Proof.
  intros Hrun Hissues Hin.
  destruct (ValidateI18n.parse_ignore_comments content) as [[il ib] whole] eqn:Hp.
  pose proof (validate_extract_spec content rel_path il ib whole Hp) as Hextract.
  rewrite (analyze_file_spec _ _ _ _ _ Hextract) in Hrun.
  injection Hrun as <-. simpl in Hissues.
  apply app_inv_head in Hissues. subst new_issues.
  apply in_flat_map in Hin as ([[text' n'] flag] & Hentry & Hin).
  unfold issue_of in Hin. destruct flag; [contradiction|].
  destruct (bool_decide (text' ∈ ValidateI18n.all_known_keys_of atk)) eqn:Hknown;
    [contradiction|].
  destruct Hin as [[= <- <- <-]|[]].
  apply bool_decide_eq_false in Hknown.
  destruct whole; [contradiction|].
  apply in_map_iff in Hentry as (loc & Heq & Hloc).
  apply filter_In in Hloc as [Hloc Huf].
  unfold validate_entry in Heq. injection Heq as <- <- Hflag.
  simpl. split; [reflexivity|]. split; [reflexivity|].
  split; [exists loc; auto|].
  split; [rewrite validate_user_facing_spec; f_equal; exact Huf|].
  split; [exact Hflag|].
  intros lang keys Hlang Hkey. apply Hknown, all_known_keys_spec. eauto.
Qed.

Lemma issue_source_witness :
  "a.tsx" = "a.tsx" /\
  (ValidateI18n.parse_ignore_comments known_key_example).2 = false /\
  (exists loc, In loc (literals known_key_example) /\
               l_line loc = 1 /\ l_text loc = "Hello world") /\
  ValidateI18n.is_likely_user_facing_text "Hello world" = Ok true /\
  ValidateI18n.is_line_ignored 1
    (ValidateI18n.parse_ignore_comments known_key_example).1.1
    (ValidateI18n.parse_ignore_comments known_key_example).1.2 = false /\
  (forall lang keys,
     ({[ "sv" := {[ "Auth.title" ]} ]} : gmap string (gset string)) !! lang
     = Some keys -> "Hello world" ∉ keys).
Proof.
  apply (issue_source {[ "sv" := {[ "Auth.title" ]} ]} "a.tsx" known_key_example
           ValidateI18n.initial_analysis
           {| ValidateI18n.all_files := ["a.tsx"];
              ValidateI18n.issues := [("a.tsx", 1, "Hello world")];
              ValidateI18n.ignored_strings :=
                [("a.tsx", 1, "Auth.title (known translation key)")];
              ValidateI18n.used_keys := ∅ |}
           [("a.tsx", 1, "Hello world")]).
  - vm_compute. reflexivity.
  - reflexivity.
  - left. reflexivity.
Defined.

(** ** What a user-facing text looks like *)









(** ** The two classifiers *)

Lemma any_rule_true_inv (rules : list (string -> pyres bool)) (text : string) :
  ValidateI18n.any_rule rules text = Ok true ->
  Exists (fun rule => rule text = Ok true) rules.
Proof.
  induction rules as [|rule rest IH]; simpl; [discriminate|].
  destruct (rule text) as [[|]|e] eqn:Hrule; simpl.
  - intros _. left. exact Hrule.
  - intros H. right. apply IH, H.
  - discriminate.
Qed.

Lemma in_list_In (s : string) (l : list string) :
  Py.in_list s l = true <-> In s l.
Proof.
  unfold Py.in_list. rewrite existsb_exists. split.
  - intros (x & Hin & Heq). apply String.eqb_eq in Heq. subst. exact Hin.
  - intros Hin. exists s. split; [exact Hin | apply String.eqb_refl].
Qed.

Lemma checked_incl (l1 l2 : list string) :
  forallb (fun x => Py.in_list x l2) l1 = true -> incl l1 l2.
Proof.
  intros H x Hx. rewrite forallb_forall in H. apply in_list_In, H, Hx.
Qed.

Lemma existsb_incl {A : Type} (f : A -> bool) (l1 l2 : list A) :
  incl l1 l2 -> existsb f l1 = true -> existsb f l2 = true.
Proof.
  intros Hincl H. apply existsb_exists in H as (x & Hin & Hfx).
  apply existsb_exists. exists x. auto.
Qed.

Lemma find_rule_in_validate (rule : string -> pyres bool) (text : string) :
  In rule FindHardcodedStrings.exclusion_rules ->
  rule text = Ok true ->
  Exists (fun rule => rule text = Ok true) ValidateI18n.exclusion_rules.
Proof.
  intros Hin Hrule.
  assert (Hsame : In rule ValidateI18n.exclusion_rules ->
                  Exists (fun rule => rule text = Ok true)
                    ValidateI18n.exclusion_rules).
  { intros H. apply Exists_exists. exists rule.
    split; [apply list_elem_of_In, H | exact Hrule]. }
  assert (Hother : forall rule',
            In rule' ValidateI18n.exclusion_rules -> rule' text = Ok true ->
            Exists (fun rule => rule text = Ok true)
              ValidateI18n.exclusion_rules).
  { intros rule' H H'. apply Exists_exists. exists rule'.
    split; [apply list_elem_of_In, H | exact H']. }
  unfold FindHardcodedStrings.exclusion_rules in Hin. simpl in Hin.
  destruct Hin as [<-|Hin].
  { apply (Hother ValidateI18n.ex_technical_prefix); [simpl; tauto|].
    unfold FindHardcodedStrings.ex_technical_prefix in Hrule.
    unfold ValidateI18n.ex_technical_prefix, pure_bool in *. f_equal.
    injection Hrule as Hrule.
    apply (existsb_incl _ FindHardcodedStrings.technical_prefixes);
      [apply checked_incl; vm_compute; reflexivity | exact Hrule]. }
  repeat (destruct Hin as [<-|Hin]; [apply Hsame; simpl; tauto|]).
  destruct Hin as [<-|Hin].
  { apply (Hother ValidateI18n.ex_technical_term); [simpl; tauto|].
    unfold FindHardcodedStrings.ex_technical_term in Hrule.
    unfold ValidateI18n.ex_technical_term, pure_bool in *. f_equal.
    injection Hrule as Hrule. unfold Py.in_list in *.
    apply (existsb_incl _ FindHardcodedStrings.technical_terms);
      [apply checked_incl; vm_compute; reflexivity | exact Hrule]. }
  repeat (destruct Hin as [<-|Hin]; [apply Hsame; simpl; tauto|]).
  destruct Hin as [<-|[]].
  apply (Hother ValidateI18n.ex_non_ui_string); [simpl; tauto|].
  unfold FindHardcodedStrings.ex_non_ui_string in Hrule.
  unfold ValidateI18n.ex_non_ui_string, pure_bool in *. f_equal.
  injection Hrule as Hrule. unfold Py.in_list in *.
  apply (existsb_incl _ FindHardcodedStrings.non_ui_strings);
    [apply checked_incl; vm_compute; reflexivity | exact Hrule].
Qed.

(** X10. The exclusions of validate_i18n extend those of
    find_hardcoded_strings: a text that the exclusions of the older checker
    stop is stopped by those of the newer one, so the newer checker never
    classifies as user-facing a text the older one excludes. *)
Theorem newer_exclusions_extend_older (text : string) :
  FindHardcodedStrings.obviously_technical text = Ok true ->
  ValidateI18n.obviously_technical text = Ok true /\
  ValidateI18n.is_likely_user_facing_text text = Ok false.
Proof.
  intros H. apply any_rule_true_inv in H.
  apply Exists_exists in H as (rule & Hin & Hrule).
  apply list_elem_of_In in Hin.
  pose proof (find_rule_in_validate rule text Hin Hrule) as Hv.
  split; [|apply validate_excluded, Hv].
  apply any_rule_true; [apply validate_exclusions_return | exact Hv].
Qed.

Lemma newer_exclusions_extend_older_witness :
  ValidateI18n.obviously_technical "btn-primary" = Ok true /\
  ValidateI18n.is_likely_user_facing_text "btn-primary" = Ok false.
Proof.
  apply (newer_exclusions_extend_older "btn-primary"). reflexivity.
Defined.

(** ** Strings of utility classes *)

Lemma split_when_length (sep : ascii -> bool) (s : string) :
  list_sum (map (fun piece => S (String.length piece)) (Py.split_when sep s))
  = S (String.length s).
Proof.
  induction s as [|c r IH]; simpl; [reflexivity|].
  destruct (sep c); simpl.
  - rewrite IH. reflexivity.
  - destruct (Py.split_when sep r) as [|piece pieces]; simpl in *; lia.
Qed.

Lemma nonempty_pieces_length (pieces : list string) :
  2 * length (List.filter (fun piece => negb (String.eqb piece "")) pieces)
  <= list_sum (map (fun piece => S (String.length piece)) pieces).
Proof.
  induction pieces as [|piece pieces IH]; simpl; [lia|].
  destruct piece as [|c piece]; simpl; lia.
Qed.

Lemma two_words_three_chars (text : string) :
  2 <= length (Py.split_ws text) -> 3 <= Py.len text.
Proof.
  unfold Py.split_ws, Py.len. intros H.
  pose proof (nonempty_pieces_length (Py.split_when Py.is_space_char text)).
  pose proof (split_when_length Py.is_space_char text). lia.
Qed.

Lemma startswith_lower (p s : string) :
  Py.startswith p s = true -> Py.startswith (Py.lower p) (Py.lower s) = true.
Proof.
  revert s. induction p as [|a p IH]; intros s H; [reflexivity|].
  destruct s as [|b s]; [discriminate|]. simpl in *.
  apply andb_true_iff in H as [Hab Hrest]. apply Ascii.eqb_eq in Hab. subst b.
  rewrite Ascii.eqb_refl. apply IH, Hrest.
Qed.

Lemma contains_lower (p s : string) :
  Py.contains p s = true -> Py.contains (Py.lower p) (Py.lower s) = true.
Proof.
  induction s as [|c s IH]; simpl; intros H.
  - apply orb_true_iff in H as [H|H]; [|discriminate].
    apply startswith_lower in H. simpl in H. rewrite H. reflexivity.
  - apply orb_true_iff in H as [H|H].
    + apply startswith_lower in H. simpl in H. rewrite H. reflexivity.
    + rewrite (IH H). apply orb_true_r.
Qed.

Lemma counted_classes (classes : list string) (count : nat) :
  Forall (fun cls => Py.contains "-" cls = true \/ Py.contains ":" cls = true)
    classes ->
  fold_left ValidateI18n.count_css_class classes count = count + length classes.
Proof.
  intros H. revert count. induction H as [|cls classes Hcls _ IH]; intros count;
    simpl; [lia|].
  rewrite IH. unfold ValidateI18n.count_css_class.
  assert (Hind : Py.any_in ValidateI18n.css_indicators (Py.lower cls) = true).
  { apply existsb_exists. destruct Hcls as [H|H].
    - exists "-". split; [simpl; tauto | apply (contains_lower "-" cls H)].
    - exists ":". split; [simpl; tauto | apply (contains_lower ":" cls H)]. }
  rewrite Hind. lia.
Qed.

(** X11. A text of two or more words, each with a hyphen or a colon in it, is
    a string of utility classes for [_is_css_class_string], and
    validate_i18n classifies it technical; a text with fewer than two words
    is never one. *)
Theorem hyphenated_words_are_css_classes (text : string) :
  (2 <= length (Py.split_ws text) ->
   Forall (fun cls => Py.contains "-" cls = true \/ Py.contains ":" cls = true)
     (Py.split_ws text) ->
   ValidateI18n._is_css_class_string text = true /\
   ValidateI18n.is_likely_user_facing_text text = Ok false) /\
  (length (Py.split_ws text) < 2 ->
   ValidateI18n._is_css_class_string text = false).
Proof.
  split.
  - intros Hwords Hall.
    assert (Hcss : ValidateI18n._is_css_class_string text = true).
    { unfold ValidateI18n._is_css_class_string.
      pose proof (two_words_three_chars text Hwords) as Hlen.
      destruct text as [|c rest]; [simpl in Hlen; lia|].
      replace (String.eqb (String c rest) "") with false by reflexivity.
      replace (Py.len (String c rest) <? 3) with false
        by (symmetry; apply Nat.ltb_ge; exact Hlen).
      cbn [orb].
      replace (length (Py.split_ws (String c rest)) <? 2) with false
        by (symmetry; apply Nat.ltb_ge; exact Hwords).
      rewrite (counted_classes _ 0 Hall). apply Nat.leb_le. lia. }
    split; [exact Hcss|].
    apply validate_excluded, Exists_exists.
    exists ValidateI18n.ex_css_class_string. split.
    + unfold ValidateI18n.exclusion_rules. repeat constructor.
    + unfold ValidateI18n.ex_css_class_string, pure_bool. rewrite Hcss.
      reflexivity.
  - intros Hfew. unfold ValidateI18n._is_css_class_string.
    destruct (String.eqb text "" || (Py.len text <? 3)); [reflexivity|].
    replace (length (Py.split_ws text) <? 2) with true
      by (symmetry; apply Nat.ltb_lt; exact Hfew).
    reflexivity.
Qed.

Lemma hyphenated_words_are_css_classes_witness :
  ValidateI18n._is_css_class_string "items-center gap-2 md:w-4" = true /\
  ValidateI18n.is_likely_user_facing_text "items-center gap-2 md:w-4" = Ok false.
Proof.
  apply (hyphenated_words_are_css_classes "items-center gap-2 md:w-4").
  - vm_compute. lia.
  - vm_compute. repeat constructor.
Defined.

(** ** The keys of a locale *)

Lemma json_ind_items (P : ValidateI18n.json -> Prop) :
  P ValidateI18n.JOther ->
  (forall items, Forall (fun item => P item.2) items ->
                 P (ValidateI18n.JObject items)) ->
  forall obj, P obj.
Proof.
  intros Hother Hobject. fix IH 1. intros [items|]; [|exact Hother].
  apply Hobject. induction items as [|[key value] items IHitems].
  - constructor.
  - constructor; [apply IH | exact IHitems].
Qed.

Lemma leaf_path_cons (key : string) (value : ValidateI18n.json)
    (rest : list (string * ValidateI18n.json)) (path : list string) :
  leaf_path ((key, value) :: rest) path <->
  (value = ValidateI18n.JOther /\ path = [key]) \/
  (exists inner tail, value = ValidateI18n.JObject inner /\
                      path = key :: tail /\ leaf_path inner tail) \/
  leaf_path rest path.
Proof.
  split.
  - intros H. inversion H as [? k Hin|? k inner tail Hin Htail]; subst.
    + destruct Hin as [Heq|Hin]; [injection Heq as ? ?; subst; auto|].
      right. right. apply leaf_here, Hin.
    + destruct Hin as [Heq|Hin];
        [injection Heq as ? ?; subst; right; left; eauto|].
      right. right. apply (leaf_below _ _ inner); assumption.
  - intros [[-> ->]|[(inner & tail & -> & -> & Htail)|H]].
    + apply leaf_here. left. reflexivity.
    + apply (leaf_below _ _ inner); [left; reflexivity | exact Htail].
    + inversion H as [? k Hin|? k inner tail Hin Htail]; subst.
      * apply leaf_here. right. exact Hin.
      * apply (leaf_below _ _ inner); [right; exact Hin | exact Htail].
Qed.

Lemma flatten_keys_spec (obj : ValidateI18n.json) :
  forall prefix,
    match obj with
    | ValidateI18n.JOther =>
        ValidateI18n.flatten_keys obj prefix = Raise AttributeError
    | ValidateI18n.JObject items =>
        exists keys,
          ValidateI18n.flatten_keys obj prefix = Ok keys /\
          forall key, key ∈ keys <->
                      exists path, leaf_path items path /\
                                   key = dotted prefix path
    end.
Proof.
  induction obj as [|items IH] using json_ind_items; intros prefix;
    [reflexivity|].
  cbn [ValidateI18n.flatten_keys].
  match goal with
  | |- exists keys, ?loop items ∅ = Ok keys /\ _ =>
      cut (forall acc, exists keys,
             loop items acc = Ok keys /\
             forall key, key ∈ keys <->
                         key ∈ acc \/
                         exists path, leaf_path items path /\
                                      key = dotted prefix path)
  end.
  { intros H. destruct (H ∅) as (keys & Hrun & Hkeys).
    exists keys. split; [exact Hrun|]. intros key. rewrite Hkeys.
    split; [intros [Hin|Hin]; [|exact Hin] | auto].
    apply not_elem_of_empty in Hin. contradiction. }
  induction IH as [|[key value] rest Hvalue _ IHrest]; intros acc.
  - exists acc. split; [reflexivity|]. intros k. split; [auto|].
    intros [H|(path & H & _)]; [exact H|]. inversion H; contradiction.
  - simpl in Hvalue. destruct value as [inner|].
    + destruct (Hvalue (join_key prefix key)) as (nested & Hnested & Hkeys).
      unfold join_key in Hnested. cbn beta iota. rewrite Hnested. cbn [bind].
      destruct (IHrest (acc ∪ nested)) as (keys & Hrun & Hall).
      exists keys. split; [exact Hrun|]. intros k.
      rewrite Hall, elem_of_union, Hkeys. split.
      * intros [[H|(tail & Htail & ->)]|(path & Hpath & ->)].
        -- auto.
        -- right. exists (key :: tail). split; [|reflexivity].
           apply leaf_path_cons. right. left. eauto.
        -- right. exists path. split; [|reflexivity].
           apply leaf_path_cons. auto.
      * intros [H|(path & Hpath & ->)]; [auto|].
        apply leaf_path_cons in Hpath
          as [[[=] _]|[(inner' & tail & [= <-] & -> & Htail)|Hpath]].
        -- left. right. exists tail. auto.
        -- right. exists path. auto.
    + cbn beta iota.
      destruct (IHrest (acc ∪ {[join_key prefix key]})) as (keys & Hrun & Hall).
      exists keys. split; [exact Hrun|]. intros k.
      rewrite Hall, elem_of_union, elem_of_singleton. split.
      * intros [[H| ->]|(path & Hpath & ->)].
        -- auto.
        -- right. exists [key]. split; [|reflexivity].
           apply leaf_path_cons. auto.
        -- right. exists path. split; [|reflexivity].
           apply leaf_path_cons. auto.
      * intros [H|(path & Hpath & ->)]; [auto|].
        apply leaf_path_cons in Hpath
          as [[_ ->]|[(inner' & tail & [=] & _)|Hpath]].
        -- left. right. reflexivity.
        -- right. exists path. auto.
Qed.

(** X12. The keys of an object are the dotted paths to its values that are
    not objects: every such path gives a key and every key is one, an object
    always flattens without an exception, an object contributes no key of
    its own (an empty section gives none at all), and an item with the empty
    key passes no prefix on to the items below it. *)
Theorem flattened_keys_are_leaf_paths
    (items : list (string * ValidateI18n.json)) (prefix : string) :
  exists keys,
    ValidateI18n.flatten_keys (ValidateI18n.JObject items) prefix = Ok keys /\
    forall key, key ∈ keys <->
                exists path, leaf_path items path /\ key = dotted prefix path.
Proof. apply (flatten_keys_spec (ValidateI18n.JObject items)). Qed.

Example nested_locale_keys :
  ValidateI18n.flatten_keys nested_locale_example ""
  = Ok {[ "auth.title"; "auth.login.title" ]}.
Proof. vm_compute. reflexivity. Qed.

Lemma load_failure_is_empty (read_json : string -> option ValidateI18n.json)
    (file_path : string) :
  read_json file_path = None \/ read_json file_path = Some ValidateI18n.JOther ->
  ValidateI18n.load_translation_keys read_json file_path = ∅.
Proof.
  unfold ValidateI18n.load_translation_keys. intros [-> | ->]; reflexivity.
Qed.

(** X13. A locale file that cannot be read or parsed, or whose document is
    not an object, defines no key: every used key is reported missing for
    that locale, and nothing is reported for it when no key is used. *)
Theorem unreadable_locale_misses_every_key
    (read_json : string -> option ValidateI18n.json) (used : gset string)
    (files : gmap string string) (lang file_path : string) :
  files !! lang = Some file_path ->
  read_json file_path = None \/ read_json file_path = Some ValidateI18n.JOther ->
  ValidateI18n.load_translation_keys read_json file_path = ∅ /\
  ValidateI18n.validate_translation_keys read_json used files !! lang
  = if bool_decide (used ≠ ∅) then Some used else None.
Proof.
  intros Hfile Hread.
  pose proof (load_failure_is_empty read_json file_path Hread) as Hload.
  split; [exact Hload|].
  rewrite validate_translation_keys_lookup, Hfile. cbn zeta.
  rewrite Hload.
  rewrite difference_empty_L. reflexivity.
Qed.

Lemma unreadable_locale_misses_every_key_witness :
  ValidateI18n.load_translation_keys example_locales "fi.json" = ∅ /\
  ValidateI18n.validate_translation_keys example_locales example_used_keys
    {[ "fi" := "fi.json" ]} !! "fi"
  = if bool_decide (example_used_keys ≠ ∅)
    then Some example_used_keys else None.
Proof.
  apply (unreadable_locale_misses_every_key example_locales example_used_keys
           {[ "fi" := "fi.json" ]} "fi" "fi.json").
  - vm_compute. reflexivity.
  - left. reflexivity.
Defined.

(** ** The keys that the code uses *)

Lemma key_body_shape (s key : string) (n : nat) :
  ValidateI18n.key_body s = Some (key, n) ->
  exists q rest,
    ValidateI18n.is_quote q = true /\
    s = key +:+ String q (String ")" rest) /\
    n = String.length key + 2 /\
    Py.all_chars (fun c => negb (ValidateI18n.is_quote c)) key = true.
Proof.
  revert key n. induction s as [|c r IH]; intros key n;
    cbn [ValidateI18n.key_body]; [discriminate|].
  destruct (ValidateI18n.is_quote c) eqn:Hq.
  - destruct (Py.startswith ")" r) eqn:Hs; [|discriminate].
    intros [= <- <-].
    destruct r as [|d r']; [discriminate|]. cbn [Py.startswith] in Hs.
    apply andb_true_iff in Hs as [Hd _].
    apply Ascii.eqb_eq in Hd. subst d.
    exists c, r'. repeat split. exact Hq.
  - destruct (ValidateI18n.key_body r) as [[key' n']|]; [|discriminate].
    intros [= <- <-].
    destruct (IH key' n' eq_refl) as (q & rest & Hquote & -> & -> & Hall).
    exists q, rest. split; [exact Hquote|]. split; [reflexivity|].
    split; [reflexivity|]. simpl. rewrite Hq, Hall. reflexivity.
Qed.

Lemma findall_t_calls_shape (s : string) (skip : nat) (key : string) :
  In key (ValidateI18n.findall_t_calls skip s) ->
  exists before q1 q2 after,
    ValidateI18n.is_quote q1 = true /\
    ValidateI18n.is_quote q2 = true /\
    s = before +:+ "t(" +:+ String q1 (key +:+ String q2 (String ")" after)) /\
    key <> "" /\
    Py.all_chars (fun c => negb (ValidateI18n.is_quote c)) key = true.
Proof.
  revert skip. induction s as [|c r IH]; intros skip; [contradiction|].
  assert (Hnext : forall k,
            In key (ValidateI18n.findall_t_calls k r) ->
            exists before q1 q2 after,
              ValidateI18n.is_quote q1 = true /\
              ValidateI18n.is_quote q2 = true /\
              String c r
              = before +:+ "t(" +:+ String q1 (key +:+ String q2 (String ")" after)) /\
              key <> "" /\
              Py.all_chars (fun c => negb (ValidateI18n.is_quote c)) key = true).
  { intros k Hin.
    destruct (IH _ Hin) as (before & q1 & q2 & after & H1 & H2 & -> & H3 & H4).
    exists (String c before), q1, q2, after. auto. }
  cbn [ValidateI18n.findall_t_calls].
  destruct skip as [|k]; [|apply Hnext].
  destruct r as [|p [|q body]]; try apply Hnext.
  destruct (Ascii.eqb c "t" && Ascii.eqb p "(" && ValidateI18n.is_quote q)
    eqn:Hhead; [|apply Hnext].
  destruct (ValidateI18n.key_body body) as [[[|k0 found] n]|] eqn:Hbody;
    try apply Hnext.
  intros [<-|Hin]; [|apply (Hnext _ Hin)].
  apply andb_true_iff in Hhead as [Hhead Hq].
  apply andb_true_iff in Hhead as [Hc Hp].
  apply Ascii.eqb_eq in Hc, Hp. subst c p.
  destruct (key_body_shape _ _ _ Hbody) as (q2 & rest & Hq2 & -> & _ & Hall).
  exists "", q, q2, rest. repeat split; try assumption. discriminate.
Qed.

(** X14. Every key that [extract_translation_calls] collects stands in the
    text as the whole argument of a call: the letter t, an opening
    parenthesis, a quote, the key, a quote and the closing parenthesis, with
    nothing in between (the two quotes need not be of the same kind); the
    key is not empty and has no quote in it. *)
Theorem collected_key_is_a_call_argument (content key : string) :
  key ∈ ValidateI18n.extract_translation_calls content ->
  exists before q1 q2 after,
    ValidateI18n.is_quote q1 = true /\
    ValidateI18n.is_quote q2 = true /\
    content
    = before +:+ "t(" +:+ String q1 (key +:+ String q2 (String ")" after)) /\
    key <> "" /\
    Py.all_chars (fun c => negb (ValidateI18n.is_quote c)) key = true.
Proof.
  unfold ValidateI18n.extract_translation_calls. intros H.
  apply elem_of_list_to_set, list_elem_of_In in H.
  apply (findall_t_calls_shape _ _ _ H).
Qed.

Lemma collected_key_is_a_call_argument_witness :
  exists before q1 q2 after,
    ValidateI18n.is_quote q1 = true /\
    ValidateI18n.is_quote q2 = true /\
    "x = t('errors.notFound');"
    = before +:+ "t(" +:+
      String q1 ("errors.notFound" +:+ String q2 (String ")" after)) /\
    "errors.notFound" <> "" /\
    Py.all_chars (fun c => negb (ValidateI18n.is_quote c)) "errors.notFound"
    = true.
Proof.
  apply (collected_key_is_a_call_argument "x = t('errors.notFound');").
  vm_compute. reflexivity.
Defined.

(** ** The run over the source tree *)

Lemma extract_returns (content file_path : string) :
  exists hardcoded,
    ValidateI18n.extract_hardcoded_strings content file_path = Ok hardcoded.
Proof.
  destruct (ValidateI18n.parse_ignore_comments content) as [[il ib] whole] eqn:Hp.
  rewrite (validate_extract_spec content file_path il ib whole Hp). eauto.
Qed.

Lemma visit_file_spec (atk : gmap string (gset string)) (rel_path : string)
    (content : option string) (st : ValidateI18n.Analysis) :
  ValidateI18n.visit_file atk rel_path content st
  = ({| ValidateI18n.all_files := ValidateI18n.all_files st ++ [rel_path];
        ValidateI18n.issues :=
          ValidateI18n.issues st ++ file_issues atk (rel_path, content);
        ValidateI18n.ignored_strings :=
          ValidateI18n.ignored_strings st ++ file_ignored atk (rel_path, content);
        ValidateI18n.used_keys :=
          ValidateI18n.used_keys st ∪ file_keys (rel_path, content) |},
     match content with None => true | Some _ => false end).
Proof.
  unfold ValidateI18n.visit_file, file_issues, file_ignored, file_keys. simpl.
  destruct content as [content|].
  - destruct (extract_returns content rel_path) as [hardcoded ->].
    rewrite record_strings_spec. reflexivity.
  - rewrite !app_nil_r, union_empty_r_L. reflexivity.
Qed.

Lemma visit_files_spec (atk : gmap string (gset string)) (fail_on_issues : bool)
    (files : list (string * option string)) (st : ValidateI18n.Analysis) :
  ValidateI18n.visit_files atk fail_on_issues files st
  = if fail_on_issues
       && existsb (fun file => match file.2 with None => true | Some _ => false end)
            files
    then inr 1
    else inl {| ValidateI18n.all_files :=
                  ValidateI18n.all_files st ++ map fst files;
                ValidateI18n.issues :=
                  ValidateI18n.issues st ++ flat_map (file_issues atk) files;
                ValidateI18n.ignored_strings :=
                  ValidateI18n.ignored_strings st
                  ++ flat_map (file_ignored atk) files;
                ValidateI18n.used_keys :=
                  ValidateI18n.used_keys st ∪ ⋃ (map file_keys files) |}.
Proof.
  revert st. induction files as [|[rel_path content] files IH]; intros st.
  - simpl. rewrite andb_false_r, !app_nil_r, union_empty_r_L.
    destruct st. reflexivity.
  - cbn [ValidateI18n.visit_files]. rewrite visit_file_spec.
    destruct content as [content|]; cbn [existsb snd fst map flat_map].
    + rewrite IH. cbn [andb orb].
      destruct (fail_on_issues && existsb _ files); [reflexivity|].
      cbn [ValidateI18n.all_files ValidateI18n.issues
           ValidateI18n.ignored_strings ValidateI18n.used_keys].
      rewrite <- !app_assoc. cbn [app union_list foldr].
      rewrite (assoc_L (∪)). reflexivity.
    + destruct fail_on_issues; [reflexivity|]. rewrite IH.
      cbn [andb ValidateI18n.all_files ValidateI18n.issues
           ValidateI18n.ignored_strings ValidateI18n.used_keys].
      rewrite <- !app_assoc. cbn [app union_list foldr].
      rewrite (assoc_L (∪)). reflexivity.
Qed.


Example exit_status_with_issues :
  ValidateI18n.main example_project = 0 /\
  ValidateI18n.analyze_frontend_strings example_project true = 1 /\
  exists st missing,
    ValidateI18n.reported example_project false = Some (st, missing) /\
    ValidateI18n.all_files st
    = ["frontend/src/App.tsx"; "frontend/src/broken.ts";
       "frontend/src/pages/Home.tsx"] /\
    ValidateI18n.issues st = [("frontend/src/App.tsx", 1, "Hello world")] /\
    missing = {[ "sv" := {[ "errors.notFound"; "home.title" ]};
                 "en" := {[ "home.title" ]} ]}.
Proof.
  split; [vm_compute; reflexivity|]. split; [vm_compute; reflexivity|].
  eexists. eexists. split; [vm_compute; reflexivity|].
  repeat split; vm_compute; reflexivity.
Qed.

Lemma reported_spec (p : ValidateI18n.Project) (fail_on_issues : bool)
    (t : ValidateI18n.tree) (st : ValidateI18n.Analysis)
    (missing : gmap string (gset string)) :
  ValidateI18n.frontend_src p = Some t ->
  ValidateI18n.reported p fail_on_issues = Some (st, missing) ->
  st = {| ValidateI18n.all_files :=
            map fst (ValidateI18n.source_files "frontend/src" t);
          ValidateI18n.issues :=
            flat_map (file_issues (ValidateI18n.all_translation_keys_of p))
              (ValidateI18n.source_files "frontend/src" t);
          ValidateI18n.ignored_strings :=
            flat_map (file_ignored (ValidateI18n.all_translation_keys_of p))
              (ValidateI18n.source_files "frontend/src" t);
          ValidateI18n.used_keys :=
            ∅ ∪ ⋃ (map file_keys (ValidateI18n.source_files "frontend/src" t)) |} /\
  missing = ValidateI18n.validate_translation_keys (ValidateI18n.read_locale p)
              (ValidateI18n.used_keys st) ValidateI18n.translation_files.
Proof.
  intros Hsrc. unfold ValidateI18n.reported. rewrite Hsrc, visit_files_spec.
  destruct (fail_on_issues && existsb _ _); [discriminate|].
  intros [= <- <-]. split; reflexivity.
Qed.

Lemma elem_of_file_keys (files : list (string * option string))
    (file : string * option string) (key : string) :
  In file files -> key ∈ file_keys file -> key ∈ ⋃ (map file_keys files).
Proof.
  intros Hin Hkey. apply elem_of_union_list. exists (file_keys file).
  split; [|exact Hkey]. apply list_elem_of_In, in_map, Hin.
Qed.

(** X16. The keys of every source file that can be read are checked, also
    those of a file with the file marker: each key it uses is among the used
    keys of the report and is listed as missing under every locale that does
    not define it.  The file marker stops the search for literals, not the
    collection of keys. *)
Theorem keys_of_every_readable_file_are_checked (p : ValidateI18n.Project)
    (fail_on_issues : bool) (t : ValidateI18n.tree)
    (st : ValidateI18n.Analysis) (missing : gmap string (gset string))
    (rel_path content key : string) :
  ValidateI18n.frontend_src p = Some t ->
  ValidateI18n.reported p fail_on_issues = Some (st, missing) ->
  In (rel_path, Some content) (ValidateI18n.source_files "frontend/src" t) ->
  key ∈ ValidateI18n.extract_translation_calls content ->
  key ∈ ValidateI18n.used_keys st /\
  forall lang file_path,
    ValidateI18n.translation_files !! lang = Some file_path ->
    key ∉ ValidateI18n.load_translation_keys (ValidateI18n.read_locale p) file_path ->
    exists keys, missing !! lang = Some keys /\ key ∈ keys.
Proof.
  intros Hsrc Hrep Hfile Hkey.
  destruct (reported_spec p fail_on_issues t st missing Hsrc Hrep) as [Hst ->].
  assert (Hused : key ∈ ValidateI18n.used_keys st).
  { rewrite Hst. simpl. apply elem_of_union. right.
    apply (elem_of_file_keys _ (rel_path, Some content)); assumption. }
  split; [exact Hused|].
  intros lang file_path Hlang Hmissing.
  rewrite validate_translation_keys_lookup, Hlang. cbn zeta.
  assert (Hin : key ∈ ValidateI18n.used_keys st
                      ∖ ValidateI18n.load_translation_keys
                          (ValidateI18n.read_locale p) file_path).
  { apply elem_of_difference. auto. }
  rewrite bool_decide_eq_true_2.
  - eexists. split; [reflexivity | exact Hin].
  - intros Hempty. rewrite Hempty in Hin.
    apply not_elem_of_empty in Hin. exact Hin.
Qed.

Lemma keys_of_every_readable_file_are_checked_witness :
  exists st missing,
    ValidateI18n.reported example_project false = Some (st, missing) /\
    ValidateI18n.extract_hardcoded_strings
      (unlines ["// i18n-ignore-file"; "t('home.title')"])
      "frontend/src/pages/Home.tsx" = Ok [] /\
    "home.title" ∈ ValidateI18n.used_keys st /\
    forall lang file_path,
      ValidateI18n.translation_files !! lang = Some file_path ->
      "home.title"
      ∉ ValidateI18n.load_translation_keys
          (ValidateI18n.read_locale example_project) file_path ->
      exists keys, missing !! lang = Some keys /\ "home.title" ∈ keys.
Proof.
  destruct (ValidateI18n.reported example_project false) as [[st missing]|] eqn:Hrep;
    [|vm_compute in Hrep; discriminate].
  exists st, missing. split; [reflexivity|].
  split; [vm_compute; reflexivity|].
  apply (keys_of_every_readable_file_are_checked example_project false
           (ValidateI18n.Dir
              [ ("App.tsx", Some "const a = 'Hello world'; t('errors.notFound')");
                ("types.d.ts", Some "const b = 'Good morning';");
                ("broken.ts", None) ]
              [ ("node_modules",
                 ValidateI18n.Dir [("lib.ts", Some "const c = 'Hello there';")] []);
                ("pages",
                 ValidateI18n.Dir
                   [("Home.tsx",
                     Some (unlines ["// i18n-ignore-file"; "t('home.title')"]))]
                   []) ])
           st missing "frontend/src/pages/Home.tsx"
           (unlines ["// i18n-ignore-file"; "t('home.title')"])).
  - reflexivity.
  - exact Hrep.
  - vm_compute. right. right. left. reflexivity.
  - vm_compute. reflexivity.
Defined.

(** X17. The report of a run that reaches it is put together file by file: in
    the order of the walk, the analysed files are all the source files the
    walk finds, also those that cannot be read, and the issues and the
    ignored strings are those that each readable file gives when it is
    analysed alone, one after the other. *)
Theorem report_is_assembled_per_file (p : ValidateI18n.Project)
    (fail_on_issues : bool) (t : ValidateI18n.tree)
    (st : ValidateI18n.Analysis) (missing : gmap string (gset string)) :
  ValidateI18n.frontend_src p = Some t ->
  ValidateI18n.reported p fail_on_issues = Some (st, missing) ->
  ValidateI18n.all_files st
  = map fst (ValidateI18n.source_files "frontend/src" t) /\
  ValidateI18n.issues st
  = flat_map (file_issues (ValidateI18n.all_translation_keys_of p))
      (ValidateI18n.source_files "frontend/src" t) /\
  ValidateI18n.ignored_strings st
  = flat_map (file_ignored (ValidateI18n.all_translation_keys_of p))
      (ValidateI18n.source_files "frontend/src" t) /\
  (forall rel_path, file_issues (ValidateI18n.all_translation_keys_of p)
                      (rel_path, None) = [] /\
                    file_ignored (ValidateI18n.all_translation_keys_of p)
                      (rel_path, None) = []) /\
  (forall rel_path content,
     exists alone,
       ValidateI18n.analyze_file (ValidateI18n.all_translation_keys_of p)
         rel_path content ValidateI18n.initial_analysis = Ok alone /\
       file_issues (ValidateI18n.all_translation_keys_of p)
         (rel_path, Some content) = ValidateI18n.issues alone /\
       file_ignored (ValidateI18n.all_translation_keys_of p)
         (rel_path, Some content) = ValidateI18n.ignored_strings alone).
Proof.
  intros Hsrc Hrep.
  destruct (reported_spec p fail_on_issues t st missing Hsrc Hrep) as [-> _].
  repeat (split; [reflexivity|]).
  split; [intros rel_path; split; reflexivity|].
  intros rel_path content.
  destruct (extract_returns content rel_path) as [hardcoded Hextract].
  eexists. split; [apply (analyze_file_spec _ _ _ _ _ Hextract)|].
  unfold file_issues, file_ignored. simpl. rewrite Hextract.
  split; reflexivity.
Qed.

Lemma report_is_assembled_per_file_witness :
  exists st missing,
    ValidateI18n.reported example_project false = Some (st, missing) /\
    ValidateI18n.all_files st
    = ["frontend/src/App.tsx"; "frontend/src/broken.ts";
       "frontend/src/pages/Home.tsx"].
Proof.
  destruct (ValidateI18n.reported example_project false) as [[st missing]|] eqn:Hrep;
    [|vm_compute in Hrep; discriminate].
  exists st, missing. split; [reflexivity|].
  destruct (report_is_assembled_per_file example_project false
              (ValidateI18n.Dir
                 [ ("App.tsx", Some "const a = 'Hello world'; t('errors.notFound')");
                   ("types.d.ts", Some "const b = 'Good morning';");
                   ("broken.ts", None) ]
                 [ ("node_modules",
                    ValidateI18n.Dir [("lib.ts", Some "const c = 'Hello there';")] []);
                   ("pages",
                    ValidateI18n.Dir
                      [("Home.tsx",
                        Some (unlines ["// i18n-ignore-file"; "t('home.title')"]))]
                      []) ])
              st missing eq_refl Hrep) as (Hfiles & _).
  rewrite Hfiles. vm_compute. reflexivity.
Defined.

(** ** The files of the walk *)

Lemma tree_ind_dirs (P : ValidateI18n.tree -> Prop) :
  (forall files dirs, Forall (fun d => P d.2) dirs ->
                      P (ValidateI18n.Dir files dirs)) ->
  forall t, P t.
Proof.
  intros Hdir. fix IH 1. intros [files dirs]. apply Hdir.
  induction dirs as [|[d sub] dirs IHdirs].
  - constructor.
  - constructor; [apply IH | exact IHdirs].
Qed.

Lemma source_files_spec (t : ValidateI18n.tree) :
  forall root path content,
    In (path, content) (ValidateI18n.source_files root t) <->
    exists dirs name,
      tree_file t dirs name content /\
      path = path_below root dirs name /\
      ValidateI18n.is_source_file name = true /\
      Forall (fun d => Py.in_list d ValidateI18n.pruned_dirs = false) dirs.
Proof.
  induction t as [files dirs IH] using tree_ind_dirs.
  intros root path content. cbn [ValidateI18n.source_files].
  rewrite in_app_iff, in_map_iff, in_flat_map. split.
  - intros [([name c] & [= <- <-] & Hin)|([d sub] & Hd & Hin)].
    + apply filter_In in Hin as [Hin Hsrc].
      exists [], name. split; [constructor; exact Hin|].
      split; [reflexivity|]. split; [exact Hsrc | constructor].
    + destruct (Py.in_list d ValidateI18n.pruned_dirs) eqn:Hpruned;
        [contradiction|].
      rewrite Forall_forall in IH.
      specialize (IH (d, sub) (proj2 (list_elem_of_In _ _) Hd)). simpl in IH.
      apply IH in Hin as (path' & name & Hfile & -> & Hsrc & Hall).
      exists (d :: path'), name.
      split; [apply (file_below _ _ d sub); assumption|].
      split; [reflexivity|]. split; [exact Hsrc|].
      constructor; assumption.
  - intros (path' & name & Hfile & -> & Hsrc & Hall).
    inversion Hfile as [? ? ? ? Hin|? ? d sub tail ? ? Hd Hsub]; subst.
    + left. exists (name, content). split; [reflexivity|].
      apply filter_In. auto.
    + right. exists (d, sub). split; [exact Hd|].
      apply Forall_cons in Hall as [Hd' Hall]. rewrite Hd'.
      rewrite Forall_forall in IH.
      specialize (IH (d, sub) (proj2 (list_elem_of_In _ _) Hd)). simpl in IH.
      apply IH. exists tail, name. auto.
Qed.

(** X18. The files that are analysed are exactly the files of the tree under
    frontend/src whose name ends in .ts or .tsx and not in .d.ts, and that
    are reached through directories none of which is named node_modules,
    dist, build or .git.  A directory with such a name hides everything
    below it, at any depth. *)
Theorem analysed_files_exactly (t : ValidateI18n.tree) (root path : string)
    (content : option string) :
  In (path, content) (ValidateI18n.source_files root t) <->
  exists dirs name,
    tree_file t dirs name content /\
    path = path_below root dirs name /\
    (Py.endswith ".tsx" name = true \/ Py.endswith ".ts" name = true) /\
    Py.endswith ".d.ts" name = false /\
    Forall (fun d => ~ In d ["node_modules"; "dist"; "build"; ".git"]) dirs.
Proof.
  rewrite source_files_spec.
  assert (Hname : forall name,
            ValidateI18n.is_source_file name = true <->
            (Py.endswith ".tsx" name = true \/ Py.endswith ".ts" name = true) /\
            Py.endswith ".d.ts" name = false).
  { intros name. unfold ValidateI18n.is_source_file, Py.endswith_any.
    cbn [existsb]. rewrite andb_true_iff, negb_true_iff, orb_false_r, orb_true_iff.
    reflexivity. }
  assert (Hdirs : forall dirs,
            Forall (fun d => Py.in_list d ValidateI18n.pruned_dirs = false) dirs <->
            Forall (fun d => ~ In d ["node_modules"; "dist"; "build"; ".git"]) dirs).
  { intros dirs. apply Forall_iff. intros d.
    rewrite <- (in_list_In d ["node_modules"; "dist"; "build"; ".git"]).
    fold ValidateI18n.pruned_dirs.
    destruct (Py.in_list d ValidateI18n.pruned_dirs); split; congruence. }
  split; intros (dirs & name & Hfile & Hpath & Hsrc);
    exists dirs, name; (split; [exact Hfile|]); (split; [exact Hpath|]).
  - destruct Hsrc as [Hsrc Hall]. apply Hname in Hsrc as [Hext Hdecl].
    split; [exact Hext|]. split; [exact Hdecl|]. apply Hdirs, Hall.
  - destruct Hsrc as (Hext & Hdecl & Hall).
    split; [apply Hname; auto | apply Hdirs, Hall].
Qed.

Lemma analysed_files_exactly_witness :
  In ("frontend/src/pages/Home.tsx", Some "t('home.title')")
    (ValidateI18n.source_files "frontend/src"
       (ValidateI18n.Dir []
          [("pages",
            ValidateI18n.Dir [("Home.tsx", Some "t('home.title')")] [])])).
Proof.
  apply analysed_files_exactly. exists ["pages"], "Home.tsx".
  split.
  - apply (file_below _ _ "pages"
             (ValidateI18n.Dir [("Home.tsx", Some "t('home.title')")] []));
      [left; reflexivity|].
    constructor. left. reflexivity.
  - split; [reflexivity|]. split; [left; reflexivity|].
    split; [reflexivity|]. constructor; [|constructor].
    simpl. intros [H|[H|[H|[H|[]]]]]; discriminate.
Defined.

(** ** The two tools on one project *)

Lemma find_extract_returns (content file_path : string) :
  exists hardcoded,
    FindHardcodedStrings.extract_hardcoded_strings content file_path
    = Ok hardcoded.
Proof. rewrite find_extract_spec. eauto. Qed.

Lemma append_hardcoded (rel_path : string) (hardcoded : list (string * nat))
    (total : list (string * nat * string)) :
  fold_left
    (fun total_hardcoded '(string, line_num) =>
       total_hardcoded ++ [(rel_path, line_num, string)])
    hardcoded total
  = total ++ map (fun '(string, line_num) => (rel_path, line_num, string))
               hardcoded.
Proof.
  revert total. induction hardcoded as [|[text n] rest IH]; intros total; simpl.
  - rewrite app_nil_r. reflexivity.
  - rewrite IH, <- app_assoc. reflexivity.
Qed.

Lemma find_visit_files_spec (files : list (string * option string))
    (all_files : list string) (used : gset string)
    (total : list (string * nat * string)) :
  fold_left FindHardcodedStrings.visit_file files (all_files, used, total)
  = (all_files ++ map fst files,
     used ∪ ⋃ (map file_keys files),
     total ++ flat_map file_hardcoded files).
Proof.
  revert all_files used total.
  induction files as [|[rel_path content] files IH]; intros all_files used total.
  - simpl. rewrite !app_nil_r, union_empty_r_L. reflexivity.
  - cbn [fold_left FindHardcodedStrings.visit_file].
    destruct content as [content|].
    + destruct (find_extract_returns content rel_path) as [hardcoded Hextract].
      rewrite Hextract, append_hardcoded, IH.
      unfold file_hardcoded at 2, file_keys at 2.
      cbn [map flat_map fst snd union_list foldr]. rewrite Hextract.
      rewrite <- !app_assoc, (assoc_L (∪)). reflexivity.
    + rewrite IH. unfold file_hardcoded at 2, file_keys at 2.
      cbn [map flat_map fst snd union_list foldr app].
      rewrite <- !app_assoc, (left_id_L ∅ (∪)). reflexivity.
Qed.

(** X19. On a project whose directory frontend/src exists, the two tools go
    through the same files and collect the same used keys, and the keys that
    find_hardcoded_strings lists as missing in a locale are the keys that
    validate_i18n reports for it: validate_i18n has an entry for the locale
    exactly when that set is not empty. *)
Theorem tools_agree_on_keys (p : ValidateI18n.Project) (t : ValidateI18n.tree) :
  ValidateI18n.frontend_src p = Some t ->
  exists summary st missing,
    FindHardcodedStrings.analyze_frontend_strings p = Some summary /\
    ValidateI18n.reported p false = Some (st, missing) /\
    FindHardcodedStrings.all_files summary = ValidateI18n.all_files st /\
    FindHardcodedStrings.used_keys summary = ValidateI18n.used_keys st /\
    missing !! "sv"
    = (if bool_decide (FindHardcodedStrings.missing_sv summary ≠ ∅)
       then Some (FindHardcodedStrings.missing_sv summary) else None) /\
    missing !! "en"
    = (if bool_decide (FindHardcodedStrings.missing_en summary ≠ ∅)
       then Some (FindHardcodedStrings.missing_en summary) else None).
Proof.
  intros Hsrc.
  unfold FindHardcodedStrings.analyze_frontend_strings, ValidateI18n.reported.
  rewrite Hsrc, find_visit_files_spec, visit_files_spec. cbn [andb].
  eexists. eexists. eexists.
  split; [reflexivity|]. split; [reflexivity|].
  cbn [FindHardcodedStrings.all_files FindHardcodedStrings.used_keys
       FindHardcodedStrings.missing_sv FindHardcodedStrings.missing_en
       ValidateI18n.all_files ValidateI18n.used_keys
       ValidateI18n.initial_analysis].
  split; [reflexivity|]. split; [reflexivity|].
  rewrite !validate_translation_keys_lookup.
  split; reflexivity.
Qed.

Lemma tools_agree_on_keys_witness :
  exists summary st missing,
    FindHardcodedStrings.analyze_frontend_strings example_project = Some summary /\
    ValidateI18n.reported example_project false = Some (st, missing) /\
    FindHardcodedStrings.all_files summary = ValidateI18n.all_files st /\
    FindHardcodedStrings.used_keys summary = ValidateI18n.used_keys st /\
    missing !! "sv"
    = (if bool_decide (FindHardcodedStrings.missing_sv summary ≠ ∅)
       then Some (FindHardcodedStrings.missing_sv summary) else None) /\
    missing !! "en"
    = (if bool_decide (FindHardcodedStrings.missing_en summary ≠ ∅)
       then Some (FindHardcodedStrings.missing_en summary) else None).
Proof.
  destruct (ValidateI18n.frontend_src example_project) as [t|] eqn:Hsrc;
    [|discriminate].
  apply (tools_agree_on_keys example_project t Hsrc).
Defined.

(** X20. The high-priority strings of find_hardcoded_strings are findings of
    the run: each one is longer than ten characters, is among the hardcoded
    strings of the summary, and is a literal, classified user-facing, of a
    file of the walk that could be read, reported with the path of that file
    and the number of its line. *)
Theorem priority_string_source (p : ValidateI18n.Project)
    (t : ValidateI18n.tree) (summary : FindHardcodedStrings.Summary)
    (path : string) (n : nat) (text : string) :
  ValidateI18n.frontend_src p = Some t ->
  FindHardcodedStrings.analyze_frontend_strings p = Some summary ->
  In (path, n, text) (FindHardcodedStrings.priority_strings summary) ->
  10 < Py.len text /\
  In (path, n, text) (FindHardcodedStrings.total_hardcoded summary) /\
  exists content loc,
    In (path, Some content) (ValidateI18n.source_files "frontend/src" t) /\
    In loc (literals content) /\ l_line loc = n /\ l_text loc = text /\
    FindHardcodedStrings.is_likely_user_facing_text text = Ok true.
Proof.
  intros Hsrc Hrun Hin.
  unfold FindHardcodedStrings.analyze_frontend_strings in Hrun.
  rewrite Hsrc, find_visit_files_spec in Hrun. injection Hrun as <-.
  cbn [FindHardcodedStrings.priority_strings
       FindHardcodedStrings.total_hardcoded app] in *.
  apply filter_In in Hin as [Hin Hpriority].
  unfold FindHardcodedStrings.is_priority in Hpriority.
  apply andb_true_iff in Hpriority as [Hlong _].
  apply Nat.ltb_lt in Hlong.
  split; [exact Hlong|]. split; [exact Hin|].
  apply in_flat_map in Hin as ([rel_path content] & Hfile & Hin).
  unfold file_hardcoded in Hin. cbn [fst snd] in Hin.
  destruct content as [content|]; [|contradiction].
  rewrite find_extract_spec in Hin.
  apply in_map_iff in Hin as ([text' n'] & Heq & Hin).
  injection Heq as <- <- <-.
  apply in_map_iff in Hin as (loc & Heq & Hloc).
  apply filter_In in Hloc as [Hloc Huf].
  unfold find_entry in Heq. injection Heq as <- <-.
  exists content, loc.
  split; [exact Hfile|]. split; [exact Hloc|].
  split; [reflexivity|]. split; [reflexivity|].
  rewrite find_user_facing_spec. f_equal. exact Huf.
Qed.

Lemma priority_string_source_witness :
  exists t summary,
    ValidateI18n.frontend_src example_project = Some t /\
    FindHardcodedStrings.analyze_frontend_strings example_project
    = Some summary /\
    10 < Py.len "Hello world" /\
    In ("frontend/src/App.tsx", 1, "Hello world")
       (FindHardcodedStrings.total_hardcoded summary) /\
    exists content loc,
      In ("frontend/src/App.tsx", Some content)
         (ValidateI18n.source_files "frontend/src" t) /\
      In loc (literals content) /\ l_line loc = 1 /\
      l_text loc = "Hello world" /\
      FindHardcodedStrings.is_likely_user_facing_text "Hello world" = Ok true.
Proof.
  eexists. eexists.
  split; [reflexivity|]. split; [vm_compute; reflexivity|].
  eapply (priority_string_source example_project).
  - reflexivity.
  - vm_compute. reflexivity.
  - vm_compute. left. reflexivity.
Defined.

(** ** Resolving the escapes *)

Lemma startswith_len (p s : string) :
  Py.startswith p s = true -> Py.len p <= Py.len s.
Proof.
  unfold Py.len. revert s.
  induction p as [|a p IH]; intros [|b s]; simpl; intros H;
    try lia; try discriminate.
  apply andb_true_iff in H as [_ H]. apply IH in H. lia.
Qed.

Lemma len_append (s1 s2 : string) :
  Py.len (s1 +:+ s2) = Py.len s1 + Py.len s2.
Proof.
  unfold Py.len. induction s1 as [|c s1 IH]; [reflexivity|].
  change (String c s1 +:+ s2) with (String c (s1 +:+ s2)).
  simpl. rewrite IH. reflexivity.
Qed.

Lemma replace_from_len (old new : string) (skip : nat) (s : string) :
  Py.len new <= Py.len old ->
  Py.len (Py.replace_from old new skip s) <= Py.len s - skip.
Proof.
  intros Hnew. revert skip.
  induction s as [|c r IH]; intros skip; [simpl; lia|].
  cbn [Py.replace_from]. destruct skip as [|k].
  - destruct (Py.startswith old (String c r)) eqn:Hstart.
    + apply startswith_len in Hstart. specialize (IH (Py.len old - 1)).
      rewrite len_append. unfold Py.len in *. simpl in *. lia.
    + specialize (IH 0). unfold Py.len in *. simpl in *. lia.
  - specialize (IH k). unfold Py.len in *. simpl in *. lia.
Qed.

Lemma replace_len (old new s : string) :
  Py.len new <= Py.len old ->
  Py.len (Py.replace old new s) <= Py.len s.
Proof.
  intros Hnew. unfold Py.replace.
  pose proof (replace_from_len old new 0 s Hnew). lia.
Qed.

Lemma replace_absent (c : ascii) (old' new s : string) :
  Py.contains (String c "") s = false ->
  Py.replace (String c old') new s = s.
Proof.
  unfold Py.replace. induction s as [|b r IH]; intros Habsent; [reflexivity|].
  cbn [Py.contains Py.startswith] in Habsent.
  apply orb_false_iff in Habsent as [Hhead Htail].
  rewrite andb_true_r in Hhead.
  cbn [Py.replace_from Py.startswith]. rewrite Hhead. cbn [andb].
  rewrite (IH Htail). reflexivity.
Qed.

(** X21. Resolving the escapes never lengthens a string: each of the four
    replacements puts one character in the place of two. *)
Theorem unescape_never_lengthens (text : string) :
  Py.len (ValidateI18n.unescape text) <= Py.len text.
Proof.
  unfold ValidateI18n.unescape.
  repeat (etransitivity; [apply replace_len; simpl; lia|]).
  reflexivity.
Qed.

(** X22. A string without a backslash is left as it is when the escapes are
    resolved. *)
Theorem unescape_without_backslash (text : string) :
  Py.contains (String Py.backslash "") text = false ->
  ValidateI18n.unescape text = text.
Proof.
  intros Habsent. unfold ValidateI18n.unescape.
  rewrite !(replace_absent _ _ _ _ Habsent). reflexivity.
Qed.

Lemma unescape_without_backslash_witness :
  ValidateI18n.unescape "Hello world" = "Hello world".
Proof. apply (unescape_without_backslash "Hello world"). reflexivity. Defined.
